(** * hr-Nexus: session gate, route classifier and KPI fetch orchestrator

    A shallow embedding of the two source files of the repository:

    - the request middleware ([middleware], route classification by path
      prefix and the cookie checks of the admin and company branches);
    - the client hook [useOptimizedKPIData] ([validateSession],
      [fetchOptimizedKPIs] and the state the hook exposes).

    JavaScript values are modelled by [JSValue]; numbers are IEEE binary64
    floats (Rocq's primitive floats), strings are sequences of code units
    below 256, time values are integers (milliseconds since the epoch).
    Exceptions are explicit ([Result], [Settled]); the React state, the
    browser stores and the requests sent to the backend are threaded through
    a small state-and-exception monad. *)

From Stdlib Require Import ZArith String Ascii List Bool Lia DecimalString.
From Stdlib Require Import Floats.PrimFloat Floats.SpecFloat Floats.FloatOps.
From stdpp Require Import base option gmap strings.

Import ListNotations.
Local Open Scope string_scope.
Local Open Scope list_scope.
Local Open Scope Z_scope.

(* ===================================================================== *)
(** ** JavaScript values *)
(* ===================================================================== *)

Set Warnings "-register-all".

Module JS.

(** The values the program handles: what [JSON.parse] can return, plus
    [undefined] (the result of reading a missing property) and non-JSON
    numbers such as [NaN]. An object keeps its properties in insertion
    order; a later binding of a key shadows an earlier one. *)
Inductive JSValue : Type :=
| JUndefined
| JNull
| JBool (b : bool)
| JNum (n : float)
| JStr (s : string)
| JArr (items : list JSValue)
| JObj (props : list (string * JSValue)).

(** What a [throw] carries: an [Error] instance (with its [message]) or any
    other value. [err instanceof Error] is [true] exactly on the former. *)
Inductive Thrown : Type :=
| ErrorObject (name message : string)
| ThrownValue (v : JSValue).

(** A computation that returns or throws. *)
Inductive Result (A : Type) : Type :=
| Ok (a : A)
| Throw (e : Thrown).
Arguments Ok {A} a.
Arguments Throw {A} e.

Definition rbind {A B} (r : Result A) (k : A -> Result B) : Result B :=
  match r with
  | Ok a => k a
  | Throw e => Throw e
  end.

(** [try { body } catch { handler }] for a handler that cannot throw. *)
Definition try_catch {A} (body : Result A) (handler : Thrown -> A) : A :=
  match body with
  | Ok a => a
  | Throw e => handler e
  end.

(** *** Truthiness *)

(** [ToBoolean] of a number: [NaN], [+0] and [-0] are falsy. *)
Definition number_truthy (n : float) : bool :=
  negb (is_nan n || is_zero n).

(** [ToBoolean]: [undefined], [null], [false], [NaN], zeros and the empty
    string are falsy; everything else, every object and array included, is
    truthy. *)
Definition ToBoolean (v : JSValue) : bool :=
  match v with
  | JUndefined | JNull => false
  | JBool b => b
  | JNum n => number_truthy n
  | JStr s => negb (String.eqb s "")
  | JArr _ | JObj _ => true
  end.

(** [a || b] on values. *)
Definition js_or (a b : JSValue) : JSValue :=
  if ToBoolean a then a else b.

(** *** Property access *)

(** The last binding of [k]: the value an object built from [props] in
    order holds for [k]. *)
Fixpoint lookup_prop (k : string) (props : list (string * JSValue))
  : option JSValue :=
  match props with
  | [] => None
  | (k', v) :: rest =>
      match lookup_prop k rest with
      | Some v' => Some v'
      | None => if String.eqb k k' then Some v else None
      end
  end.

(** [v.k] for a property name [k] that no built-in prototype defines and
    that is neither an index nor [length] (the names the program reads:
    [expires_at], [company_id], [access_token], [is_valid] and the column
    names). Reading a property of [null] or [undefined] throws a
    [TypeError], whose message the engine chooses. *)
Definition getProp (type_error_message : string -> string)
           (v : JSValue) (k : string) : Result JSValue :=
  match v with
  | JUndefined | JNull => Throw (ErrorObject "TypeError" (type_error_message k))
  | JObj props => Ok (default JUndefined (lookup_prop k props))
  | JBool _ | JNum _ | JStr _ | JArr _ => Ok JUndefined
  end.

(** [v?.[0]] and [v?.k]: [undefined] instead of a throw on [null] and
    [undefined]. Element [0] of an array is its first item, of a string its
    first character, of an object its property ["0"]. *)
Definition optIndex0 (v : JSValue) : JSValue :=
  match v with
  | JArr (x :: _) => x
  | JStr (String c _) => JStr (String c EmptyString)
  | JObj props => default JUndefined (lookup_prop "0" props)
  | _ => JUndefined
  end.

Definition optProp (v : JSValue) (k : string) : JSValue :=
  match v with
  | JObj props => default JUndefined (lookup_prop k props)
  | _ => JUndefined
  end.

End JS.
Export JS.

(* ===================================================================== *)
(** ** Numbers: [StringToNumber] and the time value of a number *)
(* ===================================================================== *)

Module JSNumber.

(** The binary64 value nearest to [(-1)^neg * m * 10^e10] (ties to even),
    computed on integers: a non-negative exponent multiplies, a negative one
    divides with the remainder's position kept for the rounding. *)
Definition decimal_to_float (neg : bool) (m : Z) (e10 : Z) : float :=
  match m with
  | Z0 => if neg then neg_zero else zero
  | Zneg _ => nan
  | Zpos _ =>
      if 0 <=? e10 then
        SF2Prim (binary_normalize prec emax
                   (if neg then - (m * 10 ^ e10) else m * 10 ^ e10) 0 neg)
      else
        let '(q, e2, loc) :=
          SFdiv_core_binary prec emax m 0 (10 ^ (- e10)) 0 in
        SF2Prim (binary_round_aux prec emax neg q e2 loc)
  end.

(** [StrWhiteSpaceChar] among the code units below 256: TAB, LF, VT, FF, CR,
    SP and NBSP. *)
Definition is_white_space (c : ascii) : bool :=
  let n := nat_of_ascii c in
  ((9 <=? n) && (n <=? 13))%nat || (n =? 32)%nat || (n =? 160)%nat.

Fixpoint drop_white_space (l : list ascii) : list ascii :=
  match l with
  | c :: rest => if is_white_space c then drop_white_space rest else l
  | [] => []
  end.

Definition trim (l : list ascii) : list ascii :=
  rev (drop_white_space (rev (drop_white_space l))).

(** The value of a digit in a base up to 16, [None] for any other character. *)
Definition digit_value (base : Z) (c : ascii) : option Z :=
  let n := Z.of_nat (nat_of_ascii c) in
  let v :=
    if (48 <=? n) && (n <=? 57) then Some (n - 48)
    else if (97 <=? n) && (n <=? 102) then Some (n - 87)
    else if (65 <=? n) && (n <=? 70) then Some (n - 55)
    else None in
  match v with
  | Some d => if d <? base then Some d else None
  | None => None
  end.

(** The longest prefix of digits of [l] in [base]: its value on top of [acc],
    how many digits it has, and what follows it. *)
Fixpoint read_digits (base : Z) (l : list ascii) (acc : Z) (count : Z)
  : Z * Z * list ascii :=
  match l with
  | c :: rest =>
      match digit_value base c with
      | Some d => read_digits base rest (acc * base + d) (count + 1)
      | None => (acc, count, l)
      end
  | [] => (acc, count, [])
  end.

(** [0x], [0o] and [0b] literals: at least one digit, nothing after them. *)
Definition radix_literal (base : Z) (digits : list ascii) : float :=
  match read_digits base digits 0 0 with
  | (v, count, []) =>
      if 0 <? count then decimal_to_float false v 0 else nan
  | _ => nan
  end.

(** [ExponentPart], when present: [e] or [E], an optional sign, at least one
    digit. [Some 0] when [l] is empty, [None] when [l] is anything else. *)
Definition read_exponent (l : list ascii) : option Z :=
  match l with
  | [] => Some 0
  | c :: rest =>
      if (Ascii.eqb c "e" || Ascii.eqb c "E")%bool then
        let '(neg, digits) :=
          match rest with
          | s :: rest' =>
              if Ascii.eqb s "-" then (true, rest')
              else if Ascii.eqb s "+" then (false, rest')
              else (false, rest)
          | [] => (false, rest)
          end in
        match read_digits 10 digits 0 0 with
        | (v, count, []) =>
            if 0 <? count then Some (if neg then - v else v) else None
        | _ => None
        end
      else None
  end.

(** [StrUnsignedDecimalLiteral] other than [Infinity]: digits, an optional
    fraction, an optional exponent, with a digit before or after the dot. *)
Definition unsigned_decimal (neg : bool) (l : list ascii) : float :=
  let '(int_part, int_count, after_int) := read_digits 10 l 0 0 in
  let '(mantissa, frac_count, after_frac) :=
    match after_int with
    | c :: rest =>
        if Ascii.eqb c "." then read_digits 10 rest int_part 0
        else (int_part, 0, after_int)
    | [] => (int_part, 0, [])
    end in
  if (int_count + frac_count =? 0) then nan
  else
    match read_exponent after_frac with
    | Some e => decimal_to_float neg mantissa (e - frac_count)
    | None => nan
    end.

Definition infinity_literal : list ascii := list_ascii_of_string "Infinity".

Definition list_ascii_eqb (a b : list ascii) : bool :=
  String.eqb (string_of_list_ascii a) (string_of_list_ascii b).

Definition signed_decimal (l : list ascii) : float :=
  let '(neg, body) :=
    match l with
    | c :: rest =>
        if Ascii.eqb c "-" then (true, rest)
        else if Ascii.eqb c "+" then (false, rest)
        else (false, l)
    | [] => (false, l)
    end in
  if list_ascii_eqb body infinity_literal
  then (if neg then neg_infinity else infinity)
  else unsigned_decimal neg body.

(** [StringToNumber]: white space is trimmed, the empty string is [+0], a
    string that is no [StringNumericLiteral] is [NaN]. *)
Definition StringToNumber (s : string) : float :=
  match trim (list_ascii_of_string s) with
  | [] => zero
  | (c0 :: c1 :: rest) as l =>
      if Ascii.eqb c0 "0" then
        if (Ascii.eqb c1 "x" || Ascii.eqb c1 "X")%bool then radix_literal 16 rest
        else if (Ascii.eqb c1 "o" || Ascii.eqb c1 "O")%bool then radix_literal 8 rest
        else if (Ascii.eqb c1 "b" || Ascii.eqb c1 "B")%bool then radix_literal 2 rest
        else signed_decimal l
      else signed_decimal l
  | l => signed_decimal l
  end.

(** The integer part of a finite float, rounded towards zero; [None] for
    [NaN] and the infinities. *)
Definition float_trunc (x : float) : option Z :=
  match Prim2SF x with
  | S754_zero _ => Some 0
  | S754_finite s m e =>
      let a := if 0 <=? e then Zpos m * 2 ^ e else Zpos m / 2 ^ (- e) in
      Some (if s then - a else a)
  | S754_infinity _ | S754_nan => None
  end.

(** [TimeClip]: the time value of a number, [None] (an invalid date) when it
    is not finite or beyond 8.64e15 ms from the epoch. *)
Definition TimeClip (x : float) : option Z :=
  if is_nan x || is_infinity x then None
  else if (8640000000000000 <? abs x)%float then None
  else float_trunc x.

End JSNumber.
Export JSNumber.

(* ===================================================================== *)
(** ** The platform functions the program calls *)
(* ===================================================================== *)

(** Built-ins of the JavaScript runtime that the two files call and that
    are not part of the repository. The development is parametric in them;
    [Reference.runtime] below gives one executable instance.

    - [atob] throws on a string that is not base64;
    - [JSON_parse] throws a [SyntaxError] on a string that is not JSON;
    - [Date_parse] is the time value [new Date(s)] gets from a string,
      [None] when the string is no date (the time value is [NaN]);
    - [NumberToString] prints a number;
    - [type_error_message] is the message of the [TypeError] thrown when a
      property of [null] or [undefined] is read;
    - [conversion_error_message] is the message of the [TypeError] thrown
      when an object cannot be converted to a primitive value. *)
Class Runtime : Type := {
  atob : string -> Result string;
  JSON_parse : string -> Result JSValue;
  Date_parse : string -> option Z;
  NumberToString : float -> string;
  type_error_message : string -> string;
  conversion_error_message : string
}.

Module Coercions.
Section WithRuntime.
Context {RT : Runtime}.

Fixpoint join_comma (parts : list string) : string :=
  match parts with
  | [] => ""
  | [p] => p
  | p :: rest => p ++ "," ++ join_comma rest
  end.

(** The [TypeError] of a conversion to a primitive that finds neither a
    callable [toString] nor a callable [valueOf] giving a primitive. *)
Definition not_convertible : Thrown :=
  ErrorObject "TypeError" conversion_error_message.

(** All the results in order, or the first throw. *)
Fixpoint sequence_results {A} (l : list (Result A)) : Result (list A) :=
  match l with
  | [] => Ok []
  | r :: rest =>
      rbind r (fun a => rbind (sequence_results rest) (fun l' => Ok (a :: l')))
  end.

(** [ToString], which converts an object to a primitive first. A plain
    object prints as ["[object Object]"], unless it has a property
    [toString] of its own: what [JSON.parse] stored there is not callable
    and hides [Object.prototype.toString], [valueOf] gives back the object,
    and the conversion throws a [TypeError]. An array prints its items
    separated by commas, [null] and [undefined] items as the empty string,
    and throws when the conversion of an item throws. *)
Fixpoint ToString (v : JSValue) : Result string :=
  match v with
  | JUndefined => Ok "undefined"
  | JNull => Ok "null"
  | JBool true => Ok "true"
  | JBool false => Ok "false"
  | JNum n => Ok (NumberToString n)
  | JStr s => Ok s
  | JArr items =>
      rbind (sequence_results
               (List.map (fun x => match x with
                                   | JUndefined | JNull => Ok ""
                                   | _ => ToString x
                                   end) items))
            (fun parts => Ok (join_comma parts))
  | JObj props =>
      match lookup_prop "toString" props with
      | Some _ => Throw not_convertible
      | None => Ok "[object Object]"
      end
  end.

(** [Number(v)]: arrays and objects go through their string form, and
    [Number] throws where that conversion throws. *)
Definition ToNumber (v : JSValue) : Result float :=
  match v with
  | JUndefined => Ok nan
  | JNull => Ok zero
  | JBool true => Ok one
  | JBool false => Ok zero
  | JNum n => Ok n
  | JStr s => Ok (StringToNumber s)
  | JArr _ | JObj _ => rbind (ToString v) (fun s => Ok (StringToNumber s))
  end.

(** The time value of [new Date(v)], [None] for an invalid date: a string is
    parsed, an array or object is converted to its string form (which can
    throw) and parsed, anything else is converted to a number and clipped. *)
Definition newDate (v : JSValue) : Result (option Z) :=
  match v with
  | JStr s => Ok (Date_parse s)
  | JArr _ | JObj _ => rbind (ToString v) (fun s => Ok (Date_parse s))
  | _ => rbind (ToNumber v) (fun n => Ok (TimeClip n))
  end.

(** [new Date(v) < new Date()] at the time [now]: the comparison of two
    time values, [false] as soon as the left one is [NaN]; it throws when
    [new Date(v)] throws. *)
Definition date_before_now (v : JSValue) (now : Z) : Result bool :=
  rbind (newDate v) (fun time =>
    match time with
    | Some t => Ok (t <? now)
    | None => Ok false
    end).

(** [v.k], with the runtime's [TypeError]. *)
Definition prop (v : JSValue) (k : string) : Result JSValue :=
  getProp type_error_message v k.

End WithRuntime.
End Coercions.
Export Coercions.

(* ===================================================================== *)
(** ** The middleware (route classifier and local session checks) *)
(* ===================================================================== *)

Module Middleware.

(** What the middleware reads of a [NextRequest]: the path of its URL, its
    cookies (name to value) and its headers (lower-case name to value). *)
Record NextRequest : Type := {
  pathname : string;
  cookies : gmap string string;
  headers : gmap string string
}.

(** A cookie written on a response: [response.cookies.set(name, value,
    { maxAge })]. *)
Record SetCookie : Type := {
  cookie_name : string;
  cookie_value : string;
  cookie_maxAge : Z
}.

Inductive ResponseKind : Type :=
| Next                          (* NextResponse.next(): the request goes on *)
| Redirect (target : string).   (* NextResponse.redirect(new URL(target, request.url)) *)

(** A [NextResponse]: pass-through or redirect, the request headers it
    overrides for the downstream handler ([None]: the request's own), and
    the cookies it sets. *)
Record NextResponse : Type := {
  kind : ResponseKind;
  request_headers : option (gmap string string);
  set_cookies : list SetCookie
}.

Definition NextResponse_next : NextResponse :=
  {| kind := Next; request_headers := None; set_cookies := [] |}.

Definition NextResponse_next_with (h : gmap string string) : NextResponse :=
  {| kind := Next; request_headers := Some h; set_cookies := [] |}.

Definition NextResponse_redirect (target : string) : NextResponse :=
  {| kind := Redirect target; request_headers := None; set_cookies := [] |}.

(** [response.cookies.set(name, '', { maxAge: 0 })] *)
Definition clear_cookie (name : string) (r : NextResponse) : NextResponse :=
  {| kind := kind r;
     request_headers := request_headers r;
     set_cookies :=
       set_cookies r ++
       [{| cookie_name := name; cookie_value := ""; cookie_maxAge := 0 |}] |}.

(** A run of the middleware: its response and the lines it wrote to the
    console. *)
Record Run : Type := {
  response : NextResponse;
  console : list string
}.

Definition quiet (r : NextResponse) : Run :=
  {| response := r; console := [] |}.

Definition logging (line : string) (r : NextResponse) : Run :=
  {| response := r; console := [line] |}.

(** *** The three path tables (lines 8-28) *)

Definition publicPaths : list string :=
  ["/"; "/login"; "/demo"; "/api/demo"; "/favicon.ico"; "/_next"; "/api/health"].

Definition adminPaths : list string := ["/admin"].

Definition protectedPaths : list string :=
  ["/dashboard"; "/import"; "/employees"; "/settings"; "/api/import"].

(** [path.startsWith(p)] *)
Definition startsWith (path p : string) : bool := String.prefix p path.

(** Lines 31-33: [publicPaths.some(p => path === p || path.startsWith(p))] *)
Definition isPublicPath (path : string) : bool :=
  existsb (fun publicPath =>
             String.eqb path publicPath || startsWith path publicPath)
          publicPaths.

(** Line 41 *)
Definition isAdminPath (path : string) : bool :=
  existsb (fun adminPath => startsWith path adminPath) adminPaths.

(** Lines 64-66 *)
Definition isProtectedPath (path : string) : bool :=
  existsb (fun protectedPath => startsWith path protectedPath) protectedPaths.

(** *** [Headers.set] *)

(** HTTP whitespace: TAB, LF, CR and SP. *)
Definition is_http_whitespace (c : ascii) : bool :=
  let n := nat_of_ascii c in
  ((n =? 9) || (n =? 10) || (n =? 13) || (n =? 32))%nat.

Fixpoint drop_http_whitespace (l : list ascii) : list ascii :=
  match l with
  | c :: rest => if is_http_whitespace c then drop_http_whitespace rest else l
  | [] => []
  end.

(** A header value is normalized by removing leading and trailing HTTP
    whitespace. *)
Definition normalize_header_value (s : string) : string :=
  string_of_list_ascii
    (rev (drop_http_whitespace
            (rev (drop_http_whitespace (list_ascii_of_string s))))).

(** A header value holds no NUL, LF or CR. *)
Definition valid_header_value (s : string) : bool :=
  forallb (fun c => let n := nat_of_ascii c in
                    negb ((n =? 0) || (n =? 10) || (n =? 13))%nat)
          (list_ascii_of_string s).

Section WithRuntime.
Context {RT : Runtime}.

(** The value [Headers.set] stores for [v], when it stores one: [v] is
    converted to a string, which can throw, and normalized. *)
Definition header_value (v : JSValue) : Result string :=
  rbind (ToString v) (fun s => Ok (normalize_header_value s)).

(** [h.set(name, v)] for a lower-case [name]: [v] is converted to a string
    and normalized; a value that is still not a header value is refused with
    a [TypeError]. *)
Definition Headers_set (h : gmap string string) (name : string) (v : JSValue)
  : Result (gmap string string) :=
  rbind (header_value v) (fun value =>
    if valid_header_value value then Ok (<[name := value]> h)
    else Throw (ErrorObject "TypeError" "Invalid header value")).

(** [JSON.parse(atob(value))] *)
Definition decode_session (value : string) : Result JSValue :=
  rbind (atob value) JSON_parse.

(** A cookie value that is not base64 of JSON: [JSON.parse(atob(value))]
    throws. *)
Definition malformed (value : string) : Prop :=
  exists e, decode_session value = Throw e.

(** The two fields the company branch requires, as it tests them. *)
Definition complete (sessionData : JSValue) : bool :=
  ToBoolean (optProp sessionData "company_id") &&
  ToBoolean (optProp sessionData "access_token").

(** *** The admin branch (lines 43-60) *)

Definition adminGate (request : NextRequest) (now : Z) : Run :=
  match cookies request !! "admin_session" with
  | None => quiet (NextResponse_redirect "/admin/login")
  | Some value =>
      try_catch
        (rbind (decode_session value) (fun sessionData =>
         rbind (prop sessionData "expires_at") (fun expires_at =>
         rbind (date_before_now expires_at now) (fun expired =>
         if expired : bool then
           Ok (quiet (clear_cookie "admin_session"
                        (NextResponse_redirect "/admin/login")))
         else
           Ok (quiet NextResponse_next)))))
        (fun _ => quiet (NextResponse_redirect "/admin/login"))
  end.

(** *** The company branch (lines 69-111) *)

Definition companyGate (request : NextRequest) (now : Z) : Run :=
  let path := pathname request in
  match cookies request !! "company_session" with
  | None =>
      logging ("[Middleware] No session found for " ++ path)
              (NextResponse_redirect "/login")
  | Some value =>
      try_catch
        (rbind (decode_session value) (fun sessionData =>
         rbind (prop sessionData "expires_at") (fun expires_at =>
         rbind (date_before_now expires_at now) (fun expired =>
         if expired : bool then
           Ok (logging ("[Middleware] Session expired for " ++ path)
                 (clear_cookie "company_session" (NextResponse_redirect "/login")))
         else
         rbind (prop sessionData "company_id") (fun company_id =>
         rbind (if ToBoolean company_id
                then prop sessionData "access_token"
                else Ok JUndefined) (fun access_token =>
         if negb (ToBoolean company_id) || negb (ToBoolean access_token) then
           Ok (logging ("[Middleware] Invalid session data for " ++ path)
                 (clear_cookie "company_session" (NextResponse_redirect "/login")))
         else
         rbind (Headers_set (headers request) "x-company-id" company_id)
               (fun h1 =>
         rbind (Headers_set h1 "x-access-token" access_token)
               (fun requestHeaders =>
         Ok (quiet (NextResponse_next_with requestHeaders))))))))))
        (fun _ =>
           logging ("[Middleware] Session parsing error for " ++ path ++ ":")
                   (clear_cookie "company_session" (NextResponse_redirect "/login")))
  end.

(** *** [middleware] (lines 4-115) *)

Definition middleware (request : NextRequest) (now : Z) : Run :=
  let path := pathname request in
  if isPublicPath path then
    quiet NextResponse_next
  else if isAdminPath path && negb (String.eqb path "/admin/login") then
    adminGate request now
  else if isProtectedPath path then
    companyGate request now
  else
    quiet NextResponse_next.

End WithRuntime.
End Middleware.
Export Middleware.

(* ===================================================================== *)
(** ** The KPI hook ([useOptimizedKPIData]) *)
(* ===================================================================== *)

Module KPIHook.

(** *** The normalized records (lines 6-41) *)

Record WorkforceKPIs : Type := {
  etpTotal : float;
  headcountActif : float;
  nbEntrees : float;
  nbSorties : float;
  tauxTurnover : float;
  pctCDI : float;
  ageMoyen : float;
  ancienneteMoyenne : float;
  pctHommes : float;
  pctFemmes : float
}.

Record PayrollKPIs : Type := {
  masseBrute : float;
  coutTotal : float;
  salaireMoyen : float;
  coutMoyenFTE : float;
  partVariable : float;
  tauxCharges : float
}.

Record AbsenceKPIs : Type := {
  tauxAbsenteisme : float;
  nbJoursAbsence : float;
  nbAbsencesTotal : float;
  dureeMoyenne : float;
  nbSalariesAbsents : float;
  nbJoursMaladie : float
}.

Record OptimizedKPIData : Type := {
  workforce : option WorkforceKPIs;
  financials : option PayrollKPIs;
  absences : option AbsenceKPIs
}.

(** *** The backend client *)

(** What an awaited promise does: it is fulfilled with a value, it is
    rejected with a reason, or it never settles (the [await] never resumes). *)
Inductive Settled (A : Type) : Type :=
| Fulfilled (a : A)
| Rejected (reason : Thrown)
| Unsettled.
Arguments Fulfilled {A} a.
Arguments Rejected {A} reason.
Arguments Unsettled {A}.

Record PostgrestError : Type := { message : string }.

(** The [{ data, error }] object a query resolves to. *)
Record PostgrestResponse : Type := {
  response_data : JSValue;
  response_error : option PostgrestError
}.

(** The client [createClient()] returns, as the answers it gives during one
    fetch cycle:
    - [rpc_validate_access_token token]: the call
      [rpc('validate_access_token', { p_token: token })];
    - [select_snapshots etablissement_id periode]: [Promise.all] of the three
      [maybeSingle()] reads, in the order workforce, financials, absences
      (rejected with the reason of the read that rejects first);
    - [update_last_activity id at]: the [update] of [entreprises]. *)
Record SupabaseClient : Type := {
  rpc_validate_access_token : JSValue -> Settled PostgrestResponse;
  select_snapshots :
    string -> string ->
    Settled (PostgrestResponse * PostgrestResponse * PostgrestResponse);
  update_last_activity : JSValue -> Z -> Settled PostgrestResponse
}.

(** A request sent to the backend. *)
Inductive Request : Type :=
| Rpc (fn : string) (p_token : JSValue)
| Select (table etablissement_id periode : string)
| Update (table : string) (id : JSValue) (last_activity_at : Z).

Definition is_select (r : Request) : bool :=
  match r with
  | Select _ _ _ => true
  | _ => false
  end.

Definition is_update (r : Request) : bool :=
  match r with
  | Update _ _ _ => true
  | _ => false
  end.

(** *** The state the code works on *)

(** A cookie as the browser stores it for the page's host. Two cookies of
    one name are two cookies when their domain or path differ; a cookie
    flagged [HttpOnly] is out of the reach of scripts. [stored_domain] is
    [None] for a host-only cookie, the kind a write without a [Domain]
    attribute creates, and the attribute's value otherwise. *)
Record StoredCookie : Type := {
  stored_name : string;
  stored_value : string;
  stored_path : string;
  stored_domain : option string;
  stored_httpOnly : bool
}.

(** The browser: [localStorage], the cookie store behind [document.cookie]
    (every cookie kept for the page, those hidden from scripts too) and
    [window.location.href]. *)
Record Browser : Type := {
  localStorage : gmap string string;
  document_cookie : list StoredCookie;
  location_href : string
}.

(** The three [useState] cells (lines 44-46). *)
Record HookState : Type := {
  data : option OptimizedKPIData;
  loading : bool;
  error : option string
}.

Definition initial_state : HookState :=
  {| data := None; loading := true; error := None |}.

Record World : Type := {
  browser : Browser;
  state : HookState;
  requests : list Request;      (* sent so far, oldest first *)
  console_errors : list Thrown  (* what console.error was given *)
}.

(** *** Asynchronous code *)

Inductive Outcome (A : Type) : Type :=
| Returned (a : A)
| Threw (e : Thrown)
| Suspended.      (* stopped for ever at an await *)
Arguments Returned {A} a.
Arguments Threw {A} e.
Arguments Suspended {A}.

Definition Async (A : Type) : Type := World -> Outcome A * World.

#[export] Instance Async_ret : MRet Async :=
  fun A a w => (Returned a, w).

#[export] Instance Async_bind : MBind Async :=
  fun A B k m w =>
    match m w with
    | (Returned a, w') => k a w'
    | (Threw e, w') => (Threw e, w')
    | (Suspended, w') => (Suspended, w')
    end.

Definition throw {A} (e : Thrown) : Async A := fun w => (Threw e, w).

Definition lift {A} (r : Result A) : Async A :=
  match r with
  | Ok a => mret a
  | Throw e => throw e
  end.

(** [await p] *)
Definition await {A} (p : Settled A) : Async A :=
  match p with
  | Fulfilled a => mret a
  | Rejected e => throw e
  | Unsettled => fun w => (Suspended, w)
  end.

(** [try { body } catch (e) { handler e }] *)
Definition try_catch_async {A} (body : Async A) (handler : Thrown -> Async A)
  : Async A :=
  fun w =>
    match body w with
    | (Threw e, w') => handler e w'
    | r => r
    end.

(** [try { body } catch (e) { handler e } finally { finalizer }], for a
    [finalizer] that neither returns from the function nor throws. *)
Definition try_catch_finally (body : Async unit) (handler : Thrown -> Async unit)
           (finalizer : Async unit) : Async unit :=
  fun w =>
    match try_catch_async body handler w with
    | (Suspended, w') => (Suspended, w')
    | (r, w') => (r, snd (finalizer w'))
    end.

Definition modify (f : World -> World) : Async unit :=
  fun w => (Returned tt, f w).

Definition with_browser (f : Browser -> Browser) (w : World) : World :=
  {| browser := f (browser w); state := state w;
     requests := requests w; console_errors := console_errors w |}.

Definition with_state (f : HookState -> HookState) (w : World) : World :=
  {| browser := browser w; state := f (state w);
     requests := requests w; console_errors := console_errors w |}.

Definition setData (d : option OptimizedKPIData) : Async unit :=
  modify (with_state (fun s =>
    {| data := d; loading := loading s; error := error s |})).

Definition setLoading (b : bool) : Async unit :=
  modify (with_state (fun s =>
    {| data := data s; loading := b; error := error s |})).

Definition setError (e : option string) : Async unit :=
  modify (with_state (fun s =>
    {| data := data s; loading := loading s; error := e |})).

(** [localStorage.getItem(key)] *)
Definition localStorage_getItem (key : string) : Async (option string) :=
  fun w => (Returned (localStorage (browser w) !! key), w).

(** [localStorage.removeItem(key)] *)
Definition localStorage_removeItem (key : string) : Async unit :=
  modify (with_browser (fun b =>
    {| localStorage := delete key (localStorage b);
       document_cookie := document_cookie b;
       location_href := location_href b |})).

(** The stored cookie that a script's write of [name] with [path=/] and no
    [Domain] replaces: the host-only cookie of that name and path, unless it
    is [HttpOnly], which a script's write leaves alone. The page is taken to
    be served over https, where the [Secure] flag of a stored cookie does
    not stand in the way of the write. *)
Definition replaced_by_script (name : string) (c : StoredCookie) : bool :=
  String.eqb (stored_name c) name && String.eqb (stored_path c) "/" &&
  match stored_domain c with None => true | Some _ => false end &&
  negb (stored_httpOnly c).

(** The store after such a write with [max-age=0]: the cookie it replaces is
    gone and nothing is stored in its place. *)
Definition expire_cookie (name : string) (jar : list StoredCookie)
  : list StoredCookie :=
  List.filter (fun c => negb (replaced_by_script name c)) jar.


(** [document.cookie = name + '=; path=/; max-age=0'] *)
Definition expire_document_cookie (name : string) : Async unit :=
  modify (with_browser (fun b =>
    {| localStorage := localStorage b;
       document_cookie := expire_cookie name (document_cookie b);
       location_href := location_href b |})).

(** [window.location.href = url] *)
Definition set_location_href (url : string) : Async unit :=
  modify (with_browser (fun b =>
    {| localStorage := localStorage b;
       document_cookie := document_cookie b;
       location_href := url |})).

(** A request leaves for the backend. *)
Definition send (r : Request) : Async unit :=
  modify (fun w =>
    {| browser := browser w; state := state w;
       requests := requests w ++ [r]; console_errors := console_errors w |}).

Definition console_error (e : Thrown) : Async unit :=
  modify (fun w =>
    {| browser := browser w; state := state w;
       requests := requests w; console_errors := console_errors w ++ [e] |}).

(** *** The transform (lines 148-179) *)

Section WithRuntime.
Context {RT : Runtime}.

(** [Number(v) || 0], which throws when [Number(v)] throws. *)
Definition number_or_zero (v : JSValue) : Result float :=
  rbind (ToNumber v) (fun n => Ok (if number_truthy n then n else zero)).

(** [row.column] for a truthy [row] (reading it cannot throw) and a column
    name, see [prop_of_truthy]. *)
Definition column (row : JSValue) (name : string) : JSValue := optProp row name.

(** The three object literals; their fields are evaluated in the order
    they are written, and the first conversion that throws ends the
    evaluation. *)
Definition transform_workforce (row : JSValue) : Result WorkforceKPIs :=
  rbind (number_or_zero (column row "etp_fin_mois")) (fun etp =>
  rbind (number_or_zero (column row "effectif_fin_mois")) (fun headcount =>
  rbind (number_or_zero (column row "nb_entrees")) (fun entrees =>
  rbind (number_or_zero (column row "nb_sorties")) (fun sorties =>
  rbind (number_or_zero (column row "taux_turnover")) (fun turnover =>
  rbind (number_or_zero (column row "pct_cdi")) (fun cdi =>
  rbind (number_or_zero (column row "age_moyen")) (fun age =>
  rbind (number_or_zero (column row "anciennete_moyenne_mois")) (fun anciennete =>
  rbind (number_or_zero (column row "pct_hommes")) (fun hommes =>
  rbind (number_or_zero (column row "pct_femmes")) (fun femmes =>
  Ok {| etpTotal := etp;
        headcountActif := headcount;
        nbEntrees := entrees;
        nbSorties := sorties;
        tauxTurnover := turnover;
        pctCDI := cdi;
        ageMoyen := age;
        ancienneteMoyenne := anciennete;
        pctHommes := hommes;
        pctFemmes := femmes |})))))))))).

Definition transform_financials (row : JSValue) : Result PayrollKPIs :=
  rbind (number_or_zero (column row "masse_salariale_brute")) (fun brute =>
  rbind (number_or_zero (column row "cout_total_employeur")) (fun cout =>
  rbind (number_or_zero (column row "salaire_base_moyen")) (fun salaire =>
  rbind (number_or_zero (column row "cout_moyen_par_fte")) (fun fte =>
  rbind (number_or_zero (column row "part_variable")) (fun variable =>
  rbind (number_or_zero (column row "taux_charges")) (fun charges =>
  Ok {| masseBrute := brute;
        coutTotal := cout;
        salaireMoyen := salaire;
        coutMoyenFTE := fte;
        partVariable := variable;
        tauxCharges := charges |})))))).

Definition transform_absences (row : JSValue) : Result AbsenceKPIs :=
  rbind (number_or_zero (column row "taux_absenteisme")) (fun taux =>
  rbind (number_or_zero (column row "nb_jours_absence")) (fun jours =>
  rbind (number_or_zero (column row "nb_absences_total")) (fun total =>
  rbind (number_or_zero (column row "duree_moyenne_absence")) (fun duree =>
  rbind (number_or_zero (column row "nb_salaries_absents")) (fun absents =>
  rbind (number_or_zero (column row "nb_jours_maladie")) (fun maladie =>
  Ok {| tauxAbsenteisme := taux;
        nbJoursAbsence := jours;
        nbAbsencesTotal := total;
        dureeMoyenne := duree;
        nbSalariesAbsents := absents;
        nbJoursMaladie := maladie |})))))).

(** The column each normalized field is read from. *)
Definition workforce_columns : list ((WorkforceKPIs -> float) * string) :=
  [(etpTotal, "etp_fin_mois"); (headcountActif, "effectif_fin_mois");
   (nbEntrees, "nb_entrees"); (nbSorties, "nb_sorties");
   (tauxTurnover, "taux_turnover"); (pctCDI, "pct_cdi");
   (ageMoyen, "age_moyen"); (ancienneteMoyenne, "anciennete_moyenne_mois");
   (pctHommes, "pct_hommes"); (pctFemmes, "pct_femmes")].

Definition payroll_columns : list ((PayrollKPIs -> float) * string) :=
  [(masseBrute, "masse_salariale_brute"); (coutTotal, "cout_total_employeur");
   (salaireMoyen, "salaire_base_moyen"); (coutMoyenFTE, "cout_moyen_par_fte");
   (partVariable, "part_variable"); (tauxCharges, "taux_charges")].

Definition absence_columns : list ((AbsenceKPIs -> float) * string) :=
  [(tauxAbsenteisme, "taux_absenteisme"); (nbJoursAbsence, "nb_jours_absence");
   (nbAbsencesTotal, "nb_absences_total"); (dureeMoyenne, "duree_moyenne_absence");
   (nbSalariesAbsents, "nb_salaries_absents"); (nbJoursMaladie, "nb_jours_maladie")].

(** Every field of a record that [f] builds from a row is
    [Number(row.column) || 0] for its column, and [f] builds a record as
    soon as each of these conversions gives a number. *)
Definition normalized_by {A} (f : JSValue -> Result A)
           (columns : list ((A -> float) * string)) : Prop :=
  forall (row : JSValue),
    (forall (record : A) (field : A -> float) (name : string),
       f row = Ok record ->
       In (field, name) columns ->
       number_or_zero (column row name) = Ok (field record)) /\
    ((forall (field : A -> float) (name : string),
        In (field, name) columns ->
        exists n, number_or_zero (column row name) = Ok n) ->
     exists record, f row = Ok record).

(** [res.data ? { ... } : null] *)
Definition when_row {A} (f : JSValue -> Result A) (res : PostgrestResponse)
  : Result (option A) :=
  if ToBoolean (response_data res)
  then rbind (f (response_data res)) (fun record => Ok (Some record))
  else Ok None.

Definition transformedData (workforceRes financialRes absenceRes : PostgrestResponse)
  : Result OptimizedKPIData :=
  rbind (when_row transform_workforce workforceRes) (fun w =>
  rbind (when_row transform_financials financialRes) (fun f =>
  rbind (when_row transform_absences absenceRes) (fun a =>
  Ok {| workforce := w; financials := f; absences := a |}))).

(** *** [validateSession] and [fetchOptimizedKPIs] *)

Variable supabase : SupabaseClient.
(** The time [new Date()] reads during the cycle. *)
Variable now : Z.
(** The arguments of the hook. *)
Variables establishmentId period : string.

(** Lines 51-73. *)
Definition validateSession : Async JSValue :=
  try_catch_async
    (sessionStr ← localStorage_getItem "company_session";
     match sessionStr with
     | None => mret (JBool false)
     | Some str =>
         if String.eqb str "" then mret (JBool false)
         else
           session ← lift (JSON_parse str);
           expires_at ← lift (prop session "expires_at");
           expired ← lift (date_before_now expires_at now);
           if expired : bool then
             localStorage_removeItem "company_session";;
             expire_document_cookie "company_session";;
             mret (JBool false)
           else
             access_token ← lift (prop session "access_token");
             send (Rpc "validate_access_token" access_token);;
             res ← await (rpc_validate_access_token supabase access_token);
             let validationResult := response_data res in
             mret (js_or (optProp (optIndex0 validationResult) "is_valid")
                         (JBool false))
     end)
    (fun _ => mret (JBool false)).

(** [throw new Error(label + ': ' + res.error.message)] when [res.error] is
    set (lines 143-145). *)
Definition check_error (label : string) (res : PostgrestResponse) : Async unit :=
  match response_error res with
  | Some err => throw (ErrorObject "Error" (label ++ ": " ++ message err))
  | None => mret tt
  end.

(** Lines 183-191: the last-activity update. *)
Definition update_activity : Async unit :=
  stored ← localStorage_getItem "company_session";
  let text := match stored with
              | Some str => if String.eqb str "" then "{}" else str
              | None => "{}"
              end in
  session ← lift (JSON_parse text);
  company_id ← lift (prop session "company_id");
  if ToBoolean company_id then
    send (Update "entreprises" company_id now);;
    _ ← await (update_last_activity supabase company_id now);
    mret tt
  else mret tt.

(** Lines 75-199. *)
Definition fetchOptimizedKPIs : Async unit :=
  if String.eqb establishmentId "" || String.eqb period "" then
    setLoading false
  else
    try_catch_finally
      (setLoading true;;
       setError None;;
       isValidSession ← validateSession;
       if negb (ToBoolean isValidSession) then
         setError (Some "Session expirée");;
         set_location_href "/login"
       else
         send (Select "snapshots_workforce" establishmentId period);;
         send (Select "snapshots_financials" establishmentId period);;
         send (Select "snapshots_absences" establishmentId period);;
         results ← await (select_snapshots supabase establishmentId period);
         let '(workforceRes, financialRes, absenceRes) := results in
         check_error "Workforce data" workforceRes;;
         check_error "Financial data" financialRes;;
         check_error "Absence data" absenceRes;;
         transformed ← lift (transformedData workforceRes financialRes absenceRes);
         setData (Some transformed);;
         update_activity)
      (fun err =>
         console_error err;;
         setError (Some (match err with
                         | ErrorObject _ msg => msg
                         | ThrownValue _ => "Erreur de chargement des données"
                         end)))
      (setLoading false).

(** *** Worlds and conditions the statements below speak of *)

(** The world once the cycle has started: [setLoading(true)],
    [setError(null)]. *)
Definition started (w : World) : World :=
  {| browser := browser w;
     state := {| data := data (state w); loading := true; error := None |};
     requests := requests w;
     console_errors := console_errors w |}.

(** The world after the validation call left: one more request. *)
Definition after_rpc (w : World) (token : JSValue) : World :=
  {| browser := browser w; state := state w;
     requests := requests w ++ [Rpc "validate_access_token" token];
     console_errors := console_errors w |}.

(** The world after the expired session was dropped from [localStorage] and
    the script's cookie write was made. *)
Definition after_cleanup (w : World) : World :=
  {| browser :=
       {| localStorage := delete "company_session" (localStorage (browser w));
          document_cookie :=
            expire_cookie "company_session" (document_cookie (browser w));
          location_href := location_href (browser w) |};
     state := state w;
     requests := requests w;
     console_errors := console_errors w |}.

(** Line 69 on the result of the validation call. *)
Definition is_valid_of (res : PostgrestResponse) : JSValue :=
  js_or (optProp (optIndex0 (response_data res)) "is_valid") (JBool false).

(** What [validateSession] answers for a session that is in the store,
    parses and has not expired: the verdict is read off the call's result. *)
Definition rpc_verdict (token : JSValue) : Outcome JSValue :=
  match rpc_validate_access_token supabase token with
  | Fulfilled res => Returned (is_valid_of res)
  | Rejected _ => Returned (JBool false)
  | Unsettled => Suspended
  end.

(** The requests of a cycle that got to the reads. *)
Definition reads_sent (w : World) (token : JSValue) : list Request :=
  requests w ++
  [Rpc "validate_access_token" token;
   Select "snapshots_workforce" establishmentId period;
   Select "snapshots_financials" establishmentId period;
   Select "snapshots_absences" establishmentId period].

(** The first of the three reads, in the order of lines 143-145, that
    reports an error, with the label thrown for it. *)
Definition first_read_error (workforceRes financialRes absenceRes : PostgrestResponse)
  : option (string * PostgrestError) :=
  match response_error workforceRes with
  | Some e => Some ("Workforce data", e)
  | None =>
      match response_error financialRes with
      | Some e => Some ("Financial data", e)
      | None =>
          match response_error absenceRes with
          | Some e => Some ("Absence data", e)
          | None => None
          end
      end
  end.

(** The last-activity update for [id], when it is sent, is fulfilled (with
    whatever result). *)
Definition update_settles (id : JSValue) : Prop :=
  ToBoolean id = true ->
  exists r, update_last_activity supabase id now = Fulfilled r.

(** Why [validateSession] answers [false] in the browser [b]. *)
Inductive InvalidCause (b : Browser) : Prop :=
| NoStoredSession :
    localStorage b !! "company_session" = None \/
    localStorage b !! "company_session" = Some "" ->
    InvalidCause b
| UnreadableSession (str : string) (e : Thrown) :
    localStorage b !! "company_session" = Some str ->
    JSON_parse str = Throw e ->
    InvalidCause b
| SessionWithoutProperties (str : string) (session : JSValue) (e : Thrown) :
    localStorage b !! "company_session" = Some str ->
    JSON_parse str = Ok session ->
    prop session "expires_at" = Throw e ->
    InvalidCause b
| ExpiredSession (str : string) (session expires_at : JSValue) :
    localStorage b !! "company_session" = Some str ->
    JSON_parse str = Ok session ->
    prop session "expires_at" = Ok expires_at ->
    date_before_now expires_at now = Ok true ->
    InvalidCause b
| ExpiryNotConvertible (str : string) (session expires_at : JSValue)
                       (e : Thrown) :
    localStorage b !! "company_session" = Some str ->
    JSON_parse str = Ok session ->
    prop session "expires_at" = Ok expires_at ->
    date_before_now expires_at now = Throw e ->
    InvalidCause b
| ValidationRejected (str : string) (session expires_at : JSValue) (e : Thrown) :
    localStorage b !! "company_session" = Some str ->
    JSON_parse str = Ok session ->
    prop session "expires_at" = Ok expires_at ->
    date_before_now expires_at now = Ok false ->
    rpc_validate_access_token supabase (optProp session "access_token") = Rejected e ->
    InvalidCause b
| ValidationDenied (str : string) (session expires_at : JSValue)
                   (res : PostgrestResponse) :
    localStorage b !! "company_session" = Some str ->
    JSON_parse str = Ok session ->
    prop session "expires_at" = Ok expires_at ->
    date_before_now expires_at now = Ok false ->
    rpc_validate_access_token supabase (optProp session "access_token") = Fulfilled res ->
    ToBoolean (optProp (optIndex0 (response_data res)) "is_valid") = false ->
    InvalidCause b.

End WithRuntime.

(** The client [supabase] with another last-activity update. *)
Definition with_update (supabase : SupabaseClient)
           (update : JSValue -> Z -> Settled PostgrestResponse) : SupabaseClient :=
  {| rpc_validate_access_token := rpc_validate_access_token supabase;
     select_snapshots := select_snapshots supabase;
     update_last_activity := update |}.

(** *** What the hook returns (lines 207-213) *)

Record Exposed : Type := {
  exposed_data : option OptimizedKPIData;
  exposed_loading : bool;
  exposed_error : option string;
  isValid : bool
}.

Definition expose (s : HookState) : Exposed :=
  {| exposed_data := data s;
     exposed_loading := loading s;
     exposed_error := error s;
     isValid := match data s with Some _ => true | None => false end |}.

(** The world a component starts from: the initial cells, nothing sent. *)
Definition mount (b : Browser) : World :=
  {| browser := b; state := initial_state; requests := []; console_errors := [] |}.

(** What the hook shows once the fetch started by its effect (lines 202-204)
    has run as far as it gets in the browser [b]. *)
Definition useOptimizedKPIData {RT : Runtime} (supabase : SupabaseClient)
           (now : Z) (establishmentId period : string) (b : Browser) : Exposed :=
  expose (state (snd (fetchOptimizedKPIs supabase now establishmentId period
                        (mount b)))).

End KPIHook.
Export KPIHook.

(* ===================================================================== *)
(** ** A reference runtime *)
(* ===================================================================== *)

(** One executable instance of [Runtime], used to run the model on concrete
    requests: [atob] as the forgiving base64 decoder of the HTML standard,
    [JSON.parse] on strings of code units below 256, [Date.parse] on the
    four-digit-year forms of the ECMAScript date-time format (local time
    taken as UTC), and the shortest round-trip printing of numbers. *)
Module Reference.

(** *** [atob] *)

Definition is_ascii_whitespace (c : ascii) : bool :=
  let n := nat_of_ascii c in
  ((n =? 9) || (n =? 10) || (n =? 12) || (n =? 13) || (n =? 32))%nat.

Definition base64_value (c : ascii) : option Z :=
  let n := Z.of_nat (nat_of_ascii c) in
  if (65 <=? n) && (n <=? 90) then Some (n - 65)
  else if (97 <=? n) && (n <=? 122) then Some (n - 71)
  else if (48 <=? n) && (n <=? 57) then Some (n + 4)
  else if n =? 43 then Some 62
  else if n =? 47 then Some 63
  else None.

Fixpoint base64_values (l : list ascii) : option (list Z) :=
  match l with
  | [] => Some []
  | c :: rest =>
      match base64_value c, base64_values rest with
      | Some v, Some vs => Some (v :: vs)
      | _, _ => None
      end
  end.

Definition byte (n : Z) : ascii := ascii_of_nat (Z.to_nat (n mod 256)).

(** Four sextets give three bytes; a tail of three gives two bytes and a
    tail of two gives one, the bits left over being dropped. *)
Fixpoint sextets_to_bytes (l : list Z) : list ascii :=
  match l with
  | a :: b :: c :: d :: rest =>
      let n := ((a * 64 + b) * 64 + c) * 64 + d in
      byte (n / 65536) :: byte (n / 256) :: byte n :: sextets_to_bytes rest
  | [a; b; c] =>
      let n := (a * 64 + b) * 64 + c in
      [byte (n / 1024); byte (n / 4)]
  | [a; b] => [byte ((a * 64 + b) / 16)]
  | _ => []
  end.

Definition strip_padding (l : list ascii) : list ascii :=
  if (Z.of_nat (length l) mod 4 =? 0) then
    match rev l with
    | "="%char :: "="%char :: rest => rev rest
    | "="%char :: rest => rev rest
    | _ => l
    end
  else l.

Definition invalid_character : Thrown :=
  ErrorObject "InvalidCharacterError" "The string to be decoded is not correctly encoded.".

Definition atob (data : string) : Result string :=
  let l := strip_padding
             (List.filter (fun c => negb (is_ascii_whitespace c))
                          (list_ascii_of_string data)) in
  if (Z.of_nat (length l) mod 4 =? 1) then Throw invalid_character
  else
    match base64_values l with
    | Some vs => Ok (string_of_list_ascii (sextets_to_bytes vs))
    | None => Throw invalid_character
    end.

(** *** [JSON.parse] *)

Definition is_json_whitespace (c : ascii) : bool :=
  let n := nat_of_ascii c in
  ((n =? 9) || (n =? 10) || (n =? 13) || (n =? 32))%nat.

Fixpoint skip_ws (l : list ascii) : list ascii :=
  match l with
  | c :: rest => if is_json_whitespace c then skip_ws rest else l
  | [] => []
  end.

(** [expect word l]: what follows [word] at the head of [l]. *)
Fixpoint expect (word l : list ascii) : option (list ascii) :=
  match word, l with
  | [], _ => Some l
  | w :: word', c :: rest => if Ascii.eqb w c then expect word' rest else None
  | _ :: _, [] => None
  end.

(** The four hex digits of a [\u] escape, as a code unit below 256. *)
Definition unicode_escape (l : list ascii) : option (ascii * list ascii) :=
  match l with
  | a :: b :: c :: d :: rest =>
      match digit_value 16 a, digit_value 16 b, digit_value 16 c, digit_value 16 d with
      | Some x, Some y, Some z, Some t =>
          let n := ((x * 16 + y) * 16 + z) * 16 + t in
          if n <? 256 then Some (byte n, rest) else None
      | _, _, _, _ => None
      end
  | _ => None
  end.

(** The characters of a string literal after its opening quote, up to the
    closing one. *)
Fixpoint parse_string_body (fuel : nat) (l : list ascii) (acc : list ascii)
  : option (string * list ascii) :=
  match fuel with
  | O => None
  | S fuel' =>
      match l with
      | [] => None
      | c :: rest =>
          if Ascii.eqb c (ascii_of_nat 34) then
            Some (string_of_list_ascii (rev acc), rest)
          else if Ascii.eqb c (ascii_of_nat 92) then
            match rest with
            | e :: rest' =>
                let n := nat_of_ascii e in
                if (n =? 34)%nat then parse_string_body fuel' rest' (e :: acc)
                else if (n =? 92)%nat then parse_string_body fuel' rest' (e :: acc)
                else if (n =? 47)%nat then parse_string_body fuel' rest' (e :: acc)
                else if Ascii.eqb e "b" then parse_string_body fuel' rest' (ascii_of_nat 8 :: acc)
                else if Ascii.eqb e "f" then parse_string_body fuel' rest' (ascii_of_nat 12 :: acc)
                else if Ascii.eqb e "n" then parse_string_body fuel' rest' (ascii_of_nat 10 :: acc)
                else if Ascii.eqb e "r" then parse_string_body fuel' rest' (ascii_of_nat 13 :: acc)
                else if Ascii.eqb e "t" then parse_string_body fuel' rest' (ascii_of_nat 9 :: acc)
                else if Ascii.eqb e "u" then
                  match unicode_escape rest' with
                  | Some (u, rest'') => parse_string_body fuel' rest'' (u :: acc)
                  | None => None
                  end
                else None
            | [] => None
            end
          else if (nat_of_ascii c <? 32)%nat then None
          else parse_string_body fuel' rest (c :: acc)
      end
  end.

(** A JSON number: [-]? int frac? exp?, no leading zero, a digit on each
    side of the dot. *)
Definition parse_number (l : list ascii) : option (float * list ascii) :=
  let '(neg, body) :=
    match l with
    | c :: rest => if Ascii.eqb c "-" then (true, rest) else (false, l)
    | [] => (false, l)
    end in
  let '(int_part, int_count, after_int) := read_digits 10 body 0 0 in
  let leading_zero :=
    match body with
    | c :: _ => Ascii.eqb c "0" && (1 <? int_count)
    | [] => false
    end in
  if (int_count =? 0) || leading_zero then None
  else
    let frac :=
      match after_int with
      | c :: rest =>
          if Ascii.eqb c "." then
            let '(m, count, after) := read_digits 10 rest int_part 0 in
            if count =? 0 then None else Some (m, count, after)
          else Some (int_part, 0, after_int)
      | [] => Some (int_part, 0, [])
      end in
    match frac with
    | None => None
    | Some (mantissa, frac_count, after_frac) =>
        match after_frac with
        | c :: rest =>
            if (Ascii.eqb c "e" || Ascii.eqb c "E")%bool then
              let '(eneg, digits) :=
                match rest with
                | s :: rest' =>
                    if Ascii.eqb s "-" then (true, rest')
                    else if Ascii.eqb s "+" then (false, rest')
                    else (false, rest)
                | [] => (false, rest)
                end in
              let '(e, count, after) := read_digits 10 digits 0 0 in
              if count =? 0 then None
              else Some (decimal_to_float neg mantissa
                           ((if eneg then - e else e) - frac_count), after)
            else Some (decimal_to_float neg mantissa (- frac_count), after_frac)
        | [] => Some (decimal_to_float neg mantissa (- frac_count), [])
        end
    end.

Fixpoint parse_value (fuel : nat) (l : list ascii) {struct fuel}
  : option (JSValue * list ascii) :=
  match fuel with
  | O => None
  | S fuel' =>
      match skip_ws l with
      | [] => None
      | c :: rest =>
          if Ascii.eqb c "{" then
            match skip_ws rest with
            | "}"%char :: rest' => Some (JObj [], rest')
            | _ => parse_members fuel' rest []
            end
          else if Ascii.eqb c "[" then
            match skip_ws rest with
            | "]"%char :: rest' => Some (JArr [], rest')
            | _ => parse_items fuel' rest []
            end
          else if Ascii.eqb c (ascii_of_nat 34) then
            match parse_string_body fuel' rest [] with
            | Some (s, rest') => Some (JStr s, rest')
            | None => None
            end
          else if Ascii.eqb c "t" then
            option_map (fun r => (JBool true, r)) (expect (list_ascii_of_string "rue") rest)
          else if Ascii.eqb c "f" then
            option_map (fun r => (JBool false, r)) (expect (list_ascii_of_string "alse") rest)
          else if Ascii.eqb c "n" then
            option_map (fun r => (JNull, r)) (expect (list_ascii_of_string "ull") rest)
          else
            match parse_number (c :: rest) with
            | Some (n, rest') => Some (JNum n, rest')
            | None => None
            end
      end
  end
with parse_items (fuel : nat) (l : list ascii) (acc : list JSValue) {struct fuel}
  : option (JSValue * list ascii) :=
  match fuel with
  | O => None
  | S fuel' =>
      match parse_value fuel' l with
      | Some (v, rest) =>
          match skip_ws rest with
          | ","%char :: rest' => parse_items fuel' rest' (v :: acc)
          | "]"%char :: rest' => Some (JArr (rev (v :: acc)), rest')
          | _ => None
          end
      | None => None
      end
  end
with parse_members (fuel : nat) (l : list ascii) (acc : list (string * JSValue))
       {struct fuel} : option (JSValue * list ascii) :=
  match fuel with
  | O => None
  | S fuel' =>
      match skip_ws l with
      | q :: after_quote =>
          if Ascii.eqb q (ascii_of_nat 34) then
            match parse_string_body fuel' after_quote [] with
            | Some (key, rest) =>
                match skip_ws rest with
                | ":"%char :: rest' =>
                    match parse_value fuel' rest' with
                    | Some (v, rest'') =>
                        match skip_ws rest'' with
                        | ","%char :: more => parse_members fuel' more ((key, v) :: acc)
                        | "}"%char :: more => Some (JObj (rev ((key, v) :: acc)), more)
                        | _ => None
                        end
                    | None => None
                    end
                | _ => None
                end
            | None => None
            end
          else None
      | [] => None
      end
  end.

Definition syntax_error : Thrown :=
  ErrorObject "SyntaxError" "Unexpected token in JSON".

Definition JSON_parse (text : string) : Result JSValue :=
  let l := list_ascii_of_string text in
  match parse_value (2 * length l + 2) l with
  | Some (v, rest) =>
      match skip_ws rest with
      | [] => Ok v
      | _ :: _ => Throw syntax_error
      end
  | None => Throw syntax_error
  end.

(** *** [Date.parse] *)

(** A field of exactly [n] decimal digits. *)
Fixpoint fixed_digits (n : nat) (l : list ascii) (acc : Z)
  : option (Z * list ascii) :=
  match n with
  | O => Some (acc, l)
  | S n' =>
      match l with
      | c :: rest =>
          match digit_value 10 c with
          | Some d => fixed_digits n' rest (acc * 10 + d)
          | None => None
          end
      | [] => None
      end
  end.

Definition is_leap_year (y : Z) : bool :=
  ((y mod 4 =? 0) && negb (y mod 100 =? 0)) || (y mod 400 =? 0).

Definition days_in_month (y m : Z) : Z :=
  if m =? 2 then (if is_leap_year y then 29 else 28)
  else if (m =? 4) || (m =? 6) || (m =? 9) || (m =? 11) then 30
  else 31.

(** Days from 1970-01-01 to the day [d] of month [m] of year [y]. *)
Definition days_from_civil (y m d : Z) : Z :=
  let y' := if m <=? 2 then y - 1 else y in
  let era := y' / 400 in
  let yoe := y' - era * 400 in
  let doy := (153 * (if 2 <? m then m - 3 else m + 9) + 2) / 5 + d - 1 in
  let doe := yoe * 365 + yoe / 4 - yoe / 100 + doy in
  era * 146097 + doe - 719468.

(** [-MM] and [-DD], each optional (the day only after a month). *)
Definition parse_month_day (l : list ascii) : option (Z * Z * list ascii) :=
  match l with
  | "-"%char :: rest =>
      match fixed_digits 2 rest 0 with
      | Some (m, "-"%char :: rest') =>
          match fixed_digits 2 rest' 0 with
          | Some (d, rest'') => Some (m, d, rest'')
          | None => None
          end
      | Some (m, rest') => Some (m, 1, rest')
      | None => None
      end
  | _ => Some (1, 1, l)
  end.

(** [HH:mm], then [:ss] and [.sss], each optional: milliseconds in the day. *)
Definition parse_time (l : list ascii) : option (Z * list ascii) :=
  match fixed_digits 2 l 0 with
  | Some (h, ":"%char :: rest) =>
      match fixed_digits 2 rest 0 with
      | Some (mi, rest') =>
          let '(sec, ms, rest'') :=
            match rest' with
            | ":"%char :: r =>
                match fixed_digits 2 r 0 with
                | Some (sec, "."%char :: r') =>
                    match fixed_digits 3 r' 0 with
                    | Some (ms, r'') => (sec, ms, r'')
                    | None => (-1, 0, r')
                    end
                | Some (sec, r') => (sec, 0, r')
                | None => (-1, 0, r)
                end
            | _ => (0, 0, rest')
            end in
          let in_range :=
            (0 <=? sec) && (sec <=? 59) && (mi <=? 59) &&
            ((h <=? 23) || ((h =? 24) && (mi =? 0) && (sec =? 0) && (ms =? 0))) in
          if in_range then Some (((h * 60 + mi) * 60 + sec) * 1000 + ms, rest'')
          else None
      | None => None
      end
  | _ => None
  end.

(** [Z], [+HH:mm] or [-HH:mm] up to the end of the string, or nothing:
    the offset in milliseconds. *)
Definition parse_offset (l : list ascii) : option Z :=
  match l with
  | [] => Some 0
  | ["Z"%char] => Some 0
  | s :: rest =>
      if (Ascii.eqb s "+" || Ascii.eqb s "-")%bool then
        match fixed_digits 2 rest 0 with
        | Some (h, ":"%char :: rest') =>
            match fixed_digits 2 rest' 0 with
            | Some (mi, []) =>
                if (h <=? 23) && (mi <=? 59) then
                  let off := (h * 60 + mi) * 60000 in
                  Some (if Ascii.eqb s "-" then - off else off)
                else None
            | _ => None
            end
        | _ => None
        end
      else None
  end.

Definition Date_parse (s : string) : option Z :=
  match fixed_digits 4 (list_ascii_of_string s) 0 with
  | Some (y, rest) =>
      match parse_month_day rest with
      | Some (m, d, rest') =>
          if (1 <=? m) && (m <=? 12) && (1 <=? d) && (d <=? days_in_month y m) then
            let day_ms := days_from_civil y m d * 86400000 in
            match rest' with
            | [] => Some day_ms
            | "T"%char :: time =>
                match parse_time time with
                | Some (ms, rest'') =>
                    match parse_offset rest'' with
                    | Some off => Some (day_ms + ms - off)
                    | None => None
                    end
                | None => None
                end
            | _ => None
            end
          else None
      | None => None
      end
  | None => None
  end.

(** *** [Number.prototype.toString] *)

Definition digits_of (n : Z) : string :=
  NilZero.string_of_uint (N.to_uint (Z.to_N n)).

Fixpoint zeros (n : nat) : string :=
  match n with
  | O => ""
  | S n' => String "0" (zeros n')
  end.

(** The least [j] from [j0] on with [den <= num * 10^(j+1)]. *)
Fixpoint leading_zeros (fuel : nat) (num den j : Z) : Z :=
  match fuel with
  | O => j
  | S fuel' =>
      if den <=? num * 10 ^ (j + 1) then j
      else leading_zeros fuel' num den (j + 1)
  end.

(** The [n] with [10^(n-1) <= num/den < 10^n], for a positive [num/den]. *)
Definition decimal_exponent (num den : Z) : Z :=
  if den <=? num then Z.of_nat (String.length (digits_of (num / den)))
  else - leading_zeros 400 num den 0.

(** The [k]-digit decimals next to [x = num/den] that read back as [x],
    the nearer first: [Some (s, n)] stands for [s * 10^(n-k)]. *)
Definition shortest_at (x : float) (num den n k : Z) : option (Z * Z) :=
  let '(N, D) := if 0 <=? k - n then (num * 10 ^ (k - n), den)
                 else (num, den * 10 ^ (n - k)) in
  let lo := N / D in
  let rem := N mod D in
  let reads_back c := (decimal_to_float false c (n - k) =? x)%float in
  let normal c := if c =? 10 ^ k then (10 ^ (k - 1), n + 1) else (c, n) in
  if rem =? 0 then Some (lo, n)
  else
    let hi := lo + 1 in
    let lo_first := (2 * rem <? D) || ((2 * rem =? D) && Z.even lo) in
    let '(first, second) := if lo_first then (lo, hi) else (hi, lo) in
    if reads_back first then Some (normal first)
    else if reads_back second then Some (normal second)
    else None.

Fixpoint shortest (fuel : nat) (x : float) (num den n k : Z) : Z * Z * Z :=
  match fuel with
  | O => (0, n, k)
  | S fuel' =>
      match shortest_at x num den n k with
      | Some (s, n') => (s, n', k)
      | None => shortest fuel' x num den n (k + 1)
      end
  end.

Definition split_at (n : nat) (s : string) : string * string :=
  (substring 0 n s, substring n (String.length s - n) s).

Definition format_positive (s n k : Z) : string :=
  let digits := digits_of s in
  if (k <=? n) && (n <=? 21) then digits ++ zeros (Z.to_nat (n - k))
  else if (0 <? n) && (n <=? 21) then
    let '(a, b) := split_at (Z.to_nat n) digits in a ++ "." ++ b
  else if (-6 <? n) && (n <=? 0) then "0." ++ zeros (Z.to_nat (- n)) ++ digits
  else
    let e := n - 1 in
    let exponent := String.append (if 0 <=? e then "e+" else "e-")
                                  (digits_of (Z.abs e)) in
    if k =? 1 then digits ++ exponent
    else let '(a, b) := split_at 1 digits in a ++ "." ++ b ++ exponent.

Definition NumberToString (x : float) : string :=
  match Prim2SF x with
  | S754_nan => "NaN"
  | S754_zero _ => "0"
  | S754_infinity neg => if neg then "-Infinity" else "Infinity"
  | S754_finite neg m e =>
      let '(num, den) := if 0 <=? e then (Zpos m * 2 ^ e, 1)
                         else (Zpos m, 2 ^ (- e)) in
      let n := decimal_exponent num den in
      let '(s, n', k) := shortest 17 (abs x) num den n 1 in
      String.append (if neg then "-" else "") (format_positive s n' k)
  end.

(** *** The instance *)

Definition type_error_message (k : string) : string :=
  "Cannot read properties of null (reading '" ++ k ++ "')".

Definition conversion_error_message : string :=
  "Cannot convert object to primitive value".

Definition runtime : Runtime :=
  Build_Runtime atob JSON_parse Date_parse NumberToString type_error_message
                conversion_error_message.

End Reference.

(* ===================================================================== *)
(** ** Concrete requests, browsers and backends *)
(* ===================================================================== *)

Module Samples.

(** 2024-06-01T00:00:00.000Z *)
Definition clock : Z := 1717200000000.

(** base64 of a session with [company_id] c1, [access_token] tok-1 and
    [expires_at] 2099-01-01T00:00:00.000Z *)
Definition valid_cookie : string :=
  "eyJjb21wYW55X2lkIjoiYzEiLCJhY2Nlc3NfdG9rZW4iOiJ0b2stMSIsImV4cGlyZXNfYXQiOiIyMDk5LTAxLTAxVDAwOjAwOjAwLjAwMFoifQ==".

(** The same session with [expires_at] 2020-01-01T00:00:00.000Z *)
Definition expired_cookie : string :=
  "eyJjb21wYW55X2lkIjoiYzEiLCJhY2Nlc3NfdG9rZW4iOiJ0b2stMSIsImV4cGlyZXNfYXQiOiIyMDIwLTAxLTAxVDAwOjAwOjAwLjAwMFoifQ==".

(** The same session with no [expires_at] *)
Definition undated_cookie : string :=
  "eyJjb21wYW55X2lkIjoiYzEiLCJhY2Nlc3NfdG9rZW4iOiJ0b2stMSJ9".

(** The same session, its [expires_at] an object with the one property
    [toString], the number 1 *)
Definition unconvertible_cookie : string :=
  "eyJjb21wYW55X2lkIjoiYzEiLCJhY2Nlc3NfdG9rZW4iOiJ0b2stMSIsImV4cGlyZXNfYXQiOnsidG9TdHJpbmciOjF9fQ==".

(** base64 of the two characters of an empty object *)
Definition empty_object_cookie : string := "e30=".

(** base64 of [{oops], which is not JSON *)
Definition not_json_cookie : string := "e29vcHM=".

(** Not base64 *)
Definition not_base64_cookie : string := "%%%".

(** The JSON text a cookie value encodes. *)
Definition text_of (cookie : string) : string :=
  match Reference.atob cookie with
  | Ok s => s
  | Throw _ => ""
  end.

Definition request_to (path : string) (jar : gmap string string) : NextRequest :=
  {| pathname := path; cookies := jar; headers := ∅ |}.

Definition company_jar (value : string) : gmap string string :=
  {[ "company_session" := value ]}.

Definition admin_jar (value : string) : gmap string string :=
  {[ "admin_session" := value ]}.

(** The session cookie as a script of the login page would write it:
    [path=/], host-only, visible to scripts. *)
Definition script_cookie (value : string) : StoredCookie :=
  {| stored_name := "company_session"; stored_value := value;
     stored_path := "/"; stored_domain := None; stored_httpOnly := false |}.


(** A browser on the dashboard, the session text in [localStorage] and its
    base64 form in the cookie. *)
Definition browser_holding (cookie : string) : Browser :=
  {| localStorage := {[ "company_session" := text_of cookie ]};
     document_cookie := [script_cookie cookie];
     location_href := "/dashboard" |}.


Definition browser_without_session : Browser :=
  {| localStorage := ∅; document_cookie := []; location_href := "/dashboard" |}.

Definition no_row : PostgrestResponse :=
  {| response_data := JNull; response_error := None |}.

Definition row (columns : list (string * JSValue)) : PostgrestResponse :=
  {| response_data := JObj columns; response_error := None |}.

Definition failed (msg : string) : PostgrestResponse :=
  {| response_data := JNull; response_error := Some {| message := msg |} |}.

(** The answer of [validate_access_token] for a token in force. *)
Definition token_valid : PostgrestResponse :=
  {| response_data := JArr [JObj [("is_valid", JBool true)]];
     response_error := None |}.

Definition token_revoked : PostgrestResponse :=
  {| response_data := JArr [JObj [("is_valid", JBool false)]];
     response_error := None |}.

Definition no_validation_rows : PostgrestResponse :=
  {| response_data := JArr []; response_error := None |}.

(** A backend by its four answers. *)
Definition backend (validation : Settled PostgrestResponse)
           (reads : Settled (PostgrestResponse * PostgrestResponse * PostgrestResponse))
           (update : Settled PostgrestResponse) : SupabaseClient :=
  {| rpc_validate_access_token := fun _ => validation;
     select_snapshots := fun _ _ => reads;
     update_last_activity := fun _ _ => update |}.

(** The rows of the scenario for entity E1 and period 2024-01. *)
Definition scenario_reads
  : Settled (PostgrestResponse * PostgrestResponse * PostgrestResponse) :=
  Fulfilled (row [("etp_fin_mois", JNum 12.5)],
             no_row,
             row [("taux_absenteisme", JNull)]).

(** What the transform makes of these rows. *)
Definition scenario_workforce : WorkforceKPIs :=
  {| etpTotal := 12.5; headcountActif := zero; nbEntrees := zero;
     nbSorties := zero; tauxTurnover := zero; pctCDI := zero;
     ageMoyen := zero; ancienneteMoyenne := zero; pctHommes := zero;
     pctFemmes := zero |}.

Definition scenario_absences : AbsenceKPIs :=
  {| tauxAbsenteisme := zero; nbJoursAbsence := zero; nbAbsencesTotal := zero;
     dureeMoyenne := zero; nbSalariesAbsents := zero; nbJoursMaladie := zero |}.

Definition scenario_data : OptimizedKPIData :=
  {| workforce := Some scenario_workforce; financials := None;
     absences := Some scenario_absences |}.

End Samples.

(* ===================================================================== *)
(** ** The route matcher and the shape of a fetch cycle *)
(* ===================================================================== *)

Module Config.

(** Line 127, [config.matcher]: a slash, then a group made of the negative
    lookahead [(?!api/public|_next/static|_next/image|favicon.ico|public)]
    and of a dot under a star. Read as a regular expression that has to
    match the whole path: a slash, then a rest that begins with none of the
    five alternatives and holds no line terminator (a dot matches any other
    character, also the dot of [favicon.ico]). *)
Definition matcher_alternatives : list string :=
  ["api/public"; "_next/static"; "_next/image"; "favicon.ico"; "public"].

Definition is_line_terminator (c : ascii) : bool :=
  let n := nat_of_ascii c in ((n =? 10) || (n =? 13))%nat.

(** One character of a pattern against one character of the path. *)
Definition pattern_char_matches (p c : ascii) : bool :=
  if Ascii.eqb p "." then negb (is_line_terminator c) else Ascii.eqb p c.

(** The pattern matches at the head of [l]. *)
Fixpoint matches_at_head (pattern l : list ascii) : bool :=
  match pattern, l with
  | [], _ => true
  | p :: pattern', c :: rest =>
      pattern_char_matches p c && matches_at_head pattern' rest
  | _ :: _, [] => false
  end.

(** The negative lookahead [(?!a|b|...)] at the head of [l]. *)
Definition lookahead_excludes (l : list ascii) : bool :=
  existsb (fun alternative =>
             matches_at_head (list_ascii_of_string alternative) l)
          matcher_alternatives.

Definition matcher (path : string) : bool :=
  match list_ascii_of_string path with
  | c :: rest =>
      Ascii.eqb c "/" && negb (lookahead_excludes rest) &&
      forallb (fun x => negb (is_line_terminator x)) rest
  | [] => false
  end.

(** A path without CR and LF. *)
Definition single_line (path : string) : bool :=
  forallb (fun x => negb (is_line_terminator x)) (list_ascii_of_string path).

(** A decoded cookie that is a JSON value other than [null] and other than
    an object: a boolean, a number, a string or an array. *)
Definition not_an_object (v : JSValue) : bool :=
  match v with
  | JBool _ | JNum _ | JStr _ | JArr _ => true
  | JUndefined | JNull | JObj _ => false
  end.

End Config.

Module Cycle.
Section WithCycle.
Variable now : Z.
Variables establishmentId period : string.

(** What one run of [fetchOptimizedKPIs] can have sent: nothing, the
    validation call, then the three reads, then the last-activity update. *)
Inductive cycle_trace : list Request -> Prop :=
| nothing_sent : cycle_trace []
| validation_sent (token : JSValue) :
    cycle_trace [Rpc "validate_access_token" token]
| reads_sent_too (token : JSValue) :
    cycle_trace [Rpc "validate_access_token" token;
                 Select "snapshots_workforce" establishmentId period;
                 Select "snapshots_financials" establishmentId period;
                 Select "snapshots_absences" establishmentId period]
| update_sent_too (token company_id : JSValue) :
    cycle_trace [Rpc "validate_access_token" token;
                 Select "snapshots_workforce" establishmentId period;
                 Select "snapshots_financials" establishmentId period;
                 Select "snapshots_absences" establishmentId period;
                 Update "entreprises" company_id now].

End WithCycle.

(** The message the [catch] of [fetchOptimizedKPIs] keeps (line 195). *)
Definition caught_message (err : Thrown) : string :=
  match err with
  | ErrorObject _ msg => msg
  | ThrownValue _ => "Erreur de chargement des données"
  end.

End Cycle.

(* ===================================================================== *)
(** ** The platform model on concrete inputs *)
(* ===================================================================== *)

Section Checks.

Example StringToNumber_integer : StringToNumber "42" = 42%float.
Proof. vm_compute. reflexivity. Qed.

Example StringToNumber_letters : StringToNumber "abc" = nan.
Proof. vm_compute. reflexivity. Qed.

Example StringToNumber_trimmed : StringToNumber " 12.5 " = 12.5%float.
Proof. vm_compute. reflexivity. Qed.

Example StringToNumber_empty : StringToNumber "" = zero.
Proof. vm_compute. reflexivity. Qed.

Example StringToNumber_hex : StringToNumber "0x1F" = 31%float.
Proof. vm_compute. reflexivity. Qed.

Example StringToNumber_exponent : StringToNumber "1e3" = 1000%float.
Proof. vm_compute. reflexivity. Qed.

Example StringToNumber_suffix : StringToNumber "12px" = nan.
Proof. vm_compute. reflexivity. Qed.

Example StringToNumber_negative_zero : StringToNumber "-0" = neg_zero.
Proof. vm_compute. reflexivity. Qed.

Example StringToNumber_rounds : StringToNumber "9007199254740993" = 9007199254740992%float.
Proof. vm_compute. reflexivity. Qed.

Example TimeClip_truncates : TimeClip 1717200000000.75%float = Some 1717200000000.
Proof. vm_compute. reflexivity. Qed.

Example TimeClip_out_of_range : TimeClip 8640000000000001%float = None.
Proof. vm_compute. reflexivity. Qed.

Example atob_empty_object : Reference.atob "e30=" = Ok "{}".
Proof. vm_compute. reflexivity. Qed.

Example atob_without_padding : Reference.atob "e30" = Ok "{}".
Proof. vm_compute. reflexivity. Qed.

Example atob_refuses_percent :
  Reference.atob "%%%" = Throw Reference.invalid_character.
Proof. vm_compute. reflexivity. Qed.

Example atob_refuses_length : Reference.atob "abcde" = Throw Reference.invalid_character.
Proof. vm_compute. reflexivity. Qed.

Example JSON_parse_empty_object : Reference.JSON_parse "{}" = Ok (JObj []).
Proof. vm_compute. reflexivity. Qed.

Example JSON_parse_session :
  Reference.JSON_parse (Samples.text_of Samples.valid_cookie) =
  Ok (JObj [("company_id", JStr "c1"); ("access_token", JStr "tok-1");
            ("expires_at", JStr "2099-01-01T00:00:00.000Z")]).
Proof. vm_compute. reflexivity. Qed.

Example JSON_parse_array :
  Reference.JSON_parse " [1, 2.5, -3e2, null, true, [], {}] " =
  Ok (JArr [JNum 1; JNum 2.5; JNum (-300); JNull; JBool true; JArr []; JObj []]).
Proof. vm_compute. reflexivity. Qed.

Example JSON_parse_refuses_garbage :
  Reference.JSON_parse "{oops" = Throw Reference.syntax_error.
Proof. vm_compute. reflexivity. Qed.

Example JSON_parse_refuses_leading_zero :
  Reference.JSON_parse "01" = Throw Reference.syntax_error.
Proof. vm_compute. reflexivity. Qed.

Example JSON_parse_refuses_trailing_comma :
  Reference.JSON_parse "[1,]" = Throw Reference.syntax_error.
Proof. vm_compute. reflexivity. Qed.

Example Date_parse_epoch : Reference.Date_parse "1970-01-01T00:00:00.000Z" = Some 0.
Proof. vm_compute. reflexivity. Qed.

Example Date_parse_clock :
  Reference.Date_parse "2024-06-01T00:00:00.000Z" = Some Samples.clock.
Proof. vm_compute. reflexivity. Qed.

Example Date_parse_offset :
  Reference.Date_parse "2024-01-01T12:00+02:00" = Some 1704103200000.
Proof. vm_compute. reflexivity. Qed.

Example Date_parse_no_date : Reference.Date_parse "soon" = None.
Proof. vm_compute. reflexivity. Qed.

Example Date_parse_no_such_day : Reference.Date_parse "2023-02-29" = None.
Proof. vm_compute. reflexivity. Qed.

Example NumberToString_fraction : Reference.NumberToString 12.5%float = "12.5".
Proof. vm_compute. reflexivity. Qed.

Example NumberToString_large : Reference.NumberToString 1e21%float = "1e+21".
Proof. vm_compute. reflexivity. Qed.

Example NumberToString_shortest :
  Reference.NumberToString (StringToNumber "0.1") = "0.1" /\
  Reference.NumberToString (StringToNumber "0.000001") = "0.000001" /\
  Reference.NumberToString (StringToNumber "1.5e-7") = "1.5e-7" /\
  Reference.NumberToString (StringToNumber "0.30000000000000004") =
    "0.30000000000000004".
Proof. repeat split; vm_compute; reflexivity. Qed.

Example NumberToString_NaN : Reference.NumberToString nan = "NaN".
Proof. vm_compute. reflexivity. Qed.

Example ToString_array :
  @ToString Reference.runtime (JArr [JNum 1; JNull; JStr "a"; JArr [JBool true]]) =
  Ok "1,,a,true".
Proof. vm_compute. reflexivity. Qed.

(** An object that carries a [toString] of its own cannot be converted,
    alone or as an item of an array; one that carries only a [valueOf] of
    its own can. *)
Example ToString_own_toString :
  @ToString Reference.runtime (JObj [("toString", JNum 1)]) =
    Throw (@not_convertible Reference.runtime) /\
  @ToString Reference.runtime (JArr [JObj [("toString", JNum 1)]]) =
    Throw (@not_convertible Reference.runtime) /\
  @ToString Reference.runtime (JObj [("valueOf", JNum 1)]) =
    Ok "[object Object]".
Proof. repeat split; vm_compute; reflexivity. Qed.

Example newDate_throws :
  @newDate Reference.runtime (JObj [("toString", JNum 1)]) =
  Throw (@not_convertible Reference.runtime).
Proof. vm_compute. reflexivity. Qed.

Example newDate_of_array :
  @newDate Reference.runtime (JArr [JStr "2024-06-01"]) = Ok (Some Samples.clock).
Proof. vm_compute. reflexivity. Qed.

Example newDate_of_object : @newDate Reference.runtime (JObj []) = Ok None.
Proof. vm_compute. reflexivity. Qed.

Example Headers_set_trims :
  @Headers_set Reference.runtime ∅ "x-company-id" (JStr " c1 ") =
  Ok {[ "x-company-id" := "c1" ]}.
Proof. vm_compute. reflexivity. Qed.

Example Headers_set_number :
  @Headers_set Reference.runtime ∅ "x-company-id" (JNum 7) =
  Ok {[ "x-company-id" := "7" ]}.
Proof. vm_compute. reflexivity. Qed.

End Checks.

(* ===================================================================== *)
(** ** Properties of the platform model *)
(* ===================================================================== *)

Section PlatformFacts.
Context {RT : Runtime}.

(** Reading a property of a truthy value does not throw, and gives what
    [column] and [optProp] give. *)
Lemma prop_of_truthy (v : JSValue) (k : string) :
  ToBoolean v = true -> prop v k = Ok (optProp v k).
Proof.
  destruct v; simpl; intros H; try discriminate; reflexivity.
Qed.

(** Once one property of a value was read, every property can be read. *)
Lemma prop_total_after (v x : JSValue) (k k' : string) :
  prop v k = Ok x -> exists y, prop v k' = Ok y.
Proof.
  destruct v; simpl; intros H; try discriminate; eauto.
Qed.

(** [new Date(undefined)] is an invalid date. *)
Lemma newDate_undefined : newDate JUndefined = Ok None.
Proof. reflexivity. Qed.

(** ... while [new Date(null)] is the epoch. *)
Lemma newDate_null : newDate JNull = Ok (Some 0).
Proof. reflexivity. Qed.

Lemma date_before_now_invalid (v : JSValue) (now : Z) :
  newDate v = Ok None -> date_before_now v now = Ok false.
Proof. unfold date_before_now. intros ->. reflexivity. Qed.


End PlatformFacts.

(* ===================================================================== *)
(** ** The route classifier *)
(* ===================================================================== *)

Section Classifier.

(** A path that begins with the characters of [p], whose first is a slash,
    begins with a slash. *)
Lemma prefix_head (c : ascii) (p path : string) :
  String.prefix (String c p) path = true ->
  String.prefix (String c "") path = true.
Proof.
  destruct path as [|d rest]; simpl; [discriminate|].
  destruct (ascii_dec c d); [|discriminate].
  intros _. destruct rest; reflexivity.
Qed.

(** Every path that begins with a slash is public: the entry ["/"] of
    [publicPaths] is tested with [startsWith]. *)
Lemma slash_is_public (path : string) :
  startsWith path "/" = true -> isPublicPath path = true.
Proof.
  intros H. unfold isPublicPath, publicPaths. simpl existsb.
  rewrite H. rewrite orb_true_r. reflexivity.
Qed.

Lemma admin_starts_with_slash (path : string) :
  isAdminPath path = true -> startsWith path "/" = true.
Proof.
  unfold isAdminPath, adminPaths, startsWith. simpl existsb.
  rewrite orb_false_r. apply prefix_head.
Qed.

Lemma protected_starts_with_slash (path : string) :
  isProtectedPath path = true -> startsWith path "/" = true.
Proof.
  unfold isProtectedPath, protectedPaths, startsWith. simpl existsb.
  rewrite orb_false_r.
  intros H. repeat (apply orb_prop in H; destruct H as [H|H]);
    eapply prefix_head; exact H.
Qed.

(** Every admin path and every protected path is a public path. *)
Lemma admin_is_public (path : string) :
  isAdminPath path = true -> isPublicPath path = true.
Proof. intros H. apply slash_is_public, admin_starts_with_slash, H. Qed.

Lemma protected_is_public (path : string) :
  isProtectedPath path = true -> isPublicPath path = true.
Proof. intros H. apply slash_is_public, protected_starts_with_slash, H. Qed.

Context {RT : Runtime}.

Lemma middleware_public (request : NextRequest) (now : Z) :
  isPublicPath (pathname request) = true ->
  middleware request now = quiet NextResponse_next.
Proof. unfold middleware. intros ->. reflexivity. Qed.

(** The middleware lets every request through, whatever its path, cookies
    and headers: a path that reaches the admin or the company branch begins
    with a slash, and such a path is public. *)
Lemma middleware_passes_everything (request : NextRequest) (now : Z) :
  middleware request now = quiet NextResponse_next.
Proof.
  unfold middleware.
  destruct (isPublicPath (pathname request)) eqn:Hpub; [reflexivity|].
  destruct (isAdminPath (pathname request)) eqn:Hadm.
  - apply admin_is_public in Hadm. congruence.
  - simpl. destruct (isProtectedPath (pathname request)) eqn:Hprot; [|reflexivity].
    apply protected_is_public in Hprot. congruence.
Qed.

End Classifier.

(* ===================================================================== *)
(** ** The session checks of the middleware *)
(* ===================================================================== *)

Section Gates.
Context {RT : Runtime}.

Lemma adminGate_without_cookie (request : NextRequest) (now : Z) :
  cookies request !! "admin_session" = None ->
  adminGate request now = quiet (NextResponse_redirect "/admin/login").
Proof. unfold adminGate. intros ->. reflexivity. Qed.

Lemma companyGate_without_cookie (request : NextRequest) (now : Z) :
  cookies request !! "company_session" = None ->
  response (companyGate request now) = NextResponse_redirect "/login".
Proof. unfold companyGate. intros ->. reflexivity. Qed.

Lemma malformed_cases (value : string) :
  malformed value <->
  (exists e, atob value = Throw e) \/
  (exists text e, atob value = Ok text /\ JSON_parse text = Throw e).
Proof.
  unfold malformed, decode_session, rbind. split.
  - intros [e H]. destruct (atob value) as [text|e'] eqn:Ha; eauto.
  - intros [[e H]|(text & e & Ha & Hp)].
    + rewrite H. eauto.
    + rewrite Ha. eauto.
Qed.

Lemma adminGate_malformed (request : NextRequest) (now : Z) (value : string) :
  cookies request !! "admin_session" = Some value ->
  malformed value ->
  adminGate request now = quiet (NextResponse_redirect "/admin/login").
Proof.
  unfold adminGate. intros -> [e ->]. reflexivity.
Qed.

Lemma companyGate_malformed (request : NextRequest) (now : Z) (value : string) :
  cookies request !! "company_session" = Some value ->
  malformed value ->
  response (companyGate request now) =
  clear_cookie "company_session" (NextResponse_redirect "/login").
Proof.
  unfold companyGate. intros -> [e ->]. reflexivity.
Qed.

Lemma adminGate_expired (request : NextRequest) (now : Z)
      (value : string) (sessionData expires_at : JSValue) :
  cookies request !! "admin_session" = Some value ->
  decode_session value = Ok sessionData ->
  prop sessionData "expires_at" = Ok expires_at ->
  date_before_now expires_at now = Ok true ->
  adminGate request now =
  quiet (clear_cookie "admin_session" (NextResponse_redirect "/admin/login")).
Proof.
  unfold adminGate. intros -> -> Hp Hd. simpl. rewrite Hp. simpl.
  rewrite Hd. reflexivity.
Qed.

Lemma adminGate_not_expired (request : NextRequest) (now : Z)
      (value : string) (sessionData expires_at : JSValue) :
  cookies request !! "admin_session" = Some value ->
  decode_session value = Ok sessionData ->
  prop sessionData "expires_at" = Ok expires_at ->
  date_before_now expires_at now = Ok false ->
  adminGate request now = quiet NextResponse_next.
Proof.
  unfold adminGate. intros -> -> Hp Hd. simpl. rewrite Hp. simpl.
  rewrite Hd. reflexivity.
Qed.

Lemma companyGate_expired (request : NextRequest) (now : Z)
      (value : string) (sessionData expires_at : JSValue) :
  cookies request !! "company_session" = Some value ->
  decode_session value = Ok sessionData ->
  prop sessionData "expires_at" = Ok expires_at ->
  date_before_now expires_at now = Ok true ->
  response (companyGate request now) =
  clear_cookie "company_session" (NextResponse_redirect "/login").
Proof.
  unfold companyGate. intros -> -> Hp Hd. simpl. rewrite Hp. simpl.
  rewrite Hd. reflexivity.
Qed.

Lemma prop_optProp (v x : JSValue) (k k' : string) :
  prop v k = Ok x -> prop v k' = Ok (optProp v k').
Proof. destruct v; simpl; intros H; try discriminate; reflexivity. Qed.

Lemma companyGate_incomplete (request : NextRequest) (now : Z)
      (value : string) (sessionData expires_at : JSValue) :
  cookies request !! "company_session" = Some value ->
  decode_session value = Ok sessionData ->
  prop sessionData "expires_at" = Ok expires_at ->
  date_before_now expires_at now = Ok false ->
  complete sessionData = false ->
  response (companyGate request now) =
  clear_cookie "company_session" (NextResponse_redirect "/login").
Proof.
  unfold companyGate, complete. intros -> -> Hp Hd Hc. simpl. rewrite Hp. simpl.
  rewrite Hd.
  rewrite (prop_optProp _ _ _ "company_id" Hp). simpl.
  destruct (ToBoolean (optProp sessionData "company_id")) eqn:Hid; simpl.
  - rewrite (prop_optProp _ _ _ "access_token" Hp). simpl.
    simpl in Hc. rewrite Hc. reflexivity.
  - reflexivity.
Qed.

Lemma companyGate_accepts (request : NextRequest) (now : Z)
      (value : string) (sessionData expires_at : JSValue) :
  cookies request !! "company_session" = Some value ->
  decode_session value = Ok sessionData ->
  prop sessionData "expires_at" = Ok expires_at ->
  date_before_now expires_at now = Ok false ->
  complete sessionData = true ->
  forall cid tok : string,
  header_value (optProp sessionData "company_id") = Ok cid ->
  header_value (optProp sessionData "access_token") = Ok tok ->
  valid_header_value cid = true ->
  valid_header_value tok = true ->
  companyGate request now =
  quiet (NextResponse_next_with
           (<["x-access-token" := tok]>
              (<["x-company-id" := cid]> (headers request)))).
Proof.
  unfold companyGate, complete, Headers_set.
  intros -> -> Hp Hd Hc cid tok Hcid Htk H1 H2. simpl. rewrite Hp. simpl.
  rewrite Hd. simpl.
  apply andb_prop in Hc. destruct Hc as [Hid Htok].
  rewrite (prop_optProp _ _ _ "company_id" Hp). simpl. rewrite Hid.
  rewrite (prop_optProp _ _ _ "access_token" Hp). simpl. rewrite Htok. simpl.
  rewrite Hcid. simpl. rewrite H1. simpl. rewrite Htk. simpl. rewrite H2.
  reflexivity.
Qed.

(** Whatever the cookie, the company branch answers with a redirect to the
    login page or lets the request through with its headers replaced. *)
Lemma companyGate_outcomes (request : NextRequest) (now : Z) :
  kind (response (companyGate request now)) = Redirect "/login" \/
  exists h, response (companyGate request now) = NextResponse_next_with h.
Proof.
  unfold companyGate.
  destruct (cookies request !! "company_session") as [value|]; [|left; reflexivity].
  destruct (decode_session value) as [sessionData|e]; simpl; [|left; reflexivity].
  destruct (prop sessionData "expires_at") as [expires_at|e]; simpl; [|left; reflexivity].
  destruct (date_before_now expires_at now) as [[|]|e]; simpl;
    [left; reflexivity| |left; reflexivity].
  destruct (prop sessionData "company_id") as [company_id|e]; simpl; [|left; reflexivity].
  destruct (ToBoolean company_id); simpl; [|left; reflexivity].
  destruct (prop sessionData "access_token") as [access_token|e]; simpl; [|left; reflexivity].
  destruct (ToBoolean access_token); simpl; [|left; reflexivity].
  destruct (Headers_set (headers request) "x-company-id" company_id) as [h1|e];
    simpl; [|left; reflexivity].
  destruct (Headers_set h1 "x-access-token" access_token) as [h2|e];
    simpl; [|left; reflexivity].
  right. eauto.
Qed.

Lemma adminGate_outcomes (request : NextRequest) (now : Z) :
  kind (response (adminGate request now)) = Redirect "/admin/login" \/
  adminGate request now = quiet NextResponse_next.
Proof.
  unfold adminGate.
  destruct (cookies request !! "admin_session") as [value|]; [|left; reflexivity].
  destruct (decode_session value) as [sessionData|e]; simpl; [|left; reflexivity].
  destruct (prop sessionData "expires_at") as [expires_at|e]; simpl; [|left; reflexivity].
  destruct (date_before_now expires_at now) as [[|]|e]; simpl;
    [left; reflexivity|right; reflexivity|left; reflexivity].
Qed.

End Gates.

(* ===================================================================== *)
(** ** The hook: [validateSession] *)
(* ===================================================================== *)

Ltac async_unfold :=
  unfold check_error, try_catch_finally, try_catch_async,
    setData, setLoading, setError,
    localStorage_getItem, localStorage_removeItem, expire_document_cookie,
    set_location_href, send, console_error, modify, lift, await, throw,
    with_state, with_browser;
  unfold mbind, mret, Async_bind, Async_ret.

Section ValidateSession.
Context {RT : Runtime}.
Variable supabase : SupabaseClient.
Variable now : Z.

Lemma validateSession_missing (w : World) :
  localStorage (browser w) !! "company_session" = None ->
  validateSession supabase now w = (Returned (JBool false), w).
Proof. unfold validateSession; async_unfold. intros ->. reflexivity. Qed.

Lemma validateSession_unreadable (w : World) (str : string) (e : Thrown) :
  localStorage (browser w) !! "company_session" = Some str ->
  JSON_parse str = Throw e ->
  validateSession supabase now w = (Returned (JBool false), w).
Proof.
  unfold validateSession; async_unfold. intros -> Hp. destruct (String.eqb str ""); [reflexivity|].
  rewrite Hp. reflexivity.
Qed.

Lemma validateSession_expired (w : World) (str : string)
      (session expires_at : JSValue) :
  localStorage (browser w) !! "company_session" = Some str ->
  str <> "" ->
  JSON_parse str = Ok session ->
  prop session "expires_at" = Ok expires_at ->
  date_before_now expires_at now = Ok true ->
  validateSession supabase now w = (Returned (JBool false), after_cleanup w).
Proof.
  unfold validateSession; async_unfold. intros -> Hne Hp Hx Hd.
  apply String.eqb_neq in Hne. rewrite Hne, Hp, Hx, Hd. reflexivity.
Qed.

Lemma validateSession_not_convertible (w : World) (str : string)
      (session expires_at : JSValue) (e : Thrown) :
  localStorage (browser w) !! "company_session" = Some str ->
  JSON_parse str = Ok session ->
  prop session "expires_at" = Ok expires_at ->
  date_before_now expires_at now = Throw e ->
  validateSession supabase now w = (Returned (JBool false), w).
Proof.
  unfold validateSession; async_unfold. intros -> Hp Hx Hd.
  destruct (String.eqb str ""); [reflexivity|].
  rewrite Hp, Hx, Hd. reflexivity.
Qed.

Lemma validateSession_asks (w : World) (str : string)
      (session expires_at : JSValue) :
  localStorage (browser w) !! "company_session" = Some str ->
  str <> "" ->
  JSON_parse str = Ok session ->
  prop session "expires_at" = Ok expires_at ->
  date_before_now expires_at now = Ok false ->
  validateSession supabase now w =
  (rpc_verdict supabase (optProp session "access_token"),
   after_rpc w (optProp session "access_token")).
Proof.
  unfold validateSession; async_unfold. intros -> Hne Hp Hx Hd.
  apply String.eqb_neq in Hne. rewrite Hne, Hp, Hx, Hd.
  rewrite (prop_optProp _ _ _ "access_token" Hx).
  unfold rpc_verdict, is_valid_of, after_rpc.
  destruct (rpc_validate_access_token supabase (optProp session "access_token"));
    reflexivity.
Qed.

(** [validateSession] never throws, never touches the hook's cells, the
    console or the location, and sends at most the validation call. *)
Lemma validateSession_frame (w w' : World) (o : Outcome JSValue) :
  validateSession supabase now w = (o, w') ->
  (forall e, o <> Threw e) /\
  state w' = state w /\
  console_errors w' = console_errors w /\
  location_href (browser w') = location_href (browser w) /\
  (requests w' = requests w \/
   exists token, requests w' = requests w ++ [Rpc "validate_access_token" token]).
Proof.
  destruct (localStorage (browser w) !! "company_session") as [str|] eqn:Hs.
  2:{ rewrite (validateSession_missing w Hs). intros [= <- <-]. repeat split; auto; try discriminate. }
  destruct (String.eqb_spec str "") as [->|Hne].
  { unfold validateSession; async_unfold. rewrite Hs. simpl. intros [= <- <-]. repeat split; auto; try discriminate. }
  destruct (JSON_parse str) as [session|e] eqn:Hp.
  2:{ rewrite (validateSession_unreadable w str e Hs Hp). intros [= <- <-]. repeat split; auto; try discriminate. }
  destruct (prop session "expires_at") as [expires_at|e] eqn:Hx.
  2:{ unfold validateSession; async_unfold. rewrite Hs. apply String.eqb_neq in Hne. rewrite Hne, Hp, Hx.
      intros [= <- <-]. repeat split; auto; try discriminate. }
  destruct (date_before_now expires_at now) as [[|]|ed] eqn:Hd.
  - rewrite (validateSession_expired w str session expires_at Hs Hne Hp Hx Hd).
    intros [= <- <-]. repeat split; auto; try discriminate.
  - rewrite (validateSession_asks w str session expires_at Hs Hne Hp Hx Hd).
    intros [= <- <-]. repeat split; eauto.
    unfold rpc_verdict. intros e.
    destruct (rpc_validate_access_token supabase _); discriminate.
  - rewrite (validateSession_not_convertible w str session expires_at ed Hs Hp Hx Hd).
    intros [= <- <-]. repeat split; auto; try discriminate.
Qed.

(** A truthy verdict comes from a stored session that parses, has not
    expired, and that the validation call confirmed; nothing changed but
    the request that was sent. *)
Lemma validateSession_valid_inv (w w' : World) (v : JSValue) :
  validateSession supabase now w = (Returned v, w') ->
  ToBoolean v = true ->
  exists str session expires_at,
    localStorage (browser w) !! "company_session" = Some str /\
    str <> "" /\
    JSON_parse str = Ok session /\
    prop session "expires_at" = Ok expires_at /\
    date_before_now expires_at now = Ok false /\
    rpc_verdict supabase (optProp session "access_token") = Returned v /\
    w' = after_rpc w (optProp session "access_token").
Proof.
  intros H Hv.
  destruct (localStorage (browser w) !! "company_session") as [str|] eqn:Hs.
  2:{ rewrite (validateSession_missing w Hs) in H. injection H as <- <-. discriminate. }
  destruct (String.eqb_spec str "") as [->|Hne].
  { revert H. unfold validateSession; async_unfold. rewrite Hs. simpl. intros [= <- <-]. discriminate. }
  destruct (JSON_parse str) as [session|e] eqn:Hp.
  2:{ rewrite (validateSession_unreadable w str e Hs Hp) in H. injection H as <- <-. discriminate. }
  destruct (prop session "expires_at") as [expires_at|e] eqn:Hx.
  2:{ revert H. unfold validateSession; async_unfold. rewrite Hs. apply String.eqb_neq in Hne. rewrite Hne, Hp, Hx.
      intros [= <- <-]. discriminate. }
  destruct (date_before_now expires_at now) as [[|]|ed] eqn:Hd.
  - rewrite (validateSession_expired w str session expires_at Hs Hne Hp Hx Hd) in H.
    injection H as <- <-. discriminate.
  - rewrite (validateSession_asks w str session expires_at Hs Hne Hp Hx Hd) in H.
    injection H as H1 H2. exists str, session, expires_at. repeat split; auto.
  - rewrite (validateSession_not_convertible w str session expires_at ed Hs Hp Hx Hd) in H.
    injection H as <- <-. discriminate.
Qed.

(** The verdict depends on the browser only, not on the hook's cells or on
    what was sent before. *)
Lemma validateSession_verdict (w1 w2 : World) :
  browser w1 = browser w2 ->
  fst (validateSession supabase now w1) = fst (validateSession supabase now w2).
Proof.
  intros Hb. unfold validateSession; async_unfold. rewrite Hb.
  destruct (localStorage (browser w2) !! "company_session") as [str|]; [|reflexivity].
  destruct (String.eqb str ""); [reflexivity|].
  destruct (JSON_parse str) as [session|e]; [|reflexivity].
  destruct (prop session "expires_at") as [expires_at|e]; [|reflexivity].
  destruct (date_before_now expires_at now) as [[|]|ed]; [reflexivity| |reflexivity].
  destruct (prop session "access_token") as [token|e]; [|reflexivity].
  simpl. destruct (rpc_validate_access_token supabase token); reflexivity.
Qed.

End ValidateSession.

(* ===================================================================== *)
(** ** The hook: [fetchOptimizedKPIs] *)
(* ===================================================================== *)

Section Fetch.
Context {RT : Runtime}.
Variable supabase : SupabaseClient.
Variable now : Z.
Variables establishmentId period : string.
Hypothesis has_establishment : establishmentId <> "".
Hypothesis has_period : period <> "".

Lemma fetch_invalid_session (w : World) (v : JSValue) :
  fst (validateSession supabase now w) = Returned v ->
  ToBoolean v = false ->
  let w' := snd (fetchOptimizedKPIs supabase now establishmentId period w) in
  fst (fetchOptimizedKPIs supabase now establishmentId period w) = Returned tt /\
  error (state w') = Some "Session expirée" /\
  data (state w') = data (state w) /\
  loading (state w') = false /\
  location_href (browser w') = "/login" /\
  console_errors w' = console_errors w /\
  (requests w' = requests w \/
   exists token, requests w' = requests w ++ [Rpc "validate_access_token" token]).
Proof.
  intros Hv Hfalse.
  unfold fetchOptimizedKPIs.
  apply String.eqb_neq in has_establishment, has_period.
  rewrite has_establishment, has_period. simpl orb. cbv iota.
  destruct (validateSession supabase now (started w)) as [o w2] eqn:Hrun.
  assert (Ho : o = Returned v).
  { rewrite <- Hv. rewrite (validateSession_verdict supabase now w (started w) eq_refl).
    rewrite Hrun. reflexivity. }
  subst o.
  destruct (validateSession_frame supabase now _ _ _ Hrun) as (_ & Hst & Hce & Hloc & Hreq).
  async_unfold. simpl. fold (started w). rewrite Hrun. rewrite Hfalse. simpl.
  rewrite Hst. simpl. repeat split; auto.
Qed.


(** After a truthy verdict, the cycle stands at the world [after_rpc
    (started w) token], for the token of a stored session that parses. *)
Lemma fetch_valid_prefix (w : World) (v : JSValue) :
  fst (validateSession supabase now w) = Returned v ->
  ToBoolean v = true ->
  exists str session expires_at,
    localStorage (browser w) !! "company_session" = Some str /\
    str <> "" /\
    JSON_parse str = Ok session /\
    prop session "expires_at" = Ok expires_at /\
    validateSession supabase now (started w) =
    (Returned v, after_rpc (started w) (optProp session "access_token")).
Proof.
  intros Hv Htrue.
  destruct (validateSession supabase now (started w)) as [o w2] eqn:Hrun.
  assert (Ho : o = Returned v).
  { rewrite <- Hv. rewrite (validateSession_verdict supabase now w (started w) eq_refl).
    rewrite Hrun. reflexivity. }
  subst o.
  destruct (validateSession_valid_inv supabase now _ _ _ Hrun Htrue)
    as (str & session & expires_at & Hs & Hne & Hp & Hx & _ & _ & ->).
  exists str, session, expires_at. repeat split; auto.
Qed.


Lemma fetch_success (w : World) (v : JSValue)
      (workforceRes financialRes absenceRes : PostgrestResponse)
      (transformed : OptimizedKPIData) :
  fst (validateSession supabase now w) = Returned v ->
  ToBoolean v = true ->
  select_snapshots supabase establishmentId period =
    Fulfilled (workforceRes, financialRes, absenceRes) ->
  first_read_error workforceRes financialRes absenceRes = None ->
  transformedData workforceRes financialRes absenceRes = Ok transformed ->
  (forall id, update_settles supabase now id) ->
  let w' := snd (fetchOptimizedKPIs supabase now establishmentId period w) in
  fst (fetchOptimizedKPIs supabase now establishmentId period w) = Returned tt /\
  state w' =
    {| data := Some transformed;
       loading := false;
       error := None |} /\
  browser w' = browser w /\
  console_errors w' = console_errors w.
Proof.
  intros Hv Htrue Hsel Herr Htr Hupd.
  destruct (fetch_valid_prefix w v Hv Htrue)
    as (str & session & expires_at & Hs & Hne & Hp & Hx & Hrun).
  unfold fetchOptimizedKPIs.
  apply String.eqb_neq in has_establishment, has_period.
  rewrite has_establishment, has_period. simpl orb. cbv iota.
  async_unfold. simpl. fold (started w). rewrite Hrun. rewrite Htrue. simpl.
  rewrite Hsel. simpl.
  unfold first_read_error in Herr.
  destruct (response_error workforceRes) as [e1|]; [discriminate|].
  destruct (response_error financialRes) as [e2|]; [discriminate|].
  destruct (response_error absenceRes) as [e3|]; [discriminate|].
  simpl. rewrite Htr.
  simpl. unfold update_activity. async_unfold. simpl.
  rewrite Hs. apply String.eqb_neq in Hne. rewrite Hne. rewrite Hp.
  rewrite (prop_optProp _ _ _ "company_id" Hx).
  destruct (ToBoolean (optProp session "company_id")) eqn:Hid.
  - destruct (Hupd _ Hid) as [r ->]. simpl. repeat split; auto.
  - simpl. repeat split; auto.
Qed.

(** A column that cannot be converted: the [TypeError] of [Number] reaches
    the [catch]. The cycle ends with its message as the error, the data as
    it was, and no update of the last activity. *)
Lemma fetch_conversion_error (w : World) (v : JSValue)
      (workforceRes financialRes absenceRes : PostgrestResponse)
      (e : Thrown) :
  fst (validateSession supabase now w) = Returned v ->
  ToBoolean v = true ->
  select_snapshots supabase establishmentId period =
    Fulfilled (workforceRes, financialRes, absenceRes) ->
  first_read_error workforceRes financialRes absenceRes = None ->
  transformedData workforceRes financialRes absenceRes = Throw e ->
  let w' := snd (fetchOptimizedKPIs supabase now establishmentId period w) in
  fst (fetchOptimizedKPIs supabase now establishmentId period w) = Returned tt /\
  state w' =
    {| data := data (state w);
       loading := false;
       error := Some (match e with
                      | ErrorObject _ msg => msg
                      | ThrownValue _ => "Erreur de chargement des données"
                      end) |} /\
  browser w' = browser w /\
  (exists token, requests w' = reads_sent establishmentId period w token).
Proof.
  intros Hv Htrue Hsel Herr Htr.
  destruct (fetch_valid_prefix w v Hv Htrue)
    as (str & session & expires_at & Hs & Hne & Hp & Hx & Hrun).
  unfold fetchOptimizedKPIs.
  apply String.eqb_neq in has_establishment, has_period.
  rewrite has_establishment, has_period. simpl orb. cbv iota.
  async_unfold. simpl. fold (started w). rewrite Hrun. rewrite Htrue. simpl.
  rewrite Hsel. simpl.
  unfold first_read_error in Herr.
  destruct (response_error workforceRes) as [e1|]; [discriminate|].
  destruct (response_error financialRes) as [e2|]; [discriminate|].
  destruct (response_error absenceRes) as [e3|]; [discriminate|].
  simpl. rewrite Htr. simpl. repeat split; auto.
  exists (optProp session "access_token"). unfold reads_sent.
  rewrite <- !app_assoc. reflexivity.
Qed.

End Fetch.

(** More on the verdict of [validateSession]. *)
Section Verdict.
Context {RT : Runtime}.
Variable supabase : SupabaseClient.
Variable now : Z.

(** Each cause makes [validateSession] answer [false]... *)
Lemma invalid_cause_verdict (w : World) :
  InvalidCause supabase now (browser w) ->
  exists v, fst (validateSession supabase now w) = Returned v /\ ToBoolean v = false.
Proof.
  intros [[Hs|Hs] | str e Hs Hp | str session e Hs Hp Hx
          | str session expires_at Hs Hp Hx Hd
          | str session expires_at e Hs Hp Hx Hd
          | str session expires_at e Hs Hp Hx Hd Hr
          | str session expires_at res Hs Hp Hx Hd Hr Hv].
  - rewrite (validateSession_missing supabase now w Hs). eauto.
  - unfold validateSession; async_unfold. rewrite Hs. simpl. eauto.
  - rewrite (validateSession_unreadable supabase now w str e Hs Hp). eauto.
  - unfold validateSession; async_unfold. rewrite Hs.
    destruct (String.eqb str ""); [simpl; eauto|]. rewrite Hp, Hx. simpl. eauto.
  - destruct (String.eqb_spec str "") as [->|Hne].
    + unfold validateSession; async_unfold. rewrite Hs. simpl. eauto.
    + rewrite (validateSession_expired supabase now w str _ _ Hs Hne Hp Hx Hd). eauto.
  - rewrite (validateSession_not_convertible supabase now w str _ _ e Hs Hp Hx Hd).
    eauto.
  - destruct (String.eqb_spec str "") as [->|Hne].
    + unfold validateSession; async_unfold. rewrite Hs. simpl. eauto.
    + rewrite (validateSession_asks supabase now w str _ _ Hs Hne Hp Hx Hd).
      unfold rpc_verdict. rewrite Hr. simpl. eauto.
  - destruct (String.eqb_spec str "") as [->|Hne].
    + unfold validateSession; async_unfold. rewrite Hs. simpl. eauto.
    + rewrite (validateSession_asks supabase now w str _ _ Hs Hne Hp Hx Hd).
      unfold rpc_verdict, is_valid_of, js_or. rewrite Hr, Hv. simpl. eauto.
Qed.

(** ... and a falsy answer always has one of these causes. *)
Lemma verdict_invalid_cause (w : World) (v : JSValue) :
  fst (validateSession supabase now w) = Returned v ->
  ToBoolean v = false ->
  InvalidCause supabase now (browser w).
Proof.
  intros H Hv.
  destruct (localStorage (browser w) !! "company_session") as [str|] eqn:Hs.
  2:{ apply NoStoredSession. auto. }
  destruct (String.eqb_spec str "") as [->|Hne].
  { apply NoStoredSession. auto. }
  destruct (JSON_parse str) as [session|e] eqn:Hp.
  2:{ eapply UnreadableSession; eauto. }
  destruct (prop session "expires_at") as [expires_at|e] eqn:Hx.
  2:{ eapply SessionWithoutProperties; eauto. }
  destruct (date_before_now expires_at now) as [[|]|ed] eqn:Hd.
  { eapply ExpiredSession; eauto. }
  2:{ eapply ExpiryNotConvertible; eauto. }
  rewrite (validateSession_asks supabase now w str _ _ Hs Hne Hp Hx Hd) in H.
  simpl in H. unfold rpc_verdict in H.
  destruct (rpc_validate_access_token supabase (optProp session "access_token"))
    as [res|e|] eqn:Hr; [| |discriminate].
  - eapply ValidationDenied; eauto.
    injection H as <-. unfold is_valid_of, js_or in Hv.
    destruct (ToBoolean (optProp (optIndex0 (response_data res)) "is_valid")) eqn:Hq;
      [congruence|reflexivity].
  - eapply ValidationRejected; eauto.
Qed.

(** A validation that returns no row, or a first row whose [is_valid] is
    [false], denies. *)
Lemma no_rows_denied (res : PostgrestResponse) :
  response_data res = JArr [] \/ response_data res = JNull ->
  ToBoolean (optProp (optIndex0 (response_data res)) "is_valid") = false.
Proof. intros [-> | ->]; reflexivity. Qed.

Lemma is_valid_false_denied (res : PostgrestResponse)
      (columns : list (string * JSValue)) (more : list JSValue) :
  response_data res = JArr (JObj columns :: more) ->
  lookup_prop "is_valid" columns = Some (JBool false) ->
  ToBoolean (optProp (optIndex0 (response_data res)) "is_valid") = false.
Proof. intros -> H. simpl. rewrite H. reflexivity. Qed.

(** The verdict does not depend on the last-activity update. *)
Lemma validateSession_with_update
      (update : JSValue -> Z -> Settled PostgrestResponse) (w : World) :
  validateSession (with_update supabase update) now w =
  validateSession supabase now w.
Proof. reflexivity. Qed.

End Verdict.

(** The last-activity update on the outcome of a cycle. *)
Section Activity.
Context {RT : Runtime}.
Variable supabase : SupabaseClient.
Variable now : Z.
Variables establishmentId period : string.
Hypothesis has_establishment : establishmentId <> "".
Hypothesis has_period : period <> "".

(** While the update is not settled the cycle does not finish: the data is
    set, [loading] is still [true]. *)
Lemma fetch_update_pending (w : World) (v : JSValue) (str : string)
      (session : JSValue)
      (workforceRes financialRes absenceRes : PostgrestResponse)
      (transformed : OptimizedKPIData) :
  fst (validateSession supabase now w) = Returned v ->
  ToBoolean v = true ->
  select_snapshots supabase establishmentId period =
    Fulfilled (workforceRes, financialRes, absenceRes) ->
  first_read_error workforceRes financialRes absenceRes = None ->
  transformedData workforceRes financialRes absenceRes = Ok transformed ->
  localStorage (browser w) !! "company_session" = Some str ->
  JSON_parse str = Ok session ->
  ToBoolean (optProp session "company_id") = true ->
  update_last_activity supabase (optProp session "company_id") now = Unsettled ->
  let w' := snd (fetchOptimizedKPIs supabase now establishmentId period w) in
  fst (fetchOptimizedKPIs supabase now establishmentId period w) = Suspended /\
  state w' =
    {| data := Some transformed;
       loading := true;
       error := None |}.
Proof.
  intros Hv Htrue Hsel Herr Htr Hs' Hp' Hid Hupd.
  destruct (fetch_valid_prefix supabase now w v Hv Htrue)
    as (str0 & session0 & expires_at & Hs & Hne & Hp & Hx & Hrun).
  assert (str0 = str) by congruence. subst str0.
  assert (session0 = session) by congruence. subst session0.
  unfold fetchOptimizedKPIs.
  apply String.eqb_neq in has_establishment, has_period.
  rewrite has_establishment, has_period. simpl orb. cbv iota.
  async_unfold. simpl. fold (started w). rewrite Hrun. rewrite Htrue. simpl.
  rewrite Hsel. simpl.
  unfold first_read_error in Herr.
  destruct (response_error workforceRes) as [e1|]; [discriminate|].
  destruct (response_error financialRes) as [e2|]; [discriminate|].
  destruct (response_error absenceRes) as [e3|]; [discriminate|].
  simpl. rewrite Htr.
  simpl. unfold update_activity. async_unfold. simpl.
  rewrite Hs. apply String.eqb_neq in Hne. rewrite Hne. rewrite Hp.
  rewrite (prop_optProp _ _ _ "company_id" Hx). rewrite Hid, Hupd. simpl.
  split; reflexivity.
Qed.

(** An update that is rejected reaches the [catch]: the cycle ends with the
    reason as its error, the data set. *)
Lemma fetch_update_rejected (w : World) (v : JSValue) (str : string)
      (session : JSValue) (reason : Thrown)
      (workforceRes financialRes absenceRes : PostgrestResponse)
      (transformed : OptimizedKPIData) :
  fst (validateSession supabase now w) = Returned v ->
  ToBoolean v = true ->
  select_snapshots supabase establishmentId period =
    Fulfilled (workforceRes, financialRes, absenceRes) ->
  first_read_error workforceRes financialRes absenceRes = None ->
  transformedData workforceRes financialRes absenceRes = Ok transformed ->
  localStorage (browser w) !! "company_session" = Some str ->
  JSON_parse str = Ok session ->
  ToBoolean (optProp session "company_id") = true ->
  update_last_activity supabase (optProp session "company_id") now = Rejected reason ->
  let w' := snd (fetchOptimizedKPIs supabase now establishmentId period w) in
  state w' =
    {| data := Some transformed;
       loading := false;
       error := Some (match reason with
                      | ErrorObject _ msg => msg
                      | ThrownValue _ => "Erreur de chargement des données"
                      end) |}.
Proof.
  intros Hv Htrue Hsel Herr Htr Hs' Hp' Hid Hupd.
  destruct (fetch_valid_prefix supabase now w v Hv Htrue)
    as (str0 & session0 & expires_at & Hs & Hne & Hp & Hx & Hrun).
  assert (str0 = str) by congruence. subst str0.
  assert (session0 = session) by congruence. subst session0.
  unfold fetchOptimizedKPIs.
  apply String.eqb_neq in has_establishment, has_period.
  rewrite has_establishment, has_period. simpl orb. cbv iota.
  async_unfold. simpl. fold (started w). rewrite Hrun. rewrite Htrue. simpl.
  rewrite Hsel. simpl.
  unfold first_read_error in Herr.
  destruct (response_error workforceRes) as [e1|]; [discriminate|].
  destruct (response_error financialRes) as [e2|]; [discriminate|].
  destruct (response_error absenceRes) as [e3|]; [discriminate|].
  simpl. rewrite Htr.
  simpl. unfold update_activity. async_unfold. simpl.
  rewrite Hs. apply String.eqb_neq in Hne. rewrite Hne. rewrite Hp.
  rewrite (prop_optProp _ _ _ "company_id" Hx). rewrite Hid, Hupd. simpl.
  reflexivity.
Qed.

(** An update that is fulfilled, with whatever result, lets the cycle
    finish: the data set, no error, [loading] false. *)
Lemma fetch_update_fulfilled (w : World) (v : JSValue) (str : string)
      (session : JSValue) (res : PostgrestResponse)
      (workforceRes financialRes absenceRes : PostgrestResponse)
      (transformed : OptimizedKPIData) :
  fst (validateSession supabase now w) = Returned v ->
  ToBoolean v = true ->
  select_snapshots supabase establishmentId period =
    Fulfilled (workforceRes, financialRes, absenceRes) ->
  first_read_error workforceRes financialRes absenceRes = None ->
  transformedData workforceRes financialRes absenceRes = Ok transformed ->
  localStorage (browser w) !! "company_session" = Some str ->
  JSON_parse str = Ok session ->
  ToBoolean (optProp session "company_id") = true ->
  update_last_activity supabase (optProp session "company_id") now = Fulfilled res ->
  let w' := snd (fetchOptimizedKPIs supabase now establishmentId period w) in
  fst (fetchOptimizedKPIs supabase now establishmentId period w) = Returned tt /\
  state w' =
    {| data := Some transformed;
       loading := false;
       error := None |}.
Proof.
  intros Hv Htrue Hsel Herr Htr Hs' Hp' Hid Hupd.
  destruct (fetch_valid_prefix supabase now w v Hv Htrue)
    as (str0 & session0 & expires_at & Hs & Hne & Hp & Hx & Hrun).
  assert (str0 = str) by congruence. subst str0.
  assert (session0 = session) by congruence. subst session0.
  unfold fetchOptimizedKPIs.
  apply String.eqb_neq in has_establishment, has_period.
  rewrite has_establishment, has_period. simpl orb. cbv iota.
  async_unfold. simpl. fold (started w). rewrite Hrun. rewrite Htrue. simpl.
  rewrite Hsel. simpl.
  unfold first_read_error in Herr.
  destruct (response_error workforceRes) as [e1|]; [discriminate|].
  destruct (response_error financialRes) as [e2|]; [discriminate|].
  destruct (response_error absenceRes) as [e3|]; [discriminate|].
  simpl. rewrite Htr.
  simpl. unfold update_activity. async_unfold. simpl.
  rewrite Hs. apply String.eqb_neq in Hne. rewrite Hne. rewrite Hp.
  rewrite (prop_optProp _ _ _ "company_id" Hx). rewrite Hid, Hupd. simpl.
  split; reflexivity.
Qed.

End Activity.

(** The coercion [Number(v) || 0]. *)
Section Coercion.
Context {RT : Runtime}.

Lemma number_or_zero_null : number_or_zero JNull = Ok zero.
Proof. reflexivity. Qed.

Lemma number_or_zero_undefined : number_or_zero JUndefined = Ok zero.
Proof. reflexivity. Qed.

Lemma number_or_zero_NaN : number_or_zero (JNum nan) = Ok zero.
Proof. reflexivity. Qed.

Lemma number_or_zero_abc : number_or_zero (JStr "abc") = Ok zero.
Proof. vm_compute. reflexivity. Qed.

Lemma number_or_zero_42 : number_or_zero (JStr "42") = Ok 42%float.
Proof. vm_compute. reflexivity. Qed.

(** A number that is neither [NaN] nor a zero is kept as it is; both zeros
    come out as [+0]. *)
Lemma number_or_zero_number (n : float) :
  number_or_zero (JNum n) = Ok (if number_truthy n then n else zero).
Proof. reflexivity. Qed.

Lemma number_or_zero_negative_zero : number_or_zero (JNum neg_zero) = Ok zero.
Proof. reflexivity. Qed.

(** A missing column reads as [undefined], hence as [0]. *)
Lemma missing_column_is_zero (columns : list (string * JSValue)) (name : string) :
  lookup_prop name columns = None ->
  number_or_zero (column (JObj columns) name) = Ok zero.
Proof. unfold column. simpl. intros ->. reflexivity. Qed.

Lemma when_row_null {A} (f : JSValue -> Result A) (res : PostgrestResponse) :
  response_data res = JNull -> when_row f res = Ok None.
Proof. unfold when_row. intros ->. reflexivity. Qed.


(** A conversion that throws: the column holds an object with a [toString]
    of its own. *)
Lemma number_or_zero_throws (props : list (string * JSValue)) (x : JSValue) :
  lookup_prop "toString" props = Some x ->
  number_or_zero (JObj props) = Throw not_convertible.
Proof. unfold number_or_zero. simpl. intros ->. reflexivity. Qed.

Ltac column_cases Hall :=
  repeat match goal with
  | |- context [rbind (number_or_zero (column ?row ?name)) _] =>
      let E := fresh "E" in
      destruct (number_or_zero (column row name)) as [?|?] eqn:E; simpl;
      [|try discriminate;
        try (exfalso;
             let Hc := fresh "Hc" in
             eassert (Hc : exists n, number_or_zero (column row name) = Ok n)
               by (eapply Hall; simpl;
                   repeat (first [left; reflexivity | right]));
             destruct Hc as [? Hc]; rewrite E in Hc; discriminate)]
  end.

(** Each transform reads every field from its column with
    [Number(...) || 0], and gives a record as soon as every column
    converts. *)
Lemma transforms_normalized :
  normalized_by transform_workforce workforce_columns /\
  normalized_by transform_financials payroll_columns /\
  normalized_by transform_absences absence_columns.
Proof.
  split; [|split]; intros row; split.
  - intros record field name Hrec Hin. revert Hrec.
    unfold transform_workforce. column_cases Hin.
    intros [= <-]. simpl in Hin.
    repeat (destruct Hin as [[= <- <-]|Hin]; [assumption|]). destruct Hin.
  - intros Hall. unfold transform_workforce. column_cases Hall. eauto.
  - intros record field name Hrec Hin. revert Hrec.
    unfold transform_financials. column_cases Hin.
    intros [= <-]. simpl in Hin.
    repeat (destruct Hin as [[= <- <-]|Hin]; [assumption|]). destruct Hin.
  - intros Hall. unfold transform_financials. column_cases Hall. eauto.
  - intros record field name Hrec Hin. revert Hrec.
    unfold transform_absences. column_cases Hin.
    intros [= <-]. simpl in Hin.
    repeat (destruct Hin as [[= <- <-]|Hin]; [assumption|]). destruct Hin.
  - intros Hall. unfold transform_absences. column_cases Hall. eauto.
Qed.

(** What [transformedData] gives is made of the three partitions, each on
    its own. *)
Lemma transformedData_parts (wr fr ar : PostgrestResponse)
      (transformed : OptimizedKPIData) :
  transformedData wr fr ar = Ok transformed ->
  when_row transform_workforce wr = Ok (workforce transformed) /\
  when_row transform_financials fr = Ok (financials transformed) /\
  when_row transform_absences ar = Ok (absences transformed).
Proof.
  unfold transformedData.
  destruct (when_row transform_workforce wr) as [x|e]; simpl; [|discriminate].
  destruct (when_row transform_financials fr) as [y|e]; simpl; [|discriminate].
  destruct (when_row transform_absences ar) as [z|e]; simpl; [|discriminate].
  intros [= <-]. repeat split; reflexivity.
Qed.

(** What [when_row] gives for a row that is there. *)
Lemma when_row_some {A} (f : JSValue -> Result A) (res : PostgrestResponse)
      (x : option A) :
  ToBoolean (response_data res) = true ->
  when_row f res = Ok x ->
  exists record, x = Some record /\ f (response_data res) = Ok record.
Proof.
  unfold when_row. intros ->.
  destruct (f (response_data res)) as [record|e]; simpl; [|discriminate].
  intros [= <-]. eauto.
Qed.

(** Numbers, strings, booleans, [null] and [undefined] always convert. *)
Lemma number_or_zero_primitive (v : JSValue) :
  match v with JArr _ | JObj _ => False | _ => True end ->
  exists n, number_or_zero v = Ok n.
Proof.
  unfold number_or_zero.
  destruct v as [| |[|]|n|s|items|props]; simpl; intros H; try contradiction; eauto.
Qed.

End Coercion.

(* ===================================================================== *)
(** ** The claims: the route classifier *)
(* ===================================================================== *)

(** C1. The claim: a request under a protected prefix that carries no valid
    company session is redirected to [/login] and never passed through.
    What the code does on the request for [/dashboard] without any cookie:
    the path is protected, there is no [company_session] cookie, and the
    middleware lets the request through, because the path begins with the
    public entry ["/"]; the company branch, which would redirect to
    [/login], is never reached. *)
Theorem C1_protected_request_without_session_passes :
  forall (RT : Runtime) (now : Z),
    let request := Samples.request_to "/dashboard" ∅ in
    isProtectedPath (pathname request) = true /\
    cookies request !! "company_session" = None /\
    isPublicPath (pathname request) = true /\
    middleware request now = quiet NextResponse_next /\
    response (companyGate request now) = NextResponse_redirect "/login".
Proof.
  intros RT now request.
  split; [reflexivity|]. split; [reflexivity|]. split; [reflexivity|].
  split; [apply middleware_passes_everything | reflexivity].
Qed.

(** C2. For every request whose path equals or begins with a public entry,
    the middleware answers [NextResponse.next()] with nothing changed and
    nothing logged, whether or not the path is also under an admin or a
    protected prefix; and no session is looked at: the answer is the same
    for every request with that path, whatever its cookies, its headers and
    the time. *)
Theorem C2_public_path_passes_unchecked :
  forall (RT : Runtime) (request : NextRequest) (now : Z),
    isPublicPath (pathname request) = true ->
    middleware request now = quiet NextResponse_next /\
    forall (request' : NextRequest) (now' : Z),
      pathname request' = pathname request ->
      middleware request' now' = middleware request now.
Proof.
  intros RT request now Hpub. split.
  - apply middleware_public, Hpub.
  - intros request' now' Hpath.
    rewrite (middleware_public request now Hpub).
    apply middleware_public. rewrite Hpath. exact Hpub.
Qed.

(** A path that is public and protected at once, with an expired session. *)
Lemma C2_witness :
  let request := Samples.request_to "/dashboard"
                   (Samples.company_jar Samples.expired_cookie) in
  isPublicPath (pathname request) = true /\
  isProtectedPath (pathname request) = true /\
  @middleware Reference.runtime request Samples.clock = quiet NextResponse_next.
Proof.
  intros request. split; [reflexivity|]. split; [reflexivity|].
  exact (proj1 (C2_public_path_passes_unchecked Reference.runtime request
                  Samples.clock eq_refl)).
Defined.

(** C3. The claim: a request on a protected path with a well-formed,
    unexpired and complete company session is forwarded with the headers
    [x-company-id] and [x-access-token] set. What the code does on the
    request for [/dashboard] with such a session (company c1, token tok-1,
    expiry in 2099): the cookie decodes, is not expired and is complete,
    and the middleware forwards the request without replacing any header;
    the company branch, which would set the two headers, is never reached. *)
Theorem C3_valid_session_forwarded_without_headers :
  let request := Samples.request_to "/dashboard"
                   (Samples.company_jar Samples.valid_cookie) in
  let run := @middleware Reference.runtime request Samples.clock in
  let gate := @companyGate Reference.runtime request Samples.clock in
  isProtectedPath (pathname request) = true /\
  @decode_session Reference.runtime Samples.valid_cookie =
    Ok (JObj [("company_id", JStr "c1"); ("access_token", JStr "tok-1");
              ("expires_at", JStr "2099-01-01T00:00:00.000Z")]) /\
  @date_before_now Reference.runtime (JStr "2099-01-01T00:00:00.000Z")
    Samples.clock = Ok false /\
  kind (response run) = Next /\
  request_headers (response run) = None /\
  (exists h, request_headers (response gate) = Some h /\
             h !! "x-company-id" = Some "c1" /\
             h !! "x-access-token" = Some "tok-1").
Proof.
  intros request run gate. repeat split; try (vm_compute; reflexivity).
  eexists. split; [vm_compute; reflexivity|]. split; vm_compute; reflexivity.
Qed.

(** C5. The claim: a malformed cookie on an admin or protected path is
    answered by a redirect to [/admin/login] or [/login]. What the code does
    on [/admin/users] with an [admin_session] that is not base64 and on
    [/dashboard] with a [company_session] that is base64 of a text that is
    not JSON: both requests are let through, their paths being public by the
    entry ["/"]; the two branches, which would redirect, are never reached.
    (No run of the middleware throws: [middleware] is a total function into
    responses.) *)
Theorem C5_malformed_cookie_passes :
  let admin_request := Samples.request_to "/admin/users"
                         (Samples.admin_jar Samples.not_base64_cookie) in
  let company_request := Samples.request_to "/dashboard"
                           (Samples.company_jar Samples.not_json_cookie) in
  isAdminPath (pathname admin_request) = true /\
  isProtectedPath (pathname company_request) = true /\
  @malformed Reference.runtime Samples.not_base64_cookie /\
  @malformed Reference.runtime Samples.not_json_cookie /\
  @middleware Reference.runtime admin_request Samples.clock =
    quiet NextResponse_next /\
  @middleware Reference.runtime company_request Samples.clock =
    quiet NextResponse_next /\
  @adminGate Reference.runtime admin_request Samples.clock =
    quiet (NextResponse_redirect "/admin/login") /\
  response (@companyGate Reference.runtime company_request Samples.clock) =
    clear_cookie "company_session" (NextResponse_redirect "/login").
Proof.
  intros admin_request company_request.
  repeat split; try (vm_compute; reflexivity);
    eexists; vm_compute; reflexivity.
Qed.

(* ===================================================================== *)
(** ** The claims: the local check on an expired session *)
(* ===================================================================== *)




(* ===================================================================== *)
(** ** The claims: the fetch orchestrator *)
(* ===================================================================== *)

(** C6. Whenever [validateSession] answers a falsy value in a cycle started
    with an entity and a period (by [invalid_cause_verdict] this is so when
    no session is stored, when the stored session has expired, when the
    validation call is rejected, and when it returns no row or a row whose
    [is_valid] is [false]), the cycle ends with the error ["Session
    expirée"], leaves [data] as it was ([null] unless an earlier cycle set
    it), leaves [loading] false, sets the location to [/login] and sends no
    request other than, at most, the validation call itself: no read. *)
Theorem C6_invalid_session_aborts_the_fetch :
  forall (RT : Runtime) (supabase : SupabaseClient) (now : Z)
         (establishmentId period : string) (w : World) (v : JSValue),
    establishmentId <> "" ->
    period <> "" ->
    fst (validateSession supabase now w) = Returned v ->
    ToBoolean v = false ->
    let w' := snd (fetchOptimizedKPIs supabase now establishmentId period w) in
    error (state w') = Some "Session expirée" /\
    data (state w') = data (state w) /\
    (data (state w) = None -> isValid (expose (state w')) = false) /\
    loading (state w') = false /\
    location_href (browser w') = "/login" /\
    (requests w' = requests w \/
     exists token, requests w' = requests w ++ [Rpc "validate_access_token" token]) /\
    List.filter is_select (requests w') = List.filter is_select (requests w).
Proof.
  intros RT supabase now establishmentId period w v He Hp Hv Hfalse w'.
  destruct (fetch_invalid_session supabase now establishmentId period He Hp w v
              Hv Hfalse) as (_ & Herr & Hdata & Hload & Hloc & _ & Hreq).
  fold w' in Herr, Hdata, Hload, Hloc, Hreq.
  repeat split; auto.
  - intros Hnone. unfold expose. simpl. rewrite Hdata, Hnone. reflexivity.
  - destruct Hreq as [-> | [token ->]]; [reflexivity|].
    rewrite List.filter_app. simpl. rewrite app_nil_r. reflexivity.
Qed.

(** A stored session that is in date, with a token the backend says was
    revoked. *)
Lemma C6_witness :
  let supabase := Samples.backend (Fulfilled Samples.token_revoked)
                    Samples.scenario_reads (Fulfilled Samples.no_row) in
  let w := mount (Samples.browser_holding Samples.valid_cookie) in
  let w' := snd (@fetchOptimizedKPIs Reference.runtime supabase Samples.clock
                   "E1" "2024-01" w) in
  fst (@validateSession Reference.runtime supabase Samples.clock w) =
    Returned (JBool false) /\
  error (state w') = Some "Session expirée" /\
  data (state w') = None /\
  location_href (browser w') = "/login" /\
  List.filter is_select (requests w') = [].
Proof.
  intros supabase w w'.
  assert (Hv : fst (@validateSession Reference.runtime supabase Samples.clock w) =
               Returned (JBool false)) by (vm_compute; reflexivity).
  assert (He : "E1" <> "") by discriminate.
  assert (Hp : "2024-01" <> "") by discriminate.
  destruct (C6_invalid_session_aborts_the_fetch Reference.runtime supabase
              Samples.clock "E1" "2024-01" w (JBool false) He Hp Hv eq_refl)
    as (H1 & H2 & _ & _ & H5 & _ & H7).
  split; [exact Hv|]. split; [exact H1|]. split; [exact H2|].
  split; [exact H5|exact H7].
Defined.



(** C8. [Number(v) || 0] turns [null], [undefined], the string ["abc"] and
    [NaN] into [0] and the string ["42"] into [42], and every field of the
    normalized records is computed that way; and in the scenario (entity
    E1, period 2024-01, a valid session, a workforce row whose
    [etp_fin_mois] is 12.5, no payroll row, an absence row whose
    [taux_absenteisme] is [null]) the hook ends with [workforce.etpTotal] =
    12.5, [financials] = [null], [absences.tauxAbsenteisme] = 0, no error
    and [isValid] true. (The rows may hold any other columns that convert:
    [transformedData] gives a record.) *)
Theorem C8_coercion_and_scenario :
  forall (RT : Runtime) (supabase : SupabaseClient) (now : Z) (b : Browser)
         (v : JSValue) (workforceRes financialRes absenceRes : PostgrestResponse)
         (transformed : OptimizedKPIData),
    fst (validateSession supabase now (mount b)) = Returned v ->
    ToBoolean v = true ->
    select_snapshots supabase "E1" "2024-01" =
      Fulfilled (workforceRes, financialRes, absenceRes) ->
    response_error workforceRes = None ->
    response_error financialRes = None ->
    response_error absenceRes = None ->
    ToBoolean (response_data workforceRes) = true ->
    column (response_data workforceRes) "etp_fin_mois" = JNum 12.5 ->
    response_data financialRes = JNull ->
    ToBoolean (response_data absenceRes) = true ->
    column (response_data absenceRes) "taux_absenteisme" = JNull ->
    transformedData workforceRes financialRes absenceRes = Ok transformed ->
    (forall id, update_settles supabase now id) ->
    (number_or_zero JNull = Ok zero /\
     number_or_zero JUndefined = Ok zero /\
     number_or_zero (JStr "abc") = Ok zero /\
     number_or_zero (JNum nan) = Ok zero /\
     number_or_zero (JStr "42") = Ok 42%float) /\
    (normalized_by transform_workforce workforce_columns /\
     normalized_by transform_financials payroll_columns /\
     normalized_by transform_absences absence_columns) /\
    let shown := useOptimizedKPIData supabase now "E1" "2024-01" b in
    (exists wf ab,
       exposed_data shown =
         Some {| workforce := Some wf; financials := None; absences := Some ab |} /\
       etpTotal wf = 12.5%float /\
       tauxAbsenteisme ab = zero) /\
    exposed_error shown = None /\
    exposed_loading shown = false /\
    isValid shown = true.
Proof.
  intros RT supabase now b v wr fr ar transformed Hv Htrue Hsel E1 E2 E3
         Hwf Hetp Hfin Hab Htaux Htr Hupd.
  split.
  { split; [apply number_or_zero_null|].
    split; [apply number_or_zero_undefined|].
    split; [apply number_or_zero_abc|].
    split; [apply number_or_zero_NaN|apply number_or_zero_42]. }
  split; [exact transforms_normalized|].
  assert (He : "E1" <> "") by discriminate.
  assert (Hp : "2024-01" <> "") by discriminate.
  assert (Herr : first_read_error wr fr ar = None).
  { unfold first_read_error. rewrite E1, E2, E3. reflexivity. }
  destruct (fetch_success supabase now "E1" "2024-01" He Hp (mount b) v wr fr ar
              transformed Hv Htrue Hsel Herr Htr Hupd) as (_ & Hst & _).
  unfold useOptimizedKPIData. cbv zeta. unfold expose. rewrite Hst. simpl.
  destruct (transformedData_parts wr fr ar transformed Htr) as (Pw & Pf & Pa).
  destruct (when_row_some _ _ _ Hwf Pw) as (wf & Ewf & Hwfrow).
  destruct (when_row_some _ _ _ Hab Pa) as (ab & Eab & Habrow).
  rewrite (when_row_null transform_financials fr Hfin) in Pf.
  injection Pf as Ef.
  destruct transforms_normalized as (Nw & _ & Na).
  pose proof (proj1 (Nw (response_data wr)) wf etpTotal "etp_fin_mois" Hwfrow
                (or_introl eq_refl)) as Hone.
  pose proof (proj1 (Na (response_data ar)) ab tauxAbsenteisme "taux_absenteisme"
                Habrow (or_introl eq_refl)) as Htwo.
  rewrite Hetp in Hone. rewrite Htaux in Htwo.
  split; [|repeat split].
  exists wf, ab. split.
  { destruct transformed as [tw tf ta]. simpl in *. subst. reflexivity. }
  split.
  - assert (H : number_or_zero (JNum 12.5) = Ok 12.5%float)
      by (vm_compute; reflexivity).
    rewrite H in Hone. injection Hone as <-. reflexivity.
  - rewrite number_or_zero_null in Htwo. injection Htwo as <-. reflexivity.
Qed.

Lemma C8_witness :
  let supabase := Samples.backend (Fulfilled Samples.token_valid)
                    Samples.scenario_reads (Fulfilled Samples.no_row) in
  let shown := @useOptimizedKPIData Reference.runtime supabase Samples.clock
                 "E1" "2024-01" (Samples.browser_holding Samples.valid_cookie) in
  (exists wf ab,
     exposed_data shown =
       Some {| workforce := Some wf; financials := None; absences := Some ab |} /\
     etpTotal wf = 12.5%float /\
     tauxAbsenteisme ab = zero) /\
  exposed_error shown = None /\
  isValid shown = true.
Proof.
  intros supabase shown.
  assert (Hv : fst (@validateSession Reference.runtime supabase Samples.clock
                      (mount (Samples.browser_holding Samples.valid_cookie))) =
               Returned (JBool true)) by (vm_compute; reflexivity).
  assert (Hupd : forall id, @update_settles supabase Samples.clock id)
    by (intros id _; eexists; reflexivity).
  assert (Htr : @transformedData Reference.runtime
                  (Samples.row [("etp_fin_mois", JNum 12.5)]) Samples.no_row
                  (Samples.row [("taux_absenteisme", JNull)]) =
                Ok Samples.scenario_data)
    by (vm_compute; reflexivity).
  destruct (C8_coercion_and_scenario Reference.runtime supabase Samples.clock
              (Samples.browser_holding Samples.valid_cookie) (JBool true) _ _ _ _
              Hv eq_refl eq_refl eq_refl eq_refl eq_refl eq_refl eq_refl
              eq_refl eq_refl eq_refl Htr Hupd) as (_ & _ & H1 & H2 & _ & H4).
  split; [exact H1|]. split; [exact H2|exact H4].
Defined.

(** C9, as amended. The last-activity update is awaited, and what it is
    fulfilled with is thrown away. In a cycle with a valid session whose
    three reads succeed, with rows that convert, and whose stored session
    names a company: as long as the update has not settled the cycle does not finish and [loading]
    stays [true], the data already set; once the update is fulfilled the
    cycle finishes with the data of the reads, no error and [loading]
    false, so that the data, the error and [loading] at the end are the
    same for any two updates that are fulfilled, whether with a success or
    with an error report. *)
Theorem C9_update_result_is_discarded :
  forall (RT : Runtime) (supabase : SupabaseClient) (now : Z)
         (establishmentId period : string) (w : World) (v : JSValue)
         (workforceRes financialRes absenceRes : PostgrestResponse)
         (transformed : OptimizedKPIData)
         (str : string) (session : JSValue),
    establishmentId <> "" ->
    period <> "" ->
    fst (validateSession supabase now w) = Returned v ->
    ToBoolean v = true ->
    select_snapshots supabase establishmentId period =
      Fulfilled (workforceRes, financialRes, absenceRes) ->
    first_read_error workforceRes financialRes absenceRes = None ->
    transformedData workforceRes financialRes absenceRes = Ok transformed ->
    localStorage (browser w) !! "company_session" = Some str ->
    JSON_parse str = Ok session ->
    ToBoolean (optProp session "company_id") = true ->
    let run update :=
      fetchOptimizedKPIs (with_update supabase update) now
        establishmentId period w in
    let loaded := Some transformed in
    (forall update,
       update (optProp session "company_id") now = Unsettled ->
       fst (run update) = Suspended /\
       state (snd (run update)) =
         {| data := loaded; loading := true; error := None |}) /\
    (forall update res,
       update (optProp session "company_id") now = Fulfilled res ->
       fst (run update) = Returned tt /\
       state (snd (run update)) =
         {| data := loaded; loading := false; error := None |}) /\
    (forall update1 update2 res1 res2,
       update1 (optProp session "company_id") now = Fulfilled res1 ->
       update2 (optProp session "company_id") now = Fulfilled res2 ->
       state (snd (run update1)) = state (snd (run update2))).
Proof.
  intros RT supabase now establishmentId period w v wr fr ar transformed
         str session He Hp Hv Htrue Hsel Herr Htr Hs Hparse Hid run loaded.
  assert (Hdone : forall update res,
             update (optProp session "company_id") now = Fulfilled res ->
             fst (run update) = Returned tt /\
             state (snd (run update)) =
               {| data := loaded; loading := false; error := None |}).
  { intros update res Hu.
    exact (fetch_update_fulfilled (with_update supabase update) now
             establishmentId period He Hp w v str session res wr fr ar
             transformed Hv Htrue Hsel Herr Htr Hs Hparse Hid Hu). }
  split; [|split].
  - intros update Hu.
    exact (fetch_update_pending (with_update supabase update) now
             establishmentId period He Hp w v str session wr fr ar
             transformed Hv Htrue Hsel Herr Htr Hs Hparse Hid Hu).
  - exact Hdone.
  - intros update1 update2 res1 res2 H1 H2.
    rewrite (proj2 (Hdone update1 res1 H1)), (proj2 (Hdone update2 res2 H2)).
    reflexivity.
Qed.

(** An update that never settles, one that succeeds and one that reports
    an error. *)
Lemma C9_witness :
  let supabase := Samples.backend (Fulfilled Samples.token_valid)
                    Samples.scenario_reads Unsettled in
  let w := mount (Samples.browser_holding Samples.valid_cookie) in
  let run update :=
    @fetchOptimizedKPIs Reference.runtime
      (with_update supabase update) Samples.clock "E1" "2024-01" w in
  fst (run (fun _ _ => Unsettled)) = Suspended /\
  loading (state (snd (run (fun _ _ => Unsettled)))) = true /\
  fst (run (fun _ _ => Fulfilled Samples.no_row)) = Returned tt /\
  loading (state (snd (run (fun _ _ => Fulfilled Samples.no_row)))) = false /\
  state (snd (run (fun _ _ => Fulfilled Samples.no_row))) =
  state (snd (run (fun _ _ => Fulfilled (Samples.failed "permission denied")))).
Proof.
  intros supabase w run.
  assert (He : "E1" <> "") by discriminate.
  assert (Hp : "2024-01" <> "") by discriminate.
  assert (Hv : fst (@validateSession Reference.runtime supabase Samples.clock w) =
               Returned (JBool true)) by (vm_compute; reflexivity).
  assert (Hparse : @JSON_parse Reference.runtime
                     (Samples.text_of Samples.valid_cookie) =
                   Ok (JObj [("company_id", JStr "c1");
                             ("access_token", JStr "tok-1");
                             ("expires_at", JStr "2099-01-01T00:00:00.000Z")]))
    by (vm_compute; reflexivity).
  assert (Htr : @transformedData Reference.runtime
                  (Samples.row [("etp_fin_mois", JNum 12.5)]) Samples.no_row
                  (Samples.row [("taux_absenteisme", JNull)]) =
                Ok Samples.scenario_data)
    by (vm_compute; reflexivity).
  destruct (C9_update_result_is_discarded Reference.runtime supabase
              Samples.clock "E1" "2024-01" w (JBool true) _ _ _ _
              (Samples.text_of Samples.valid_cookie) _
              He Hp Hv eq_refl eq_refl eq_refl Htr eq_refl Hparse eq_refl)
    as (Hwait & Hdone & Hsame).
  destruct (Hwait (fun _ _ => Unsettled) eq_refl) as [W1 W2].
  destruct (Hdone (fun _ _ => Fulfilled Samples.no_row) Samples.no_row eq_refl)
    as [D1 D2].
  split; [exact W1|]. split; [unfold run; rewrite W2; reflexivity|].
  split; [exact D1|]. split; [unfold run; rewrite D2; reflexivity|].
  exact (Hsame (fun _ _ => Fulfilled Samples.no_row)
               (fun _ _ => Fulfilled (Samples.failed "permission denied"))
               _ _ eq_refl eq_refl).
Defined.

(** C9, the claim as stated: with a valid session and three reads that
    succeed, the state the hook shows depends on the update. While the
    update is not settled, [loading] stays [true], where it is [false] once
    the update is fulfilled; and an update that is rejected leaves its
    reason as the error, where a fulfilled one leaves none. *)
Lemma C9_counterexample :
  let w := mount (Samples.browser_holding Samples.valid_cookie) in
  let shown update :=
    @useOptimizedKPIData Reference.runtime
      (Samples.backend (Fulfilled Samples.token_valid) Samples.scenario_reads update)
      Samples.clock "E1" "2024-01" (Samples.browser_holding Samples.valid_cookie) in
  exposed_loading (shown (Fulfilled Samples.no_row)) = false /\
  exposed_loading (shown Unsettled) = true /\
  exposed_error (shown (Fulfilled Samples.no_row)) = None /\
  exposed_error (shown (Rejected (ErrorObject "TypeError" "Failed to fetch"))) =
    Some "Failed to fetch" /\
  isValid (shown Unsettled) = true.
Proof.
  intros w shown. repeat split; vm_compute; reflexivity.
Qed.

(* ===================================================================== *)
(** ** The claims: a session without a usable expiry *)
(* ===================================================================== *)

Section Undated.
Context {RT : Runtime}.

(** The company branch does not take a session whose expiry is no date for
    an expired one: whatever it answers, its log does not say so. *)
Lemma companyGate_undated (request : NextRequest) (now : Z)
      (value : string) (sessionData expires_at : JSValue) :
  cookies request !! "company_session" = Some value ->
  decode_session value = Ok sessionData ->
  prop sessionData "expires_at" = Ok expires_at ->
  date_before_now expires_at now = Ok false ->
  console (companyGate request now) = [] \/
  console (companyGate request now) =
    [("[Middleware] Invalid session data for " ++ pathname request)%string] \/
  console (companyGate request now) =
    [("[Middleware] Session parsing error for " ++ pathname request ++ ":")%string].
Proof.
  unfold companyGate. intros -> -> Hp Hd. simpl. rewrite Hp. simpl. rewrite Hd.
  rewrite (prop_optProp _ _ _ "company_id" Hp). simpl.
  destruct (ToBoolean (optProp sessionData "company_id")); simpl; [|auto].
  rewrite (prop_optProp _ _ _ "access_token" Hp). simpl.
  destruct (ToBoolean (optProp sessionData "access_token")); simpl; [|auto].
  destruct (Headers_set (headers request) "x-company-id" _) as [h1|e]; simpl; [|auto].
  destruct (Headers_set h1 "x-access-token" _) as [h2|e]; simpl; auto.
Qed.

End Undated.

(** C10, as amended. For a session whose [expires_at] is absent, or is a
    value that [new Date] turns, without throwing, into an invalid date, the
    comparison [new Date(expires_at) < new Date()] is false, so that the
    session is not treated as expired. Each check says so on its own: the
    admin branch, on any request whose [admin_session] cookie holds the
    session, lets the request through; the company branch, on any request
    whose [company_session] cookie holds it, does not answer "Session
    expired"; the hook's check, in any browser that stores it, clears
    nothing and goes on to the validation call. In particular an
    [admin_session] cookie that decodes to an object without any field
    passes the admin branch, which tests nothing but the expiry. *)
Theorem C10_session_without_expiry_is_not_expired :
  forall (RT : Runtime) (now : Z) (session expires_at : JSValue),
    prop session "expires_at" = Ok expires_at ->
    expires_at = JUndefined \/ newDate expires_at = Ok None ->
    date_before_now expires_at now = Ok false /\
    (forall (request : NextRequest) (value : string),
       cookies request !! "admin_session" = Some value ->
       decode_session value = Ok session ->
       adminGate request now = quiet NextResponse_next) /\
    (forall (request : NextRequest) (value : string),
       cookies request !! "company_session" = Some value ->
       decode_session value = Ok session ->
       console (companyGate request now) <>
         [("[Middleware] Session expired for " ++ pathname request)%string]) /\
    (forall (supabase : SupabaseClient) (w : World) (str : string),
       localStorage (browser w) !! "company_session" = Some str ->
       str <> "" ->
       JSON_parse str = Ok session ->
       validateSession supabase now w =
         (rpc_verdict supabase (optProp session "access_token"),
          after_rpc w (optProp session "access_token"))) /\
    (forall (request : NextRequest) (value : string),
       cookies request !! "admin_session" = Some value ->
       decode_session value = Ok (JObj []) ->
       adminGate request now = quiet NextResponse_next).
Proof.
  intros RT now session expires_at Hx Hno.
  assert (Hd : date_before_now expires_at now = Ok false).
  { apply date_before_now_invalid. destruct Hno as [-> | H]; [reflexivity|exact H]. }
  split; [exact Hd|].
  split.
  { intros request value Ha Hda.
    exact (adminGate_not_expired request now value session expires_at Ha Hda Hx Hd). }
  split.
  { intros request value Hc Hdc.
    destruct (companyGate_undated request now value session expires_at Hc Hdc Hx Hd)
      as [-> | [-> | ->]]; simpl; intros H; try discriminate;
      injection H as H; discriminate. }
  split.
  { intros supabase w str Hs Hne Hp.
    exact (validateSession_asks supabase now w str session expires_at
             Hs Hne Hp Hx Hd). }
  intros request' value' Hc' Hd'.
  apply (adminGate_not_expired request' now value' (JObj []) JUndefined Hc' Hd');
    reflexivity.
Qed.

(** A session with no [expires_at]: in an admin cookie alone, and in the
    browser's store alone; and the cookie [e30=], base64 of an object
    without fields. *)
Lemma C10_witness :
  let request := Samples.request_to "/admin/users"
                   (Samples.admin_jar Samples.undated_cookie) in
  let bare := Samples.request_to "/admin/users"
                (Samples.admin_jar Samples.empty_object_cookie) in
  let w := mount (Samples.browser_holding Samples.undated_cookie) in
  let supabase := Samples.backend (Fulfilled Samples.token_valid)
                    Samples.scenario_reads (Fulfilled Samples.no_row) in
  @decode_session Reference.runtime Samples.undated_cookie =
    Ok (JObj [("company_id", JStr "c1"); ("access_token", JStr "tok-1")]) /\
  @decode_session Reference.runtime Samples.empty_object_cookie = Ok (JObj []) /\
  @adminGate Reference.runtime request Samples.clock = quiet NextResponse_next /\
  @adminGate Reference.runtime bare Samples.clock = quiet NextResponse_next /\
  @validateSession Reference.runtime supabase Samples.clock w =
    (Returned (JBool true), after_rpc w (JStr "tok-1")).
Proof.
  intros request bare w supabase.
  assert (Hne : Samples.text_of Samples.undated_cookie <> "")
    by (vm_compute; discriminate).
  assert (Hp : @JSON_parse Reference.runtime (Samples.text_of Samples.undated_cookie) =
               Ok (JObj [("company_id", JStr "c1"); ("access_token", JStr "tok-1")]))
    by (vm_compute; reflexivity).
  assert (Hb : @decode_session Reference.runtime Samples.empty_object_cookie =
               Ok (JObj [])) by (vm_compute; reflexivity).
  destruct (C10_session_without_expiry_is_not_expired Reference.runtime
              Samples.clock
              (JObj [("company_id", JStr "c1"); ("access_token", JStr "tok-1")])
              JUndefined eq_refl (or_introl eq_refl))
    as (_ & Hadmin & _ & Hhook & Hbare).
  split; [exact Hp|]. split; [exact Hb|].
  split; [exact (Hadmin request Samples.undated_cookie eq_refl Hp)|].
  split; [exact (Hbare bare Samples.empty_object_cookie eq_refl Hb)|].
  rewrite (Hhook supabase w (Samples.text_of Samples.undated_cookie)
             eq_refl Hne Hp).
  reflexivity.
Defined.

(** C10, the claim as stated: a session whose [expires_at] is the object
    with the one property [toString], the number 1, which is no date that
    can be parsed. [new Date] of it throws a [TypeError], so the comparison
    has no value: the admin branch answers with the redirect to
    [/admin/login], the company branch with the redirect to [/login] that
    clears the cookie, and the hook's check answers [false] and sends no
    validation call. *)
Lemma C10_counterexample :
  let admin_request := Samples.request_to "/admin/users"
                         (Samples.admin_jar Samples.unconvertible_cookie) in
  let company_request := Samples.request_to "/dashboard"
                           (Samples.company_jar Samples.unconvertible_cookie) in
  let w := mount (Samples.browser_holding Samples.unconvertible_cookie) in
  let supabase := Samples.backend (Fulfilled Samples.token_valid)
                    Samples.scenario_reads (Fulfilled Samples.no_row) in
  @decode_session Reference.runtime Samples.unconvertible_cookie =
    Ok (JObj [("company_id", JStr "c1"); ("access_token", JStr "tok-1");
              ("expires_at", JObj [("toString", JNum 1)])]) /\
  @date_before_now Reference.runtime (JObj [("toString", JNum 1)])
    Samples.clock = Throw (@not_convertible Reference.runtime) /\
  @adminGate Reference.runtime admin_request Samples.clock =
    quiet (NextResponse_redirect "/admin/login") /\
  response (@companyGate Reference.runtime company_request Samples.clock) =
    clear_cookie "company_session" (NextResponse_redirect "/login") /\
  @validateSession Reference.runtime supabase Samples.clock w =
    (Returned (JBool false), w).
Proof.
  intros admin_request company_request w supabase.
  repeat split; vm_compute; reflexivity.
Qed.

(* ===================================================================== *)
(** ** Every run of [fetchOptimizedKPIs] *)
(* ===================================================================== *)

Ltac same_end :=
  simpl; split; [reflexivity|]; split; [reflexivity|]; split; [reflexivity|];
  first [left; split; reflexivity | right; reflexivity].

Section EveryCycle.
Context {RT : Runtime}.
Variable supabase : SupabaseClient.
Variable now : Z.
Variables establishmentId period : string.

(** Where [validateSession] leaves the browser: as it was, or as the removal
    of the stored session and the cookie write leave it, and then the answer
    is [false]. *)
Lemma validateSession_browser (w w' : World) (o : Outcome JSValue) :
  validateSession supabase now w = (o, w') ->
  browser w' = browser w \/
  (browser w' = browser (after_cleanup w) /\
   requests w' = requests w /\ o = Returned (JBool false)).
Proof.
  unfold validateSession; async_unfold.
  destruct (localStorage (browser w) !! "company_session") as [str|];
    [|intros [= <- <-]; auto].
  destruct (String.eqb str ""); [intros [= <- <-]; auto|].
  destruct (JSON_parse str) as [session|e]; [|intros [= <- <-]; auto].
  destruct (prop session "expires_at") as [expires_at|e]; [|intros [= <- <-]; auto].
  destruct (date_before_now expires_at now) as [[|]|ed].
  - intros [= <- <-]. right. auto.
  - destruct (prop session "access_token") as [token|e]; [|intros [= <- <-]; auto].
    simpl. destruct (rpc_validate_access_token supabase token);
      intros [= <- <-]; auto.
  - intros [= <- <-]; auto.
Qed.

(** [validateSession] stops for ever only at a validation call that never
    settles. *)
Lemma validateSession_suspended (w w' : World) :
  validateSession supabase now w = (Suspended, w') ->
  exists token, rpc_validate_access_token supabase token = Unsettled.
Proof.
  unfold validateSession; async_unfold.
  destruct (localStorage (browser w) !! "company_session") as [str|];
    [|discriminate].
  destruct (String.eqb str ""); [discriminate|].
  destruct (JSON_parse str) as [session|e]; [|discriminate].
  destruct (prop session "expires_at") as [expires_at|e]; [|discriminate].
  destruct (date_before_now expires_at now) as [[|]|ed];
    [discriminate| |discriminate].
  destruct (prop session "access_token") as [token|e]; [|discriminate].
  simpl. destruct (rpc_validate_access_token supabase token) eqn:Hr;
    try discriminate. eauto.
Qed.

(** The facts every run shares. *)
Lemma fetch_every_run (w : World) :
  let r := fetchOptimizedKPIs supabase now establishmentId period w in
  let w' := snd r in
  (fst r = Returned tt /\ loading (state w') = false \/
   fst r = Suspended /\ loading (state w') = true /\ error (state w') = None) /\
  (data (state w') = data (state w) \/
   exists workforceRes financialRes absenceRes transformed,
     select_snapshots supabase establishmentId period =
       Fulfilled (workforceRes, financialRes, absenceRes) /\
     first_read_error workforceRes financialRes absenceRes = None /\
     transformedData workforceRes financialRes absenceRes = Ok transformed /\
     data (state w') = Some transformed) /\
  (exists sent, requests w' = requests w ++ sent /\
                Cycle.cycle_trace now establishmentId period sent) /\
  (localStorage (browser w') = localStorage (browser w) /\
   document_cookie (browser w') = document_cookie (browser w) \/
   localStorage (browser w') = delete "company_session" (localStorage (browser w)) /\
   document_cookie (browser w') = expire_cookie "company_session" (document_cookie (browser w)) /\
   error (state w') = Some "Session expirée" /\
   fst (validateSession supabase now w) = Returned (JBool false)) /\
  (location_href (browser w') = location_href (browser w) \/
   location_href (browser w') = "/login" /\
   error (state w') = Some "Session expirée") /\
  (fst r = Suspended ->
   (exists token, rpc_validate_access_token supabase token = Unsettled) \/
   select_snapshots supabase establishmentId period = Unsettled \/
   (exists id, update_last_activity supabase id now = Unsettled)).
Proof.
  unfold fetchOptimizedKPIs.
  destruct (String.eqb establishmentId "" || String.eqb period "").
  { async_unfold. simpl.
    split; [left; auto|]. split; [left; reflexivity|].
    split; [exists []; rewrite app_nil_r; split; [reflexivity|constructor]|].
    split; [left; auto|]. split; [left; reflexivity|discriminate]. }
  async_unfold. simpl. fold (started w).
  destruct (validateSession supabase now (started w)) as [o w2] eqn:Hrun.
  destruct (validateSession_frame supabase now _ _ _ Hrun)
    as (Hnt & Hst & Hce & Hloc & Hreq).
  pose proof (validateSession_browser _ _ _ Hrun) as Hbr.
  simpl in Hst, Hce, Hloc, Hreq, Hbr.
  assert (Hstore :
    localStorage (browser w2) = localStorage (browser w) /\
    document_cookie (browser w2) = document_cookie (browser w) \/
    localStorage (browser w2) = delete "company_session" (localStorage (browser w)) /\
    document_cookie (browser w2) = expire_cookie "company_session" (document_cookie (browser w)) /\
    requests w2 = requests w /\ o = Returned (JBool false)).
  { destruct Hbr as [-> | (-> & H1 & H2)]; [left; auto|right; auto]. }
  clear Hbr.
  destruct o as [v|e|]; [| exfalso; eapply Hnt; reflexivity |].
  2:{ (* the validation call never settles *)
      simpl. rewrite Hst. simpl.
      split; [right; auto|]. split; [left; reflexivity|].
      split.
      { destruct Hreq as [-> | [token ->]].
        - exists []. rewrite app_nil_r. split; [reflexivity|constructor].
        - eexists. split; [reflexivity|constructor]. }
      split; [destruct Hstore as [H | (_ & _ & _ & H)];
              [left; exact H|discriminate]|].
      split; [left; exact Hloc|].
      intros _. left. exact (validateSession_suspended _ _ Hrun). }
  destruct (ToBoolean v) eqn:Hv; simpl.
  2:{ (* invalid session *)
      rewrite Hst. simpl.
      split; [left; auto|]. split; [left; reflexivity|].
      split.
      { destruct Hreq as [-> | [token ->]].
        - exists []. rewrite app_nil_r. split; [reflexivity|constructor].
        - eexists. split; [reflexivity|constructor]. }
      assert (Hw : fst (validateSession supabase now w) = Returned v).
      { rewrite (validateSession_verdict supabase now w (started w) eq_refl), Hrun.
        reflexivity. }
      split; [destruct Hstore as [H | (H1 & H2 & _ & H3)];
              [left; exact H
              |right; split; [exact H1|]; split; [exact H2|];
               split; [reflexivity|]; rewrite Hw; exact H3]|].
      split; [right; auto|discriminate]. }
  (* valid session: the store is untouched and the call was sent *)
  assert (Hsame : localStorage (browser w2) = localStorage (browser w) /\
                  document_cookie (browser w2) = document_cookie (browser w)).
  { destruct Hstore as [H | (_ & _ & _ & H)]; [exact H|].
    injection H as ->. discriminate. }
  assert (Hsent : exists token,
             requests w2 = requests w ++ [Rpc "validate_access_token" token]).
  { destruct (validateSession_valid_inv supabase now _ _ _ Hrun Hv)
      as (str & session & expires_at & _ & _ & _ & _ & _ & _ & ->).
    simpl. eauto. }
  destruct Hsent as [token Hsent].
  assert (Hnone : forall wr fr ar,
             response_error wr = None -> response_error fr = None ->
             response_error ar = None -> first_read_error wr fr ar = None).
  { intros wr fr ar E1 E2 E3. unfold first_read_error.
    rewrite E1, E2, E3. reflexivity. }
  destruct (select_snapshots supabase establishmentId period)
    as [[[wr fr] ar] | reason |] eqn:Hsel; simpl;
    [destruct (response_error wr) as [e1|] eqn:E1; simpl;
     [|destruct (response_error fr) as [e2|] eqn:E2; simpl;
       [|destruct (response_error ar) as [e3|] eqn:E3; simpl;
         [|destruct (transformedData wr fr ar) as [transformed|te] eqn:Htr; simpl;
           [unfold update_activity; async_unfold; simpl;
            destruct (localStorage (browser w2) !! "company_session") as [str|];
            [destruct (String.eqb str "")|];
            destruct (JSON_parse _) as [session|e]; simpl;
            try (destruct (prop session "company_id") as [cid|e]; simpl;
                 try (destruct (ToBoolean cid); simpl;
                      try (destruct (update_last_activity supabase cid now)
                             eqn:Hupd; simpl)))|]]]]| |];
    rewrite ?Hst; simpl;
    (split; [first [left; split; reflexivity
                   |right; repeat split; reflexivity]|]);
    (split; [first [left; reflexivity
                   |right; exists wr, fr, ar; eexists; repeat split; eauto]|]);
    (split; [eexists; split;
             [rewrite Hsent, <- ?app_assoc; reflexivity|constructor]|]);
    (split; [left; exact Hsame|]);
    (split; [left; exact Hloc|]);
    first [discriminate | intros _; eauto].
Qed.

(** What a run shows at its end depends on the world it starts from only
    through the stored session and, for [data], through the data it found:
    two runs from worlds with the same stored session end alike, each
    keeping its own data or both setting the same new data. *)
Lemma fetch_depends_on_store (w1 w2 : World) :
  establishmentId <> "" ->
  period <> "" ->
  localStorage (browser w1) !! "company_session" =
  localStorage (browser w2) !! "company_session" ->
  let r1 := fetchOptimizedKPIs supabase now establishmentId period w1 in
  let r2 := fetchOptimizedKPIs supabase now establishmentId period w2 in
  fst r1 = fst r2 /\
  loading (state (snd r1)) = loading (state (snd r2)) /\
  error (state (snd r1)) = error (state (snd r2)) /\
  (data (state (snd r1)) = data (state w1) /\
   data (state (snd r2)) = data (state w2) \/
   data (state (snd r1)) = data (state (snd r2))).
Proof.
  intros He Hp Hstore. unfold fetchOptimizedKPIs.
  apply String.eqb_neq in He, Hp. rewrite He, Hp. simpl orb. cbv iota.
  unfold validateSession, update_activity. async_unfold. simpl.
  rewrite Hstore.
  destruct (localStorage (browser w2) !! "company_session") as [str|] eqn:Hs2;
    [|same_end].
  destruct (String.eqb str "") eqn:Hempty; [same_end|].
  destruct (JSON_parse str) as [session|e] eqn:Hparse; [|same_end].
  destruct (prop session "expires_at") as [expires_at|e]; [|same_end].
  destruct (date_before_now expires_at now) as [[|]|ed];
    [same_end| |same_end].
  destruct (prop session "access_token") as [token|e]; [|same_end].
  simpl.
  destruct (rpc_validate_access_token supabase token) as [res|reason|];
    [|same_end|same_end].
  simpl.
  destruct (ToBoolean (js_or (optProp (optIndex0 (response_data res)) "is_valid")
                             (JBool false))); [|same_end].
  simpl.
  destruct (select_snapshots supabase establishmentId period)
    as [[[wr fr] ar]|reason|]; [|same_end|same_end].
  simpl.
  destruct (response_error wr); [same_end|]. simpl.
  destruct (response_error fr); [same_end|]. simpl.
  destruct (response_error ar); [same_end|]. simpl.
  destruct (transformedData wr fr ar) as [transformed|te]; [|same_end]. simpl.
  rewrite Hstore, Hs2, Hempty, Hparse. simpl.
  destruct (prop session "company_id") as [cid|e]; [|same_end].
  simpl. destruct (ToBoolean cid); [|same_end].
  simpl. destruct (update_last_activity supabase cid now); same_end.
Qed.

End EveryCycle.

(* ===================================================================== *)
(** ** Further properties of the hook *)
(* ===================================================================== *)

(** X1. A run of [fetchOptimizedKPIs] never ends with an exception: either
    it finishes, and then [loading] is false, or it waits for ever on a
    promise of the backend that never settles, and then [loading] is still
    true and no error is shown. When the validation call, the reads and the
    update all settle, it finishes. *)
Theorem fetch_finishes_or_waits :
  forall (RT : Runtime) (supabase : SupabaseClient) (now : Z)
         (establishmentId period : string) (w : World),
    let r := fetchOptimizedKPIs supabase now establishmentId period w in
    (fst r = Returned tt /\ loading (state (snd r)) = false \/
     fst r = Suspended /\ loading (state (snd r)) = true /\
     error (state (snd r)) = None) /\
    (fst r = Suspended ->
     (exists token, rpc_validate_access_token supabase token = Unsettled) \/
     select_snapshots supabase establishmentId period = Unsettled \/
     (exists id, update_last_activity supabase id now = Unsettled)).
Proof.
  intros RT supabase now establishmentId period w r.
  destruct (fetch_every_run supabase now establishmentId period w)
    as (H1 & _ & _ & _ & _ & H6).
  split; [exact H1|exact H6].
Qed.

(** X2. A run never empties [data]: what it leaves is what it found or the
    freshly normalized result of three reads that succeeded. Data loaded
    once therefore stays shown ([isValid] stays true) through every later
    run, also one that ends with an error. *)
Theorem fetch_keeps_loaded_data :
  forall (RT : Runtime) (supabase : SupabaseClient) (now : Z)
         (establishmentId period : string) (w : World),
    isValid (expose (state w)) = true ->
    let w' := snd (fetchOptimizedKPIs supabase now establishmentId period w) in
    isValid (expose (state w')) = true /\
    (data (state w') = data (state w) \/
     exists workforceRes financialRes absenceRes transformed,
       select_snapshots supabase establishmentId period =
         Fulfilled (workforceRes, financialRes, absenceRes) /\
       first_read_error workforceRes financialRes absenceRes = None /\
       transformedData workforceRes financialRes absenceRes = Ok transformed /\
       data (state w') = Some transformed).
Proof.
  intros RT supabase now establishmentId period w Hvalid w'.
  destruct (fetch_every_run supabase now establishmentId period w)
    as (_ & H2 & _). fold w' in H2.
  split; [|exact H2].
  unfold expose in *. simpl in *.
  destruct H2 as [-> | (wr & fr & ar & transformed & _ & _ & _ & ->)];
    [exact Hvalid|reflexivity].
Qed.

(** A first run that loads the data, then a refresh after the token was
    revoked: the error is set and the data of the first run is still shown. *)
Lemma fetch_keeps_loaded_data_witness :
  let good := Samples.backend (Fulfilled Samples.token_valid)
                Samples.scenario_reads (Fulfilled Samples.no_row) in
  let revoked := Samples.backend (Fulfilled Samples.token_revoked)
                   Samples.scenario_reads (Fulfilled Samples.no_row) in
  let w := snd (@fetchOptimizedKPIs Reference.runtime good Samples.clock
                  "E1" "2024-01"
                  (mount (Samples.browser_holding Samples.valid_cookie))) in
  let w' := snd (@fetchOptimizedKPIs Reference.runtime revoked Samples.clock
                   "E1" "2024-01" w) in
  isValid (expose (state w)) = true /\
  isValid (expose (state w')) = true /\
  error (state w') = Some "Session expirée".
Proof.
  intros good revoked w w'.
  assert (Hw : isValid (expose (state w)) = true) by (vm_compute; reflexivity).
  split; [exact Hw|].
  split; [|vm_compute; reflexivity].
  exact (proj1 (fetch_keeps_loaded_data Reference.runtime revoked Samples.clock
                  "E1" "2024-01" w Hw)).
Defined.

(** X3. What one run sends is an initial part of one fixed sequence: the
    validation call, then the three reads for the hook's entity and period
    (workforce, financials, absences), then the last-activity update. No
    read leaves before the validation call, no update before the reads,
    and nothing is sent twice. *)
Theorem fetch_sends_in_order :
  forall (RT : Runtime) (supabase : SupabaseClient) (now : Z)
         (establishmentId period : string) (w : World),
    let w' := snd (fetchOptimizedKPIs supabase now establishmentId period w) in
    exists sent,
      requests w' = requests w ++ sent /\
      Cycle.cycle_trace now establishmentId period sent.
Proof.
  intros RT supabase now establishmentId period w w'.
  destruct (fetch_every_run supabase now establishmentId period w)
    as (_ & _ & H3 & _). exact H3.
Qed.

(** X4. A run leaves [localStorage] and the stored cookies as they were, or
    removes the [company_session] entry of [localStorage] and makes the one
    cookie write of line 61, after which the stored cookies are those the
    write does not replace: a [company_session] cookie that is [HttpOnly],
    under another path or set for a domain is still there. It leaves the
    location as it was or sets it to [/login]. Either change comes only
    with the error ["Session expirée"], the first only when
    [validateSession] answered [false]. *)
Theorem fetch_touches_the_browser_only_on_expiry :
  forall (RT : Runtime) (supabase : SupabaseClient) (now : Z)
         (establishmentId period : string) (w : World),
    let w' := snd (fetchOptimizedKPIs supabase now establishmentId period w) in
    (localStorage (browser w') = localStorage (browser w) /\
     document_cookie (browser w') = document_cookie (browser w) \/
     localStorage (browser w') =
       delete "company_session" (localStorage (browser w)) /\
     document_cookie (browser w') =
       expire_cookie "company_session" (document_cookie (browser w)) /\
     error (state w') = Some "Session expirée" /\
     fst (validateSession supabase now w) = Returned (JBool false)) /\
    (location_href (browser w') = location_href (browser w) \/
     location_href (browser w') = "/login" /\
     error (state w') = Some "Session expirée").
Proof.
  intros RT supabase now establishmentId period w w'.
  destruct (fetch_every_run supabase now establishmentId period w)
    as (_ & _ & _ & H4 & H5 & _). split; [exact H4|exact H5].
Qed.

(** The run without an entity or a period. *)
Lemma fetch_skips_without_ids :
  forall (RT : Runtime) (supabase : SupabaseClient) (now : Z)
         (establishmentId period : string) (w : World),
    establishmentId = "" \/ period = "" ->
    fetchOptimizedKPIs supabase now establishmentId period w =
    (Returned tt,
     {| browser := browser w;
        state := {| data := data (state w); loading := false;
                    error := error (state w) |};
        requests := requests w;
        console_errors := console_errors w |}).
Proof.
  intros RT supabase now establishmentId period w H.
  unfold fetchOptimizedKPIs.
  assert (Hb : String.eqb establishmentId "" || String.eqb period "" = true).
  { destruct H as [-> | ->]; [reflexivity|]. apply orb_true_r. }
  rewrite Hb. reflexivity.
Qed.

(** X5. Without an entity or without a period the run does nothing but set
    [loading] to false: it validates no session, sends nothing, leaves the
    browser, the data and also an error of an earlier run as they were. *)
Theorem fetch_without_entity_or_period :
  forall (RT : Runtime) (supabase : SupabaseClient) (now : Z)
         (establishmentId period : string) (w : World),
    establishmentId = "" \/ period = "" ->
    fetchOptimizedKPIs supabase now establishmentId period w =
    (Returned tt,
     {| browser := browser w;
        state := {| data := data (state w); loading := false;
                    error := error (state w) |};
        requests := requests w;
        console_errors := console_errors w |}).
Proof.
  intros RT supabase now establishmentId period w H.
  unfold fetchOptimizedKPIs.
  assert (Hb : String.eqb establishmentId "" || String.eqb period "" = true).
  { destruct H as [-> | ->]; [reflexivity|]. apply orb_true_r. }
  rewrite Hb. reflexivity.
Qed.

(** A hook mounted without a period shows no data, no error, and is not
    loading; an error of an earlier run survives such a run. *)
Lemma fetch_without_entity_or_period_witness :
  let supabase := Samples.backend (Fulfilled Samples.token_revoked)
                    Samples.scenario_reads (Fulfilled Samples.no_row) in
  let b := Samples.browser_holding Samples.valid_cookie in
  let failed := snd (@fetchOptimizedKPIs Reference.runtime supabase
                       Samples.clock "E1" "2024-01" (mount b)) in
  @useOptimizedKPIData Reference.runtime supabase Samples.clock "E1" "" b =
    {| exposed_data := None; exposed_loading := false;
       exposed_error := None; isValid := false |} /\
  error (state (snd (@fetchOptimizedKPIs Reference.runtime supabase
                       Samples.clock "E1" "" failed))) =
    Some "Session expirée".
Proof.
  intros supabase b failed. split.
  - unfold useOptimizedKPIData.
    rewrite (fetch_without_entity_or_period Reference.runtime supabase
               Samples.clock "E1" "" (mount b) (or_intror eq_refl)).
    reflexivity.
  - rewrite (fetch_without_entity_or_period Reference.runtime supabase
               Samples.clock "E1" "" failed (or_intror eq_refl)).
    vm_compute. reflexivity.
Defined.

(** X6. When the three reads are not answered but rejected (the promise of
    [Promise.all] is rejected), the run ends in the [catch]: the error is
    the message of the reason when the reason is an [Error] and
    ["Erreur de chargement des données"] when it is any other value; [data]
    stays as it was, [loading] is false, the reason is logged and no
    last-activity update is sent. *)
Theorem fetch_reads_rejected :
  forall (RT : Runtime) (supabase : SupabaseClient) (now : Z)
         (establishmentId period : string) (w : World) (v : JSValue)
         (reason : Thrown),
    establishmentId <> "" ->
    period <> "" ->
    fst (validateSession supabase now w) = Returned v ->
    ToBoolean v = true ->
    select_snapshots supabase establishmentId period = Rejected reason ->
    let w' := snd (fetchOptimizedKPIs supabase now establishmentId period w) in
    fst (fetchOptimizedKPIs supabase now establishmentId period w) = Returned tt /\
    error (state w') = Some (Cycle.caught_message reason) /\
    data (state w') = data (state w) /\
    loading (state w') = false /\
    console_errors w' = console_errors w ++ [reason] /\
    browser w' = browser w /\
    exists token, requests w' = reads_sent establishmentId period w token.
Proof.
  intros RT supabase now establishmentId period w v reason He Hp Hv Htrue Hsel.
  destruct (fetch_valid_prefix supabase now w v Hv Htrue)
    as (str & session & expires_at & Hs & Hne & Hpa & Hx & Hrun).
  unfold fetchOptimizedKPIs.
  apply String.eqb_neq in He, Hp. rewrite He, Hp. simpl orb. cbv iota.
  async_unfold. simpl. fold (started w). rewrite Hrun. rewrite Htrue. simpl.
  rewrite Hsel. simpl.
  split; [reflexivity|]. split; [destruct reason; reflexivity|].
  split; [reflexivity|]. split; [reflexivity|]. split; [reflexivity|].
  split; [reflexivity|].
  exists (optProp session "access_token"). unfold reads_sent.
  rewrite <- !app_assoc. reflexivity.
Qed.

(** A read rejected with a value that is no [Error]. *)
Lemma fetch_reads_rejected_witness :
  let supabase := Samples.backend (Fulfilled Samples.token_valid)
                    (Rejected (ThrownValue (JStr "offline")))
                    (Fulfilled Samples.no_row) in
  let w := mount (Samples.browser_holding Samples.valid_cookie) in
  let w' := snd (@fetchOptimizedKPIs Reference.runtime supabase Samples.clock
                   "E1" "2024-01" w) in
  error (state w') = Some "Erreur de chargement des données" /\
  data (state w') = None /\
  loading (state w') = false.
Proof.
  intros supabase w w'.
  assert (He : "E1" <> "") by discriminate.
  assert (Hp : "2024-01" <> "") by discriminate.
  assert (Hv : fst (@validateSession Reference.runtime supabase Samples.clock w) =
               Returned (JBool true)) by (vm_compute; reflexivity).
  destruct (fetch_reads_rejected Reference.runtime supabase Samples.clock
              "E1" "2024-01" w (JBool true) _ He Hp Hv eq_refl eq_refl)
    as (_ & H1 & H2 & H3 & _).
  split; [exact H1|]. split; [exact H2|exact H3].
Defined.

(** X7. A session that the backend refuses (the validation call is rejected,
    or answers without a truthy [is_valid] in its first row) but that has
    not expired stays where it is: the run ends with ["Session expirée"]
    and the location [/login], and [localStorage] and the cookies still
    hold the session. Only the local expiry test removes it. *)
Theorem fetch_refused_session_stays_stored :
  forall (RT : Runtime) (supabase : SupabaseClient) (now : Z)
         (establishmentId period : string) (w : World)
         (str : string) (session expires_at : JSValue),
    establishmentId <> "" ->
    period <> "" ->
    localStorage (browser w) !! "company_session" = Some str ->
    str <> "" ->
    JSON_parse str = Ok session ->
    prop session "expires_at" = Ok expires_at ->
    date_before_now expires_at now = Ok false ->
    (exists reason,
       rpc_validate_access_token supabase (optProp session "access_token") =
         Rejected reason) \/
    (exists res,
       rpc_validate_access_token supabase (optProp session "access_token") =
         Fulfilled res /\
       ToBoolean (optProp (optIndex0 (response_data res)) "is_valid") = false) ->
    let w' := snd (fetchOptimizedKPIs supabase now establishmentId period w) in
    error (state w') = Some "Session expirée" /\
    location_href (browser w') = "/login" /\
    localStorage (browser w') = localStorage (browser w) /\
    document_cookie (browser w') = document_cookie (browser w) /\
    requests w' =
      requests w ++ [Rpc "validate_access_token" (optProp session "access_token")].
Proof.
  intros RT supabase now establishmentId period w str session expires_at
         He Hp Hs Hne Hpa Hx Hd Hrefused.
  pose proof (validateSession_asks supabase now (started w) str session
                expires_at Hs Hne Hpa Hx Hd) as Hrun.
  assert (Hverdict : rpc_verdict supabase (optProp session "access_token") =
                     Returned (JBool false)).
  { unfold rpc_verdict, is_valid_of, js_or.
    destruct Hrefused as [[reason ->] | (res & -> & ->)]; reflexivity. }
  rewrite Hverdict in Hrun.
  unfold fetchOptimizedKPIs.
  apply String.eqb_neq in He, Hp. rewrite He, Hp. simpl orb. cbv iota.
  async_unfold. simpl. fold (started w). rewrite Hrun. simpl.
  repeat split; reflexivity.
Qed.

Lemma fetch_refused_session_stays_stored_witness :
  let supabase := Samples.backend (Fulfilled Samples.token_revoked)
                    Samples.scenario_reads (Fulfilled Samples.no_row) in
  let w := mount (Samples.browser_holding Samples.valid_cookie) in
  let w' := snd (@fetchOptimizedKPIs Reference.runtime supabase Samples.clock
                   "E1" "2024-01" w) in
  error (state w') = Some "Session expirée" /\
  localStorage (browser w') !! "company_session" =
    Some (Samples.text_of Samples.valid_cookie) /\
  document_cookie (browser w') = [Samples.script_cookie Samples.valid_cookie].
Proof.
  intros supabase w w'.
  assert (He : "E1" <> "") by discriminate.
  assert (Hp : "2024-01" <> "") by discriminate.
  assert (Hne : Samples.text_of Samples.valid_cookie <> "")
    by (vm_compute; discriminate).
  assert (Hpa : @JSON_parse Reference.runtime (Samples.text_of Samples.valid_cookie) =
                Ok (JObj [("company_id", JStr "c1"); ("access_token", JStr "tok-1");
                          ("expires_at", JStr "2099-01-01T00:00:00.000Z")]))
    by (vm_compute; reflexivity).
  assert (Hd : @date_before_now Reference.runtime
                 (JStr "2099-01-01T00:00:00.000Z") Samples.clock = Ok false)
    by (vm_compute; reflexivity).
  destruct (fetch_refused_session_stays_stored Reference.runtime supabase
              Samples.clock "E1" "2024-01" w _ _ _ He Hp eq_refl Hne Hpa
              eq_refl Hd
              (or_intror (ex_intro _ Samples.token_revoked (conj eq_refl eq_refl))))
    as (H1 & _ & H3 & H4 & _).
  split; [exact H1|]. subst w'. rewrite H3, H4. split; reflexivity.
Defined.

(** X8. [validateSession] answers a falsy value exactly in these cases: no
    session or an empty one is stored; the stored text is not JSON; it is
    JSON for [null]; the session has expired; its [expires_at] cannot be
    converted and [new Date] throws (an object with a [toString] property
    of its own, alone or in an array); the validation call is rejected; the
    call answers without a truthy [is_valid] in the first row of its data.
    In every other case it answers the truthy [is_valid] it got, or waits
    for the call. *)
Theorem validateSession_false_iff :
  forall (RT : Runtime) (supabase : SupabaseClient) (now : Z) (w : World),
    (exists v, fst (validateSession supabase now w) = Returned v /\
               ToBoolean v = false) <->
    InvalidCause supabase now (browser w).
Proof.
  intros RT supabase now w. split.
  - intros (v & Hv & Hfalse). exact (verdict_invalid_cause supabase now w v Hv Hfalse).
  - apply invalid_cause_verdict.
Qed.

Lemma HookState_eq (s1 s2 : HookState) :
  data s1 = data s2 -> loading s1 = loading s2 -> error s1 = error s2 ->
  s1 = s2.
Proof. destruct s1, s2. simpl. intros -> -> ->. reflexivity. Qed.

(** X9. [refresh] is idempotent on what the hook shows: with the same
    answers of the backend, a second run right after a first one ends the
    same way (finished or waiting) and leaves [data], [loading] and [error]
    exactly as the first run left them. *)
Theorem refresh_is_idempotent :
  forall (RT : Runtime) (supabase : SupabaseClient) (now : Z)
         (establishmentId period : string) (w : World),
    let once := fetchOptimizedKPIs supabase now establishmentId period w in
    let twice := fetchOptimizedKPIs supabase now establishmentId period (snd once) in
    fst twice = fst once /\
    state (snd twice) = state (snd once).
Proof.
  intros RT supabase now establishmentId period w once twice.
  destruct (String.eqb_spec establishmentId "") as [He|He].
  { subst twice once.
    rewrite !(fetch_skips_without_ids RT supabase now establishmentId
                period _ (or_introl He)). split; reflexivity. }
  destruct (String.eqb_spec period "") as [Hp|Hp].
  { subst twice once.
    rewrite !(fetch_skips_without_ids RT supabase now establishmentId
                period _ (or_intror Hp)). split; reflexivity. }
  destruct (fetch_every_run supabase now establishmentId period w)
    as (_ & _ & _ & Hstore & _). fold once in Hstore.
  destruct Hstore as [[Hls _] | (Hls & _ & _ & Hv)].
  - (* the stored session is as the first run found it *)
    assert (Hsame : localStorage (browser (snd once)) !! "company_session" =
                    localStorage (browser w) !! "company_session")
      by (rewrite Hls; reflexivity).
    destruct (fetch_depends_on_store supabase now establishmentId period
                (snd once) w He Hp Hsame) as (H1 & H2 & H3 & H4).
    fold once twice in H1, H2, H3, H4.
    split; [exact H1|].
    apply HookState_eq; [|exact H2|exact H3].
    destruct H4 as [[H4 _] | H4]; exact H4.
  - (* the first run dropped an expired session *)
    destruct (fetch_invalid_session supabase now establishmentId period He Hp
                w (JBool false) Hv eq_refl) as (F1 & F2 & _ & F4 & _).
    fold once in F1, F2, F4.
    assert (Hnone : localStorage (browser (snd once)) !! "company_session" = None)
      by (rewrite Hls; apply lookup_delete_eq).
    assert (Hv' : fst (validateSession supabase now (snd once)) =
                  Returned (JBool false))
      by (rewrite (validateSession_missing supabase now _ Hnone); reflexivity).
    destruct (fetch_invalid_session supabase now establishmentId period He Hp
                (snd once) (JBool false) Hv' eq_refl) as (G1 & G2 & G3 & G4 & _).
    fold twice in G1, G2, G3, G4.
    split; [congruence|].
    apply HookState_eq; congruence.
Qed.

(* ===================================================================== *)
(** ** Further properties of the middleware *)
(* ===================================================================== *)

Section MoreOnPaths.

Lemma prefix_extends (p path suffix : string) :
  String.prefix p path = true -> String.prefix p (path ++ suffix) = true.
Proof.
  revert path. induction p as [|c p IH]; intros path.
  - intros _. destruct (path ++ suffix)%string; reflexivity.
  - destruct path as [|d rest]; simpl; [discriminate|].
    destruct (ascii_dec c d); [apply IH|discriminate].
Qed.

Lemma prefix_split (p path : string) :
  String.prefix p path = true -> exists rest, path = (p ++ rest)%string.
Proof.
  revert path. induction p as [|c p IH]; intros path.
  - intros _. exists path. reflexivity.
  - destruct path as [|d rest]; simpl; [discriminate|].
    destruct (ascii_dec c d) as [->|]; [|discriminate].
    intros H. destruct (IH rest H) as [rest' ->]. exists rest'. reflexivity.
Qed.

Lemma eqb_prefix (path p : string) :
  String.eqb path p = true -> String.prefix p path = true.
Proof.
  intros H. apply String.eqb_eq in H. subst path.
  induction p as [|c p IH]; [reflexivity|]. simpl.
  destruct (ascii_dec c c); [exact IH|congruence].
Qed.

Lemma existsb_startsWith_extends (table : list string) (path suffix : string) :
  existsb (fun p => startsWith path p) table = true ->
  existsb (fun p => startsWith (path ++ suffix) p) table = true.
Proof.
  rewrite !existsb_exists. intros (p & Hin & Hp). exists p. split; [exact Hin|].
  apply prefix_extends, Hp.
Qed.

End MoreOnPaths.

(** X10. The three classes of paths are closed under extension: whatever is
    appended to a public, an admin or a protected path, also across the end
    of a path segment (so [/dashboard-old] and [/settingsX] count as
    protected), the result is in the same class. *)
Theorem path_classes_closed_under_extension :
  forall (path suffix : string),
    (isPublicPath path = true -> isPublicPath (path ++ suffix) = true) /\
    (isAdminPath path = true -> isAdminPath (path ++ suffix) = true) /\
    (isProtectedPath path = true -> isProtectedPath (path ++ suffix) = true).
Proof.
  intros path suffix. split; [|split].
  - unfold isPublicPath. rewrite !existsb_exists.
    intros (p & Hin & Hp). exists p. split; [exact Hin|].
    apply orb_true_intro. right. apply prefix_extends.
    apply orb_prop in Hp. destruct Hp as [Hp|Hp]; [apply eqb_prefix, Hp|exact Hp].
  - apply existsb_startsWith_extends.
  - apply existsb_startsWith_extends.
Qed.

(** X11. The middleware lets every request through as it came: for every
    path, cookie jar, header set and time its answer is
    [NextResponse.next()] with no header replaced, no cookie set and
    nothing logged. The admin and the company branch are dead code: a path
    that satisfies [isAdminPath] or [isProtectedPath] satisfies
    [isPublicPath] and is answered at line 37. *)
Theorem middleware_never_intervenes :
  forall (RT : Runtime) (request : NextRequest) (now : Z),
    middleware request now = quiet NextResponse_next /\
    (isAdminPath (pathname request) = true ->
     isPublicPath (pathname request) = true) /\
    (isProtectedPath (pathname request) = true ->
     isPublicPath (pathname request) = true).
Proof.
  intros RT request now. split; [apply middleware_passes_everything|].
  split; [apply admin_is_public|apply protected_is_public].
Qed.

Section MoreOnGates.
Context {RT : Runtime}.

Lemma Headers_set_ok (h h' : gmap string string) (name : string) (v : JSValue) :
  Headers_set h name v = Ok h' ->
  exists value, header_value v = Ok value /\
                valid_header_value value = true /\
                h' = <[name := value]> h.
Proof.
  unfold Headers_set.
  destruct (header_value v) as [value|e]; simpl; [|discriminate].
  destruct (valid_header_value value) eqn:Hv; [|discriminate].
  intros [= <-]. eauto.
Qed.

End MoreOnGates.

(** What is known when the company branch forwards. *)
Lemma companyGate_forwards_inv :
  forall (RT : Runtime) (request : NextRequest) (now : Z),
    kind (response (companyGate request now)) = Next ->
    exists value sessionData expires_at cid tok,
      cookies request !! "company_session" = Some value /\
      decode_session value = Ok sessionData /\
      prop sessionData "expires_at" = Ok expires_at /\
      date_before_now expires_at now = Ok false /\
      complete sessionData = true /\
      header_value (optProp sessionData "company_id") = Ok cid /\
      header_value (optProp sessionData "access_token") = Ok tok /\
      let forwarded :=
        <["x-access-token" := tok]>
          (<["x-company-id" := cid]> (headers request)) in
      companyGate request now = quiet (NextResponse_next_with forwarded) /\
      forall name, name <> "x-company-id" -> name <> "x-access-token" ->
                   forwarded !! name = headers request !! name.
Proof.
  intros RT request now. unfold companyGate.
  destruct (cookies request !! "company_session") as [value|]; [|discriminate].
  destruct (decode_session value) as [sessionData|e] eqn:Hd; simpl; [|discriminate].
  destruct (prop sessionData "expires_at") as [expires_at|e] eqn:Hx; simpl;
    [|discriminate].
  destruct (date_before_now expires_at now) as [[|]|ed] eqn:Hdate; simpl;
    [discriminate| |discriminate].
  rewrite (prop_optProp _ _ _ "company_id" Hx). simpl.
  destruct (ToBoolean (optProp sessionData "company_id")) eqn:Hid; simpl;
    [|discriminate].
  rewrite (prop_optProp _ _ _ "access_token" Hx). simpl.
  destruct (ToBoolean (optProp sessionData "access_token")) eqn:Htok; simpl;
    [|discriminate].
  destruct (Headers_set (headers request) "x-company-id" _) as [h1|e] eqn:H1;
    simpl; [|discriminate].
  destruct (Headers_set h1 "x-access-token" _) as [h2|e] eqn:H2;
    simpl; [|discriminate].
  intros _.
  apply Headers_set_ok in H1. destruct H1 as (cid & Hcid & _ & ->).
  apply Headers_set_ok in H2. destruct H2 as (tok & Htk & _ & ->).
  exists value, sessionData, expires_at, cid, tok.
  split; [reflexivity|]. split; [exact Hd|]. split; [exact Hx|].
  split; [exact Hdate|].
  split; [unfold complete; rewrite Hid, Htok; reflexivity|].
  split; [exact Hcid|]. split; [exact Htk|].
  split; [reflexivity|].
  intros name N1 N2.
  rewrite lookup_insert_ne by congruence.
  rewrite lookup_insert_ne by congruence. reflexivity.
Qed.

(** X12. The company branch forwards a request only with a session it has
    checked: when its answer is not a redirect, the [company_session]
    cookie decodes to a session that has not expired and whose [company_id]
    and [access_token] are both truthy; the request headers it passes on
    are the request's own with [x-company-id] and [x-access-token] set to
    those two values (as strings, trimmed), every other header untouched;
    no cookie is set and nothing is logged. *)
Theorem companyGate_forwards_only_checked_sessions :
  forall (RT : Runtime) (request : NextRequest) (now : Z),
    kind (response (companyGate request now)) = Next ->
    exists value sessionData expires_at cid tok,
      cookies request !! "company_session" = Some value /\
      decode_session value = Ok sessionData /\
      prop sessionData "expires_at" = Ok expires_at /\
      date_before_now expires_at now = Ok false /\
      complete sessionData = true /\
      header_value (optProp sessionData "company_id") = Ok cid /\
      header_value (optProp sessionData "access_token") = Ok tok /\
      let forwarded :=
        <["x-access-token" := tok]>
          (<["x-company-id" := cid]> (headers request)) in
      companyGate request now = quiet (NextResponse_next_with forwarded) /\
      forall name, name <> "x-company-id" -> name <> "x-access-token" ->
                   forwarded !! name = headers request !! name.
Proof.
  intros RT request now. unfold companyGate.
  destruct (cookies request !! "company_session") as [value|]; [|discriminate].
  destruct (decode_session value) as [sessionData|e] eqn:Hd; simpl; [|discriminate].
  destruct (prop sessionData "expires_at") as [expires_at|e] eqn:Hx; simpl;
    [|discriminate].
  destruct (date_before_now expires_at now) as [[|]|ed] eqn:Hdate; simpl;
    [discriminate| |discriminate].
  rewrite (prop_optProp _ _ _ "company_id" Hx). simpl.
  destruct (ToBoolean (optProp sessionData "company_id")) eqn:Hid; simpl;
    [|discriminate].
  rewrite (prop_optProp _ _ _ "access_token" Hx). simpl.
  destruct (ToBoolean (optProp sessionData "access_token")) eqn:Htok; simpl;
    [|discriminate].
  destruct (Headers_set (headers request) "x-company-id" _) as [h1|e] eqn:H1;
    simpl; [|discriminate].
  destruct (Headers_set h1 "x-access-token" _) as [h2|e] eqn:H2;
    simpl; [|discriminate].
  intros _.
  apply Headers_set_ok in H1. destruct H1 as (cid & Hcid & _ & ->).
  apply Headers_set_ok in H2. destruct H2 as (tok & Htk & _ & ->).
  exists value, sessionData, expires_at, cid, tok.
  split; [reflexivity|]. split; [exact Hd|]. split; [exact Hx|].
  split; [exact Hdate|].
  split; [unfold complete; rewrite Hid, Htok; reflexivity|].
  split; [exact Hcid|]. split; [exact Htk|].
  split; [reflexivity|].
  intros name N1 N2.
  rewrite lookup_insert_ne by congruence.
  rewrite lookup_insert_ne by congruence. reflexivity.
Qed.

(** A request with a valid session and a forged [x-company-id] header. *)
Lemma companyGate_forwards_only_checked_sessions_witness :
  let request :=
    {| pathname := "/dashboard";
       cookies := Samples.company_jar Samples.valid_cookie;
       headers := {[ "accept" := "text/html"; "x-company-id" := "forged" ]} |} in
  let gate := @companyGate Reference.runtime request Samples.clock in
  kind (response gate) = Next /\
  (exists value sessionData,
     cookies request !! "company_session" = Some value /\
     @decode_session Reference.runtime value = Ok sessionData /\
     complete sessionData = true) /\
  (exists h, request_headers (response gate) = Some h /\
             h !! "x-company-id" = Some "c1" /\
             h !! "x-access-token" = Some "tok-1" /\
             h !! "accept" = Some "text/html").
Proof.
  intros request gate.
  assert (Hk : kind (response gate) = Next) by (vm_compute; reflexivity).
  split; [exact Hk|]. split.
  - destruct (companyGate_forwards_only_checked_sessions Reference.runtime
                request Samples.clock Hk)
      as (value & sessionData & expires_at & cid & tok &
          H1 & H2 & _ & _ & H5 & _).
    exists value, sessionData. split; [exact H1|]. split; [exact H2|exact H5].
  - eexists. split; [vm_compute; reflexivity|].
    split; [vm_compute; reflexivity|]. split; vm_compute; reflexivity.
Defined.

(** X13. What the company branch answers is settled by the cookie alone:
    without a [company_session] cookie it redirects to [/login] and sets no
    cookie; with one it either forwards the request or redirects to
    [/login] and clears that cookie (empty value, [maxAge] 0). It never
    sets another cookie and never redirects elsewhere. *)
Theorem companyGate_answers :
  forall (RT : Runtime) (request : NextRequest) (now : Z),
    match cookies request !! "company_session" with
    | None =>
        response (companyGate request now) = NextResponse_redirect "/login"
    | Some _ =>
        (exists h, companyGate request now = quiet (NextResponse_next_with h)) \/
        response (companyGate request now) =
          clear_cookie "company_session" (NextResponse_redirect "/login")
    end.
Proof.
  intros RT request now. unfold companyGate.
  destruct (cookies request !! "company_session") as [value|]; [|reflexivity].
  destruct (decode_session value) as [sessionData|e]; simpl; [|right; reflexivity].
  destruct (prop sessionData "expires_at") as [expires_at|e]; simpl;
    [|right; reflexivity].
  destruct (date_before_now expires_at now) as [[|]|ed]; simpl;
    [right; reflexivity| |right; reflexivity].
  destruct (prop sessionData "company_id") as [company_id|e]; simpl;
    [|right; reflexivity].
  destruct (ToBoolean company_id); simpl; [|right; reflexivity].
  destruct (prop sessionData "access_token") as [access_token|e]; simpl;
    [|right; reflexivity].
  destruct (ToBoolean access_token); simpl; [|right; reflexivity].
  destruct (Headers_set (headers request) "x-company-id" company_id) as [h1|e];
    simpl; [|right; reflexivity].
  destruct (Headers_set h1 "x-access-token" access_token) as [h2|e];
    simpl; [|right; reflexivity].
  left. eauto.
Qed.

(** X14. The admin branch clears the [admin_session] cookie only for a
    session that has expired: whenever its answer sets a cookie, the cookie
    decoded to a value whose [expires_at] is a date before now, and the
    answer is the redirect to [/admin/login] with that one cookie cleared.
    A cookie that does not decode is answered by the redirect alone and
    stays in the browser. *)
Theorem adminGate_clears_only_expired :
  forall (RT : Runtime) (request : NextRequest) (now : Z),
    set_cookies (response (adminGate request now)) <> [] ->
    exists value sessionData expires_at t,
      cookies request !! "admin_session" = Some value /\
      decode_session value = Ok sessionData /\
      prop sessionData "expires_at" = Ok expires_at /\
      newDate expires_at = Ok (Some t) /\
      t < now /\
      adminGate request now =
        quiet (clear_cookie "admin_session" (NextResponse_redirect "/admin/login")).
Proof.
  intros RT request now. unfold adminGate.
  destruct (cookies request !! "admin_session") as [value|];
    [|intros H; exfalso; apply H; reflexivity].
  destruct (decode_session value) as [sessionData|e] eqn:Hd; simpl;
    [|intros H; exfalso; apply H; reflexivity].
  destruct (prop sessionData "expires_at") as [expires_at|e] eqn:Hx; simpl;
    [|intros H; exfalso; apply H; reflexivity].
  unfold date_before_now.
  destruct (newDate expires_at) as [[t|]|ed] eqn:Ht; simpl;
    [|intros H; exfalso; apply H; reflexivity
     |intros H; exfalso; apply H; reflexivity].
  destruct (Z.ltb_spec t now) as [Hlt|Hge]; simpl;
    [|intros H; exfalso; apply H; reflexivity].
  intros _. exists value, sessionData, expires_at, t. repeat split; auto.
Qed.

Lemma adminGate_clears_only_expired_witness :
  let expired := Samples.request_to "/admin/users"
                   (Samples.admin_jar Samples.expired_cookie) in
  let broken := Samples.request_to "/admin/users"
                  (Samples.admin_jar Samples.not_json_cookie) in
  @adminGate Reference.runtime expired Samples.clock =
    quiet (clear_cookie "admin_session" (NextResponse_redirect "/admin/login")) /\
  set_cookies (response (@adminGate Reference.runtime broken Samples.clock)) = [].
Proof.
  intros expired broken. split; [|vm_compute; reflexivity].
  destruct (adminGate_clears_only_expired Reference.runtime expired Samples.clock)
    as (value & sessionData & expires_at & t & _ & _ & _ & _ & _ & H).
  { vm_compute. discriminate. }
  exact H.
Defined.

(** X15. The admin branch lets through every [admin_session] cookie that
    decodes to a JSON boolean, number, string or array: such a value has no
    [expires_at], the expiry test is false, and nothing else is tested. *)
Theorem adminGate_accepts_any_non_object :
  forall (RT : Runtime) (request : NextRequest) (now : Z)
         (value : string) (sessionData : JSValue),
    cookies request !! "admin_session" = Some value ->
    decode_session value = Ok sessionData ->
    Config.not_an_object sessionData = true ->
    adminGate request now = quiet NextResponse_next.
Proof.
  intros RT request now value sessionData Hc Hd Hno.
  apply (adminGate_not_expired request now value sessionData JUndefined Hc Hd).
  - destruct sessionData; try discriminate; reflexivity.
  - reflexivity.
Qed.

(** The cookie [MQ==], base64 of the one character [1]. *)
Lemma adminGate_accepts_any_non_object_witness :
  let request := Samples.request_to "/admin/users" (Samples.admin_jar "MQ==") in
  @decode_session Reference.runtime "MQ==" = Ok (JNum 1) /\
  @adminGate Reference.runtime request Samples.clock = quiet NextResponse_next.
Proof.
  intros request.
  assert (Hd : @decode_session Reference.runtime "MQ==" = Ok (JNum 1))
    by (vm_compute; reflexivity).
  split; [exact Hd|].
  exact (adminGate_accepts_any_non_object Reference.runtime request Samples.clock
           "MQ==" (JNum 1) eq_refl Hd eq_refl).
Defined.

(** X16. [config.matcher] leaves out no path the middleware means to guard:
    every path (without line break) under an admin or a protected prefix
    matches, so the middleware is run on it. What it leaves out is any path
    that continues one of its five alternatives after the first slash,
    whatever follows, also in the middle of a segment ([/publications] is
    left out by [public]). *)
Theorem matcher_covers_guarded_paths :
  forall (path : string),
    Config.single_line path = true ->
    isAdminPath path = true \/ isProtectedPath path = true ->
    Config.matcher path = true /\
    forall (alternative rest : string),
      In alternative Config.matcher_alternatives ->
      Config.matcher ("/" ++ alternative ++ rest) = false.
Proof.
  intros path Hline Hguard. split.
  - assert (Hprefix : exists p rest,
               In p (adminPaths ++ protectedPaths) /\ path = (p ++ rest)%string).
    { destruct Hguard as [H|H]; unfold isAdminPath, isProtectedPath in H;
        apply existsb_exists in H; destruct H as (p & Hin & Hp);
        apply prefix_split in Hp; destruct Hp as [rest ->];
        exists p, rest; (split; [|reflexivity]); apply in_or_app; auto. }
    destruct Hprefix as (p & rest & Hin & ->).
    unfold Config.matcher, Config.single_line in *.
    simpl in Hin.
    repeat (destruct Hin as [<- | Hin];
            [simpl in Hline |- *; exact Hline|]).
    destruct Hin.
  - intros alternative rest Hin. unfold Config.matcher. simpl in Hin.
    repeat (destruct Hin as [<- | Hin]; [reflexivity|]).
    destruct Hin.
Qed.

Lemma matcher_covers_guarded_paths_witness :
  Config.matcher "/api/import/upload" = true /\
  Config.matcher "/publications" = false.
Proof.
  destruct (matcher_covers_guarded_paths "/api/import/upload" eq_refl
              (or_intror eq_refl)) as [H1 H2].
  split; [exact H1|].
  exact (H2 "public" "ations" (or_intror (or_intror (or_intror
           (or_intror (or_introl eq_refl)))))).
Defined.

Section MoreOnCoercion.
Context {RT : Runtime}.

Lemma number_or_zero_range (v : JSValue) (n : float) :
  number_or_zero v = Ok n ->
  is_nan n = false /\ (n = zero \/ number_truthy n = true).
Proof.
  unfold number_or_zero.
  destruct (ToNumber v) as [x|e]; simpl; [|discriminate].
  intros [= <-].
  destruct (number_truthy x) eqn:Ht.
  - split; [|right; exact Ht].
    unfold number_truthy in Ht. apply negb_true_iff in Ht.
    apply orb_false_iff in Ht. destruct Ht as [Ht _]. exact Ht.
  - split; [reflexivity|left; reflexivity].
Qed.

End MoreOnCoercion.

(** X17. Whatever the rows hold, no field of a normalized record is [NaN]:
    in every record a transform builds, each of the 22 fields is [+0] or a
    number that is neither [NaN] nor a zero. ([Infinity] is such a number
    and is kept.) A transform builds a record as soon as each of its
    columns converts; a column that does not makes [Number] throw, and no
    record is built. *)
Theorem normalized_fields_are_never_NaN :
  forall (RT : Runtime) (row : JSValue),
    let proper (x : float) :=
      is_nan x = false /\ (x = zero \/ number_truthy x = true) in
    (forall record field name,
        transform_workforce row = Ok record ->
        In (field, name) workforce_columns -> proper (field record)) /\
    (forall record field name,
        transform_financials row = Ok record ->
        In (field, name) payroll_columns -> proper (field record)) /\
    (forall record field name,
        transform_absences row = Ok record ->
        In (field, name) absence_columns -> proper (field record)) /\
    ((forall field name, In (field, name) workforce_columns ->
                         exists n, number_or_zero (column row name) = Ok n) ->
     exists record, transform_workforce row = Ok record) /\
    ((forall field name, In (field, name) payroll_columns ->
                         exists n, number_or_zero (column row name) = Ok n) ->
     exists record, transform_financials row = Ok record) /\
    ((forall field name, In (field, name) absence_columns ->
                         exists n, number_or_zero (column row name) = Ok n) ->
     exists record, transform_absences row = Ok record).
Proof.
  intros RT row proper.
  destruct transforms_normalized as (Hw & Hp & Ha).
  split; [|split; [|split; [|split; [|split]]]].
  - intros record field name Hrec Hin. unfold proper.
    exact (number_or_zero_range _ _ (proj1 (Hw row) record field name Hrec Hin)).
  - intros record field name Hrec Hin. unfold proper.
    exact (number_or_zero_range _ _ (proj1 (Hp row) record field name Hrec Hin)).
  - intros record field name Hrec Hin. unfold proper.
    exact (number_or_zero_range _ _ (proj1 (Ha row) record field name Hrec Hin)).
  - exact (proj2 (Hw row)).
  - exact (proj2 (Hp row)).
  - exact (proj2 (Ha row)).
Qed.

(** X18. For a stored session that is in date, the verdict is read off the
    first row of the validation's data alone: with [is_valid] = [x] in that
    row, [validateSession] answers [x] itself when [x] is truthy (any truthy
    value, not only [true]) and [false] otherwise. Further rows and the
    [error] field of the answer are not looked at. *)
Theorem validateSession_reads_first_row_only :
  forall (RT : Runtime) (supabase : SupabaseClient) (now : Z) (w : World)
         (str : string) (session expires_at : JSValue)
         (res : PostgrestResponse) (columns : list (string * JSValue))
         (more : list JSValue) (x : JSValue),
    localStorage (browser w) !! "company_session" = Some str ->
    str <> "" ->
    JSON_parse str = Ok session ->
    prop session "expires_at" = Ok expires_at ->
    date_before_now expires_at now = Ok false ->
    rpc_validate_access_token supabase (optProp session "access_token") =
      Fulfilled res ->
    response_data res = JArr (JObj columns :: more) ->
    lookup_prop "is_valid" columns = Some x ->
    fst (validateSession supabase now w) =
      Returned (if ToBoolean x then x else JBool false).
Proof.
  intros RT supabase now w str session expires_at res columns more x
         Hs Hne Hp Hx Hd Hr Hdata Hvalid.
  rewrite (validateSession_asks supabase now w str session expires_at
             Hs Hne Hp Hx Hd).
  simpl. unfold rpc_verdict, is_valid_of, js_or. rewrite Hr, Hdata. simpl.
  rewrite Hvalid. reflexivity.
Qed.

(** A first row that says [is_valid: "no"], a second that says [false], and
    an error beside the data: the session is taken as valid. *)
Lemma validateSession_reads_first_row_only_witness :
  let answer :=
    {| response_data := JArr [JObj [("is_valid", JStr "no")];
                              JObj [("is_valid", JBool false)]];
       response_error := Some {| message := "partial result" |} |} in
  let supabase := Samples.backend (Fulfilled answer) Samples.scenario_reads
                    (Fulfilled Samples.no_row) in
  fst (@validateSession Reference.runtime supabase Samples.clock
         (mount (Samples.browser_holding Samples.valid_cookie))) =
  Returned (JStr "no").
Proof.
  intros answer supabase.
  assert (Hne : Samples.text_of Samples.valid_cookie <> "")
    by (vm_compute; discriminate).
  assert (Hp : @JSON_parse Reference.runtime (Samples.text_of Samples.valid_cookie) =
               Ok (JObj [("company_id", JStr "c1"); ("access_token", JStr "tok-1");
                         ("expires_at", JStr "2099-01-01T00:00:00.000Z")]))
    by (vm_compute; reflexivity).
  assert (Hd : @date_before_now Reference.runtime
                 (JStr "2099-01-01T00:00:00.000Z") Samples.clock = Ok false)
    by (vm_compute; reflexivity).
  exact (validateSession_reads_first_row_only Reference.runtime supabase
           Samples.clock
           (mount (Samples.browser_holding Samples.valid_cookie))
           (Samples.text_of Samples.valid_cookie) _
           (JStr "2099-01-01T00:00:00.000Z") answer
           [("is_valid", JStr "no")] [JObj [("is_valid", JBool false)]]
           (JStr "no")
           eq_refl Hne Hp eq_refl Hd eq_refl eq_refl eq_refl).
Defined.

(** X19. The two local checks at their two times: the middleware checks a
    request at the time [now], the hook checks the browser's store at its
    own time [now'], after the page has loaded. When the company branch
    forwards a request and [localStorage] holds the text the request's
    cookie encodes, the stored session parses, its [access_token] is truthy
    and its expiry can be compared with any time; and at the hook's time
    [validateSession] goes one of two ways. If the session has not expired
    by [now'], it clears nothing and sends the validation call with that
    [access_token]; if it has expired in between, the session the
    middleware has just forwarded is dropped from the browser with no
    validation call. *)
Theorem forwarded_session_reaches_validation :
  forall (RT : Runtime) (supabase : SupabaseClient) (now now' : Z)
         (request : NextRequest) (w : World) (value str : string),
    kind (response (companyGate request now)) = Next ->
    cookies request !! "company_session" = Some value ->
    atob value = Ok str ->
    localStorage (browser w) !! "company_session" = Some str ->
    str <> "" ->
    exists session expires_at,
      JSON_parse str = Ok session /\
      prop session "expires_at" = Ok expires_at /\
      ToBoolean (optProp session "access_token") = true /\
      date_before_now expires_at now = Ok false /\
      (exists expired, date_before_now expires_at now' = Ok expired) /\
      (date_before_now expires_at now' = Ok false ->
       validateSession supabase now' w =
         (rpc_verdict supabase (optProp session "access_token"),
          after_rpc w (optProp session "access_token"))) /\
      (date_before_now expires_at now' = Ok true ->
       validateSession supabase now' w =
         (Returned (JBool false), after_cleanup w)).
Proof.
  intros RT supabase now now' request w value str Hk Hc Ha Hs Hne.
  destruct (companyGate_forwards_inv RT request now Hk)
    as (value' & session & expires_at & cid & tok &
        Hc' & Hd & Hx & Hdate & Hcomplete & _).
  assert (value' = value) by congruence. subst value'.
  unfold decode_session in Hd. rewrite Ha in Hd. simpl in Hd.
  exists session, expires_at.
  split; [exact Hd|]. split; [exact Hx|]. split.
  { unfold complete in Hcomplete. apply andb_prop in Hcomplete. tauto. }
  split; [exact Hdate|]. split.
  { revert Hdate. unfold date_before_now.
    destruct (newDate expires_at) as [[t|]|e]; simpl; [eauto|eauto|discriminate]. }
  split; intros Hlater.
  - exact (validateSession_asks supabase now' w str session expires_at
             Hs Hne Hd Hx Hlater).
  - exact (validateSession_expired supabase now' w str session expires_at
             Hs Hne Hd Hx Hlater).
Qed.

(** The session that expires in 2099, forwarded at the sample time: a hook
    that runs a second later sends it to the validation, a hook that runs in
    2100 drops it. *)
Lemma forwarded_session_reaches_validation_witness :
  let request := Samples.request_to "/dashboard"
                   (Samples.company_jar Samples.valid_cookie) in
  let w := mount (Samples.browser_holding Samples.valid_cookie) in
  let supabase := Samples.backend (Fulfilled Samples.token_valid)
                    Samples.scenario_reads (Fulfilled Samples.no_row) in
  kind (response (@companyGate Reference.runtime request Samples.clock)) = Next /\
  @validateSession Reference.runtime supabase (Samples.clock + 1000) w =
    (Returned (JBool true), after_rpc w (JStr "tok-1")) /\
  @validateSession Reference.runtime supabase 4102444800000 w =
    (Returned (JBool false), after_cleanup w).
Proof.
  intros request w supabase.
  assert (Hk : kind (response (@companyGate Reference.runtime request
                                 Samples.clock)) = Next)
    by (vm_compute; reflexivity).
  assert (Ha : @atob Reference.runtime Samples.valid_cookie =
               Ok (Samples.text_of Samples.valid_cookie))
    by (vm_compute; reflexivity).
  assert (Hne : Samples.text_of Samples.valid_cookie <> "")
    by (vm_compute; discriminate).
  assert (Hp : @JSON_parse Reference.runtime (Samples.text_of Samples.valid_cookie) =
               Ok (JObj [("company_id", JStr "c1"); ("access_token", JStr "tok-1");
                         ("expires_at", JStr "2099-01-01T00:00:00.000Z")]))
    by (vm_compute; reflexivity).
  assert (Hsoon : @date_before_now Reference.runtime
                    (JStr "2099-01-01T00:00:00.000Z") (Samples.clock + 1000) =
                  Ok false) by (vm_compute; reflexivity).
  assert (Hlate : @date_before_now Reference.runtime
                    (JStr "2099-01-01T00:00:00.000Z") 4102444800000 =
                  Ok true) by (vm_compute; reflexivity).
  split; [exact Hk|]. split.
  - destruct (forwarded_session_reaches_validation Reference.runtime supabase
                Samples.clock (Samples.clock + 1000) request w
                Samples.valid_cookie (Samples.text_of Samples.valid_cookie)
                Hk eq_refl Ha eq_refl Hne)
      as (session & expires_at & Hs & Hx & _ & _ & _ & Hgo & _).
    rewrite Hp in Hs. injection Hs as <-. injection Hx as <-.
    rewrite (Hgo Hsoon). reflexivity.
  - destruct (forwarded_session_reaches_validation Reference.runtime supabase
                Samples.clock 4102444800000 request w
                Samples.valid_cookie (Samples.text_of Samples.valid_cookie)
                Hk eq_refl Ha eq_refl Hne)
      as (session & expires_at & Hs & Hx & _ & _ & _ & _ & Hdrop).
    rewrite Hp in Hs. injection Hs as <-. injection Hx as <-.
    exact (Hdrop Hlate).
Defined.

(** X20. A column that cannot be converted fails the whole fetch: when the
    three reads of a cycle with a valid session succeed but [Number] throws
    on a column of a row found (the column holds an object with a
    [toString] property of its own), the cycle finishes with the message of
    that [TypeError] as its error, [data] as it was, [loading] false and
    the browser untouched, and the last-activity update is not sent: the
    requests are the validation call and the three reads. *)
Theorem fetch_reports_unconvertible_column :
  forall (RT : Runtime) (supabase : SupabaseClient) (now : Z)
         (establishmentId period : string) (w : World) (v : JSValue)
         (workforceRes financialRes absenceRes : PostgrestResponse)
         (e : Thrown),
    establishmentId <> "" ->
    period <> "" ->
    fst (validateSession supabase now w) = Returned v ->
    ToBoolean v = true ->
    select_snapshots supabase establishmentId period =
      Fulfilled (workforceRes, financialRes, absenceRes) ->
    first_read_error workforceRes financialRes absenceRes = None ->
    transformedData workforceRes financialRes absenceRes = Throw e ->
    let r := fetchOptimizedKPIs supabase now establishmentId period w in
    fst r = Returned tt /\
    state (snd r) =
      {| data := data (state w);
         loading := false;
         error := Some (match e with
                        | ErrorObject _ msg => msg
                        | ThrownValue _ => "Erreur de chargement des données"
                        end) |} /\
    browser (snd r) = browser w /\
    (exists token,
       requests (snd r) = reads_sent establishmentId period w token).
Proof.
  intros RT supabase now establishmentId period w v wr fr ar e
         He Hp Hv Htrue Hsel Herr Htr r.
  exact (fetch_conversion_error supabase now establishmentId period He Hp
           w v wr fr ar e Hv Htrue Hsel Herr Htr).
Qed.

(** A workforce row whose [etp_fin_mois] is the object with the one
    property [toString]. *)
Lemma fetch_reports_unconvertible_column_witness :
  let reads :=
    Fulfilled (Samples.row [("etp_fin_mois", JObj [("toString", JNum 1)])],
               Samples.no_row, Samples.no_row) in
  let supabase := Samples.backend (Fulfilled Samples.token_valid) reads
                    (Fulfilled Samples.no_row) in
  let w := mount (Samples.browser_holding Samples.valid_cookie) in
  let r := @fetchOptimizedKPIs Reference.runtime supabase Samples.clock
             "E1" "2024-01" w in
  error (state (snd r)) = Some "Cannot convert object to primitive value" /\
  data (state (snd r)) = None /\
  loading (state (snd r)) = false /\
  List.existsb is_update (requests (snd r)) = false.
Proof.
  intros reads supabase w r.
  assert (He : "E1" <> "") by discriminate.
  assert (Hp : "2024-01" <> "") by discriminate.
  assert (Hv : fst (@validateSession Reference.runtime supabase Samples.clock w) =
               Returned (JBool true)) by (vm_compute; reflexivity).
  assert (Htr : @transformedData Reference.runtime
                  (Samples.row [("etp_fin_mois", JObj [("toString", JNum 1)])])
                  Samples.no_row Samples.no_row =
                Throw (@not_convertible Reference.runtime))
    by (vm_compute; reflexivity).
  destruct (fetch_reports_unconvertible_column Reference.runtime supabase
              Samples.clock "E1" "2024-01" w (JBool true) _ _ _ _
              He Hp Hv eq_refl eq_refl eq_refl Htr)
    as (_ & Hst & _ & token & Hreq).
  fold r in Hst, Hreq. rewrite Hst, Hreq.
  repeat split; reflexivity.
Defined.
